(** * Bike-service: staff dashboard, order lifecycle, smart search

    A shallow embedding of the core of the bicycle repair shop application
    ([service/view_common.py], [service/views_staff.py], [service/models.py])
    and the verification of its specification. *)

From Stdlib Require Import ZArith Ascii String List Bool Lia QArith Qround.
From stdpp Require Import base decidable option list gmap strings pretty sorting.

Local Open Scope string_scope.
Local Open Scope Z_scope.

(** ** Python strings

    Strings are modelled as byte strings; the character classes are those of
    Python's [str] methods and of the [re] module restricted to ASCII. *)

Module PyStr.

(** [str.isspace] / [\s]: TAB..CR and FS..US, and the space. *)
Definition is_space (c : ascii) : bool :=
  let n := nat_of_ascii c in
  ((9 <=? n)%nat && (n <=? 13)%nat) || ((28 <=? n)%nat && (n <=? 32)%nat).

(** [\d] *)
Definition is_digit (c : ascii) : bool :=
  let n := nat_of_ascii c in (48 <=? n)%nat && (n <=? 57)%nat.

Definition lower_char (c : ascii) : ascii :=
  let n := nat_of_ascii c in
  if (65 <=? n)%nat && (n <=? 90)%nat then ascii_of_nat (n + 32) else c.

Fixpoint lower (s : string) : string :=
  match s with
  | EmptyString => EmptyString
  | String c s' => String (lower_char c) (lower s')
  end.

Definition nonempty (s : string) : bool :=
  match s with EmptyString => false | String _ _ => true end.

Fixpoint lstrip (s : string) : string :=
  match s with
  | EmptyString => EmptyString
  | String c s' => if is_space c then lstrip s' else s
  end.

Fixpoint rstrip (s : string) : string :=
  match s with
  | EmptyString => EmptyString
  | String c s' =>
      let r := rstrip s' in
      if is_space c && negb (nonempty r) then EmptyString else String c r
  end.

(** [s.strip()] *)
Definition strip (s : string) : string := rstrip (lstrip s).

Fixpoint all_digits (s : string) : bool :=
  match s with
  | EmptyString => true
  | String c s' => is_digit c && all_digits s'
  end.

(** [s.isdigit()] *)
Definition isdigit (s : string) : bool := nonempty s && all_digits s.

Definition digit_val (c : ascii) : Z := Z.of_nat (nat_of_ascii c) - 48.

Fixpoint int_acc (acc : Z) (s : string) : Z :=
  match s with
  | EmptyString => acc
  | String c s' => int_acc (10 * acc + digit_val c) s'
  end.

(** [int(s)] on a string of decimal digits. *)
Definition int (s : string) : Z := int_acc 0 s.

(** [re.sub(r"\D+", "", s)]: the digits of [s], in order. *)
Fixpoint digits_only (s : string) : string :=
  match s with
  | EmptyString => EmptyString
  | String c s' => if is_digit c then String c (digits_only s') else digits_only s'
  end.

(** [[t for t in re.split(r"\s+", q) if t]] *)
Fixpoint split_ws (cur : string) (s : string) : list string :=
  match s with
  | EmptyString => if nonempty cur then [cur] else []
  | String c s' =>
      if is_space c
      then (if nonempty cur then cur :: split_ws EmptyString s' else split_ws EmptyString s')
      else split_ws (cur +:+ String c EmptyString) s'
  end.

Definition tokens (q : string) : list string := split_ws EmptyString q.

(** [needle in hay] *)
Fixpoint contains (needle hay : string) : bool :=
  String.prefix needle hay ||
  match hay with
  | EmptyString => false
  | String _ hay' => contains needle hay'
  end.

(** The ORM lookup [field__icontains=needle]: substring test up to ASCII
    letter case. *)
Definition icontains (needle hay : string) : bool :=
  contains (lower needle) (lower hay).

(** [s.replace(",", ".")] *)
Fixpoint replace_comma (s : string) : string :=
  match s with
  | EmptyString => EmptyString
  | String c s' =>
      String (if Ascii.eqb c "," then "."%char else c) (replace_comma s')
  end.

End PyStr.

(** ** Dates and datetimes ([datetime.date], [datetime.datetime]) *)

Module PyDate.

Record date := mkdate { year : Z; month : Z; day : Z }.

#[global] Instance date_eq_dec : EqDecision date.
Proof. solve_decision. Defined.

Definition date_eqb (a b : date) : bool :=
  (year a =? year b) && (month a =? month b) && (day a =? day b).

(** [a < b]: dates compare as the tuples (year, month, day). *)
Definition date_ltb (a b : date) : bool :=
  (year a <? year b) ||
  ((year a =? year b) &&
   ((month a <? month b) || ((month a =? month b) && (day a <? day b)))).

Definition is_leap (y : Z) : bool :=
  (y mod 4 =? 0) && (negb (y mod 100 =? 0) || (y mod 400 =? 0)).

Definition days_before_year (y : Z) : Z :=
  let y' := y - 1 in y' * 365 + y' / 4 - y' / 100 + y' / 400.

Definition DAYS_BEFORE_MONTH : list Z :=
  [0; 31; 59; 90; 120; 151; 181; 212; 243; 273; 304; 334].

Definition days_before_month (y m : Z) : Z :=
  nth (Z.to_nat (m - 1)) DAYS_BEFORE_MONTH 0 +
  (if (2 <? m) && is_leap y then 1 else 0).

(** [d.toordinal()] *)
Definition toordinal (d : date) : Z :=
  days_before_year (year d) + days_before_month (year d) (month d) + day d.

(** [(a - b).days] *)
Definition days_between (a b : date) : Z := toordinal a - toordinal b.

Definition pad2 (n : Z) : string :=
  if n <? 10 then "0" +:+ pretty n else pretty n.

Definition pad4 (n : Z) : string :=
  if n <? 10 then "000" +:+ pretty n
  else if n <? 100 then "00" +:+ pretty n
  else if n <? 1000 then "0" +:+ pretty n
  else pretty n.

(** [d.strftime("%d.%m.%Y")] *)
Definition strftime_dmY (d : date) : string :=
  pad2 (day d) +:+ "." +:+ pad2 (month d) +:+ "." +:+ pad4 (year d).

(** [d.isoformat()] *)
Definition isoformat (d : date) : string :=
  pad4 (year d) +:+ "-" +:+ pad2 (month d) +:+ "-" +:+ pad2 (day d).

(** A datetime in the server's time zone: its calendar date and the
    microseconds elapsed since midnight. *)
Record datetime := mkdatetime { dt_date : date; dt_micros : Z }.

#[global] Instance datetime_eq_dec : EqDecision datetime.
Proof. solve_decision. Defined.

Definition MICROS_PER_DAY : Z := 86400000000.

(** [a - b] as a number of microseconds. *)
Definition micros_between (a b : datetime) : Z :=
  days_between (dt_date a) (dt_date b) * MICROS_PER_DAY + (dt_micros a - dt_micros b).

Definition datetime_eqb (a b : datetime) : bool :=
  date_eqb (dt_date a) (dt_date b) && (dt_micros a =? dt_micros b).

Definition datetime_ltb (a b : datetime) : bool :=
  date_ltb (dt_date a) (dt_date b) ||
  (date_eqb (dt_date a) (dt_date b) && (dt_micros a <? dt_micros b)).

(** [a >= b] *)
Definition datetime_geb (a b : datetime) : bool := negb (datetime_ltb a b).

End PyDate.

Export PyDate.

(** ** The data model ([service/models.py]) *)

(** [ServiceOrder.Status] *)
Inductive Status := NEW | IN_PROGRESS | WAITING_PART | READY | DONE.

#[global] Instance Status_eq_dec : EqDecision Status.
Proof. solve_decision. Defined.

Definition Status_value (s : Status) : string :=
  match s with
  | NEW => "NEW"
  | IN_PROGRESS => "IN_PROGRESS"
  | WAITING_PART => "WAITING_PART"
  | READY => "READY"
  | DONE => "DONE"
  end.

(** [value in dict(ServiceOrder.Status.choices)], with the member found. *)
Definition Status_of_string (s : string) : option Status :=
  if String.eqb s "NEW" then Some NEW
  else if String.eqb s "IN_PROGRESS" then Some IN_PROGRESS
  else if String.eqb s "WAITING_PART" then Some WAITING_PART
  else if String.eqb s "READY" then Some READY
  else if String.eqb s "DONE" then Some DONE
  else None.

Definition Status_eqb (a b : Status) : bool :=
  match a, b with
  | NEW, NEW | IN_PROGRESS, IN_PROGRESS | WAITING_PART, WAITING_PART
  | READY, READY | DONE, DONE => true
  | _, _ => false
  end.

(** [Ticket.Status] *)
Inductive TicketStatus := OPEN | WAITING_ADMIN | WAITING_CUSTOMER | CLOSED.

(** [ServiceOrderLog.Kind] *)
Inductive LogKind := SMS | EMAIL_INVITE | EMAIL_PROTOCOL | EMAIL_DONE.

Record CustomerProfile := {
  customer_pk : Z;
  full_name : string;
  email : string;
  phone_number : string;
}.

Record Bike := {
  bike_pk : Z;
  bike_customer : Z;
  brand : string;
  model : string;
  serial_number : string;
}.

(** [price] is a [DecimalField(decimal_places=2)]: an amount in cents. *)
Record ServiceOrder := {
  pk : Z;
  bike : Z;
  service_code : string;
  issue_description : string;
  work_done : string;
  status : Status;
  price : Z;
  promised_date : option date;
  checklist : gmap string bool;
  created_at : datetime;
  completed_at : option datetime;
}.

Record Ticket := {
  ticket_pk : Z;
  ticket_order : Z;
  ticket_status : TicketStatus;
  subject : string;
  message : string;
}.

Record TicketMessage := {
  tm_ticket : Z;
  tm_message : string;
}.

Record ServiceOrderLog := {
  log_order : Z;
  log_kind : LogKind;
  log_body : string;
  log_created_by : Z;
}.

(** ** Smart search ([_apply_service_panel_smart_search])

    A queryset over [ServiceOrder] is a list of rows; each row carries the
    related objects the lookups of the search reach through the joins. *)

Record TicketRow := {
  tr_ticket : Ticket;
  tr_messages : list TicketMessage;
}.

Record OrderRow := {
  row_order : ServiceOrder;
  row_bike : Bike;
  row_customer : CustomerProfile;
  row_tickets : list TicketRow;
}.

(** [re.fullmatch(r"#?\s*(\d+)", q)], returning group 1. *)
Definition code_match (q : string) : option string :=
  let q1 := match q with
            | String c r => if Ascii.eqb c "#" then r else q
            | EmptyString => q
            end in
  let q2 := PyStr.lstrip q1 in
  if PyStr.isdigit q2 then Some q2 else None.

(** [Q(id=int(code)) | Q(service_code__icontains=code)] *)
Definition exact_lookup (code : string) (r : OrderRow) : bool :=
  (pk (row_order r) =? PyStr.int code) ||
  PyStr.icontains code (service_code (row_order r)).

(** [Q(bike__customer__phone_number__icontains=token_phone)], added to the
    filter only when [token_phone] is not empty. *)
Definition phone_match (token phone : string) : bool :=
  let token_phone := PyStr.digits_only token in
  PyStr.nonempty token_phone && PyStr.icontains token_phone phone.

Definition ticket_match (token : string) (t : TicketRow) : bool :=
  PyStr.icontains token (subject (tr_ticket t))
  || PyStr.icontains token (message (tr_ticket t))
  || existsb (fun m => PyStr.icontains token (tm_message m)) (tr_messages t).

Definition token_filter (token : string) (r : OrderRow) : bool :=
  PyStr.icontains token (full_name (row_customer r))
  || PyStr.icontains token (email (row_customer r))
  || PyStr.icontains token (brand (row_bike r))
  || PyStr.icontains token (model (row_bike r))
  || PyStr.icontains token (serial_number (row_bike r))
  || PyStr.icontains token (issue_description (row_order r))
  || PyStr.icontains token (work_done (row_order r))
  || PyStr.icontains token (service_code (row_order r))
  || existsb (ticket_match token) (row_tickets r)
  || phone_match token (phone_number (row_customer r)).

(** [qs.distinct()]: one row per order. *)
Fixpoint distinct (seen : list Z) (qs : list OrderRow) : list OrderRow :=
  match qs with
  | [] => []
  | r :: qs' =>
      if bool_decide (pk (row_order r) ∈ seen) then distinct seen qs'
      else r :: distinct (pk (row_order r) :: seen) qs'
  end.

Definition _apply_service_panel_smart_search
    (orders_qs : list OrderRow) (query : string) : list OrderRow :=
  let q := PyStr.strip query in
  if negb (PyStr.nonempty q) then orders_qs
  else
    match code_match q with
    | Some code => filter (fun r => exact_lookup code r = true) orders_qs
    | None =>
        distinct []
          (fold_left (fun qs token => filter (fun r => token_filter token r = true) qs)
                     (PyStr.tokens q) orders_qs)
    end.

(** ** Due dates ([_eta_meta]) *)

Definition _eta_meta (order : ServiceOrder) (today : date) : string * string * bool :=
  match promised_date order with
  | None => ("Bez termínu", "chip-gray", false)
  | Some promised =>
      if bool_decide (is_Some (completed_at order))
      then (strftime_dmY promised, "chip-gray", false)
      else if date_ltb promised today
      then ("Mešká " +:+ strftime_dmY promised, "chip-orange", true)
      else if date_eqb today promised
      then ("Dnes " +:+ strftime_dmY promised, "chip-blue", true)
      else
        let delta := days_between promised today in
        if delta =? 1
        then ("Zajtra " +:+ strftime_dmY promised, "chip-blue", true)
        else if delta <=? 2
        then ("On time " +:+ strftime_dmY promised, "chip-blue", false)
        else (strftime_dmY promised, "chip-gray", false)
  end.

(** ** Checklist and service packages *)

Definition CHECKLIST_DEFS : list (string * string) :=
  [ ("brakes", "Brzdy");
    ("shifting", "Radenie");
    ("tyre_pressure", "Tlak v pneumatikách");
    ("bearings", "Ložiská");
    ("torque", "Dotiahnutie skrutiek");
    ("chain", "Reťaz a pohon");
    ("wheels", "Kolesá a výplet");
    ("cleaning", "Čistenie") ].

Record ServicePackage := {
  label : string;
  package_price : Z;
  package_work_done : string;
  checklist_keys : list string;
}.

Definition SERVICE_PACKAGE_DEFS : list (string * ServicePackage) :=
  [ ("basic",
     {| label := "Basic servis";
        package_price := 2900;
        package_work_done :=
          "Základná kontrola bicykla, dofúkanie pneumatík, kontrola bŕzd a radenia.";
        checklist_keys := ["brakes"; "shifting"; "tyre_pressure"; "torque"] |});
    ("full",
     {| label := "Full servis";
        package_price := 6900;
        package_work_done :=
          "Kompletný servis pohonu, bŕzd, radenia, ložísk a finálne čistenie bicykla.";
        checklist_keys := ["brakes"; "shifting"; "tyre_pressure"; "bearings";
                           "torque"; "chain"; "wheels"; "cleaning"] |});
    ("brake_setup",
     {| label := "Brake setup";
        package_price := 3900;
        package_work_done :=
          "Nastavenie bŕzd, centrovanie kotúčov, kontrola opotrebenia platničiek a test funkčnosti.";
        checklist_keys := ["brakes"; "torque"; "wheels"] |}) ].

(** [SERVICE_PACKAGE_DEFS.get(package_key)] *)
Fixpoint package_get (defs : list (string * ServicePackage)) (key : string)
    : option ServicePackage :=
  match defs with
  | [] => None
  | (k, p) :: defs' => if String.eqb k key then Some p else package_get defs' key
  end.

(** [{key: key in package["checklist_keys"] for key, _ in CHECKLIST_DEFS}] *)
Definition package_checklist (package : ServicePackage) : gmap string bool :=
  list_to_map
    (map (fun d => (d.1, bool_decide (d.1 ∈ checklist_keys package))) CHECKLIST_DEFS).

(** ** The entity store *)

Record Store := {
  customers : gmap Z CustomerProfile;
  bikes : gmap Z Bike;
  orders : gmap Z ServiceOrder;
  tickets : gmap Z Ticket;
  logs : list ServiceOrderLog;
}.

Definition set_orders (f : gmap Z ServiceOrder → gmap Z ServiceOrder) (s : Store) : Store :=
  {| customers := customers s; bikes := bikes s; orders := f (orders s);
     tickets := tickets s; logs := logs s |}.

Definition add_log (l : ServiceOrderLog) (s : Store) : Store :=
  {| customers := customers s; bikes := bikes s; orders := orders s;
     tickets := tickets s; logs := (logs s ++ [l])%list |}.

(** The rows of a table in primary-key order. *)
Definition pk_le {A} (a b : Z * A) : Prop := a.1 ≤ b.1.

#[global] Instance pk_le_dec {A} : RelDecision (@pk_le A).
Proof. intros a b. unfold pk_le. apply _. Defined.

Definition rows {A} (m : gmap Z A) : list A :=
  (merge_sort pk_le (map_to_list m)).*2.

(** The customer an order belongs to ([order.bike.customer]). *)
Definition order_customer (s : Store) (o : ServiceOrder) : option CustomerProfile :=
  b ← bikes s !! bike o; customers s !! bike_customer b.

(** ** Loyalty ([_loyalty_stats_for_profile]) *)

Record LoyaltyStats := {
  loyalty_total_spent : Z;
  loyalty_points : Z;
  loyalty_discount_eur : Z;
  loyalty_points_to_next_eur : Z;
}.

(** The orders selected by
    [filter(bike__customer=profile, completed_at__isnull=False)]. *)
Definition completed_orders_of (s : Store) (profile : CustomerProfile) : list ServiceOrder :=
  filter (fun o =>
            (customer_pk <$> order_customer s o) = Some (customer_pk profile)
            ∧ is_Some (completed_at o))
         (rows (orders s)).

(** [Coalesce(Sum("price"), Value(Decimal("0.00")))], in cents. *)
Definition sum_price (l : list ServiceOrder) : Z :=
  foldr (fun o acc => price o + acc) 0 l.

Definition _loyalty_stats_for_profile (s : Store) (profile : CustomerProfile) : LoyaltyStats :=
  let total_spent := sum_price (completed_orders_of s profile) in
  (* (total_spent / Decimal("2")).to_integral_value(rounding=ROUND_DOWN):
     euros halved and truncated towards zero *)
  let points := Z.quot total_spent 200 in
  let discount_eur := points / 10 in
  let remainder := points mod 10 in
  let points_to_next := if remainder =? 0 then 0 else 10 - remainder in
  {| loyalty_total_spent := total_spent;
     loyalty_points := points;
     loyalty_discount_eur := discount_eur;
     loyalty_points_to_next_eur := points_to_next |}.

(** ** Floating-point numbers

    The dashboard computes one average in Python floats.  The float type and
    the operations used on it are an interface; the development holds for
    every implementation of it. *)

Class PyFloat := {
  float : Type;
  (** [float(n)], also the literals [0.0] and [86400.0] *)
  float_of_Z : Z → float;
  (** [a / b] on two integers (as in [timedelta.total_seconds]) *)
  int_truediv : Z → Z → float;
  (** [x / y] *)
  float_div : float → float → float;
  (** [sum(xs)] *)
  float_sum : list float → float;
  (** [round(x, ndigits)] *)
  float_round : float → Z → float;
}.

Section Dashboard.
Context `{PyFloat}.

(** ** The dashboard snapshot and its cache *)

Record Snapshot := {
  waiting_tickets_count : nat;
  stat_orders_new : nat;
  stat_orders_in_progress : nat;
  stat_orders_done_today : nat;
  unfinished_count : nat;
  open_tickets_count : nat;
  completed_last_7_days : nat;
  avg_repair_days : float;
}.

(** The cache backend, restricted to the keys of the dashboard: the integer
    stored under ["service:dashboard:version"] (written with [timeout=None],
    so it never expires) and the snapshots, each under its full key with the
    instant at which it expires. *)
Record Cache := {
  cache_version : option Z;
  cache_stats : gmap string (Snapshot * Z);
}.

(** The instant of a clock reading, in microseconds. *)
Definition timestamp (now : datetime) : Z :=
  toordinal (dt_date now) * MICROS_PER_DAY + dt_micros now.

(** [cache.get(key)] on a snapshot key. *)
Definition cache_get_stats (c : Cache) (now : datetime) (key : string) : option Snapshot :=
  match cache_stats c !! key with
  | Some (v, expires) => if expires <=? timestamp now then None else Some v
  | None => None
  end.

(** [cache.set(key, data, timeout=ttl_seconds)] *)
Definition cache_set_stats (c : Cache) (now : datetime) (key : string)
    (data : Snapshot) (ttl_seconds : Z) : Cache :=
  {| cache_version := cache_version c;
     cache_stats := <[key := (data, timestamp now + ttl_seconds * 1000000)]> (cache_stats c) |}.

(** [cache.get("service:dashboard:version", default)] *)
Definition cache_get_version (c : Cache) (default : Z) : Z :=
  match cache_version c with Some v => v | None => default end.

(** [cache.set("service:dashboard:version", v, timeout=None)] *)
Definition cache_set_version (c : Cache) (v : Z) : Cache :=
  {| cache_version := Some v; cache_stats := cache_stats c |}.

(** [cache.add("service:dashboard:version", v, timeout=None)]: stores the
    value only when the key is absent, and tells whether it did. *)
Definition cache_add_version (c : Cache) (v : Z) : bool * Cache :=
  match cache_version c with
  | Some _ => (false, c)
  | None => (true, cache_set_version c v)
  end.

(** [cache.incr("service:dashboard:version")]; [None] is the [ValueError]
    raised when the key is absent. *)
Definition cache_incr_version (c : Cache) : option Cache :=
  match cache_version c with
  | Some v => Some (cache_set_version c (v + 1))
  | None => None
  end.

Definition invalidate_dashboard_cache (c : Cache) : Cache :=
  let '(added, c1) := cache_add_version c 1 in
  if added then c1
  else match cache_incr_version c1 with
       | Some c2 => c2
       | None => cache_set_version c1 1
       end.

(** [f"service:dashboard:stats:v{version}:{today.isoformat()}"] *)
Definition stats_key (version : Z) (today : date) : string :=
  "service:dashboard:stats:v" +:+ pretty version +:+ ":" +:+ isoformat today.

(** [order_by("-completed_at")]: the database orders the rows by the stored
    instant, latest first. *)
Definition completed_ts (o : ServiceOrder) : Z :=
  match completed_at o with Some c => timestamp c | None => 0 end.

Definition completed_desc (a b : ServiceOrder) : Prop :=
  completed_ts b ≤ completed_ts a.

#[global] Instance completed_desc_dec : RelDecision completed_desc.
Proof. intros a b. unfold completed_desc. apply _. Defined.

(** [ServiceOrder.objects.filter(completed_at__isnull=False)
      .order_by("-completed_at")[:200]] *)
Definition recent_completed (db : Store) : list ServiceOrder :=
  take 200 (merge_sort completed_desc
              (filter (fun o => is_Some (completed_at o)) (rows (orders db)))).

(** The rows kept by the comprehension that computes [durations]. *)
Definition eligible (row : ServiceOrder) : bool :=
  match completed_at row with
  | Some c => datetime_geb c (created_at row)
  | None => false
  end.

(** [(row.completed_at - row.created_at).total_seconds() / 86400.0] *)
Definition duration_days (row : ServiceOrder) : float :=
  match completed_at row with
  | Some c =>
      float_div (int_truediv (micros_between c (created_at row)) 1000000)
                (float_of_Z 86400)
  | None => float_of_Z 0
  end.

Definition durations (db : Store) : list float :=
  map duration_days (List.filter eligible (recent_completed db)).

Definition compute_avg_repair_days (db : Store) : float :=
  let ds := durations db in
  match ds with
  | [] => float_of_Z 0
  | _ :: _ =>
      float_round (float_div (float_sum ds) (float_of_Z (Z.of_nat (length ds)))) 1
  end.

Definition count {A} (P : A → bool) (m : gmap Z A) : nat :=
  length (List.filter P (rows m)).

Definition ticket_waiting (t : Ticket) : bool :=
  match ticket_status t with OPEN | WAITING_ADMIN => true | _ => false end.

Definition ticket_not_closed (t : Ticket) : bool :=
  match ticket_status t with CLOSED => false | _ => true end.

Definition is_null {A} (x : option A) : bool :=
  match x with None => true | Some _ => false end.

Definition compute_dashboard_counts (db : Store) (today : date) : Snapshot :=
  {| waiting_tickets_count := count ticket_waiting (tickets db);
     stat_orders_new :=
       count (fun o => is_null (completed_at o) && Status_eqb (status o) NEW) (orders db);
     stat_orders_in_progress :=
       count (fun o => is_null (completed_at o) && Status_eqb (status o) IN_PROGRESS)
             (orders db);
     stat_orders_done_today :=
       count (fun o => match completed_at o with
                       | Some c => date_eqb (dt_date c) today
                       | None => false
                       end) (orders db);
     unfinished_count := count (fun o => negb (Status_eqb (status o) DONE)) (orders db);
     open_tickets_count := count ticket_not_closed (tickets db);
     (* completed_at__date__gte = today - timedelta(days=6) *)
     completed_last_7_days :=
       count (fun o => match completed_at o with
                       | Some c => toordinal today - 6 <=? toordinal (dt_date c)
                       | None => false
                       end) (orders db);
     avg_repair_days := compute_avg_repair_days db |}.

(** [get_staff_dashboard_counts(today=..., ttl_seconds=...)], reading the
    entity store [db] and the cache [c] at the instant [now]. *)
Definition get_staff_dashboard_counts (db : Store) (c : Cache) (now : datetime)
    (today : date) (ttl_seconds : Z) : Snapshot * Cache :=
  let version := cache_get_version c 1 in
  let key := stats_key version today in
  match cache_get_stats c now key with
  | Some cached => (cached, c)
  | None =>
      let data := compute_dashboard_counts db today in
      (data, cache_set_stats c now key data ttl_seconds)
  end.

End Dashboard.

(** ** Decimal prices

    [Decimal(text)], as the amount in cents that the [DecimalField] stores;
    [None] when the constructor raises [InvalidOperation].  The constructor
    is a parameter of the development. *)

Class PyDecimal := Decimal_parse : string → option Z.

(** ** Requests, responses and the state a view runs in *)

Record Email := {
  mail_subject : string;
  mail_body : string;
  mail_to : list string;
}.

Inductive Level := SUCCESS | ERROR | INFO.

Inductive Response :=
  | Redirect (view : string) (params : list (string * string))
  | RedirectOrder (view : string) (order_id : Z)
  | Render (template : string) (order : option ServiceOrder)
  | NotFound.

Section Views.
Context `{PyFloat} `{PyDecimal}.

(** The entity store, the cache, the queue of outgoing mail jobs and the
    flash messages of the session. *)
Record World := {
  db : Store;
  cache : Cache;
  outbox : list Email;
  flash : list (Level * string);
}.

Definition set_db (f : Store → Store) (w : World) : World :=
  {| db := f (db w); cache := cache w; outbox := outbox w; flash := flash w |}.

Definition set_cache (f : Cache → Cache) (w : World) : World :=
  {| db := db w; cache := f (cache w); outbox := outbox w; flash := flash w |}.

(** [messages.success / error / info] *)
Definition add_message (l : Level) (text : string) (w : World) : World :=
  {| db := db w; cache := cache w; outbox := outbox w;
     flash := (flash w ++ [(l, text)])%list |}.

(** [_send_email_safely]: queues the mail unless there is no recipient. *)
Definition _send_email_safely (subject body : string) (to_list : list string)
    (w : World) : bool * World :=
  match to_list with
  | [] => (false, w)
  | _ :: _ =>
      (true,
       {| db := db w; cache := cache w;
          outbox := (outbox w ++ [{| mail_subject := subject; mail_body := body;
                                     mail_to := to_list |}])%list;
          flash := flash w |})
  end.

(** [(request.POST.get(name, "") or "").strip()] *)
Definition post_get (POST : gmap string string) (name : string) : string :=
  PyStr.strip (default "" (POST !! name)).

(** [date.fromisoformat] on the form YYYY-MM-DD. *)
Definition days_in_month (y m : Z) : Z :=
  if (m =? 2) && is_leap y then 29
  else nth (Z.to_nat (m - 1)) [31; 28; 31; 30; 31; 30; 31; 31; 30; 31; 30; 31] 0.

Definition date_fromisoformat (s : string) : option date :=
  let y := substring 0 4 s in
  let m := substring 5 2 s in
  let d := substring 8 2 s in
  if (String.length s =? 10)%nat
     && String.eqb (substring 4 1 s) "-" && String.eqb (substring 7 1 s) "-"
     && PyStr.all_digits y && PyStr.all_digits m && PyStr.all_digits d
  then
    let yy := PyStr.int y in
    let mm := PyStr.int m in
    let dd := PyStr.int d in
    if (1 <=? yy) && (1 <=? mm) && (mm <=? 12) && (1 <=? dd)
       && (dd <=? days_in_month yy mm)
    then Some (mkdate yy mm dd) else None
  else None.

Definition _parse_date (value : string) : option date :=
  let value := PyStr.strip value in
  if PyStr.nonempty value then date_fromisoformat value else None.

(** *** Field updates of an order *)

Definition with_status (st : Status) (c : option datetime) (o : ServiceOrder) : ServiceOrder :=
  {| pk := pk o; bike := bike o; service_code := service_code o;
     issue_description := issue_description o; work_done := work_done o;
     status := st; price := price o; promised_date := promised_date o;
     checklist := checklist o; created_at := created_at o; completed_at := c |}.

Definition with_promised_date (p : option date) (o : ServiceOrder) : ServiceOrder :=
  {| pk := pk o; bike := bike o; service_code := service_code o;
     issue_description := issue_description o; work_done := work_done o;
     status := status o; price := price o; promised_date := p;
     checklist := checklist o; created_at := created_at o;
     completed_at := completed_at o |}.

Definition with_checklist (cl : gmap string bool) (o : ServiceOrder) : ServiceOrder :=
  {| pk := pk o; bike := bike o; service_code := service_code o;
     issue_description := issue_description o; work_done := work_done o;
     status := status o; price := price o; promised_date := promised_date o;
     checklist := cl; created_at := created_at o; completed_at := completed_at o |}.

Definition with_price (p : Z) (o : ServiceOrder) : ServiceOrder :=
  {| pk := pk o; bike := bike o; service_code := service_code o;
     issue_description := issue_description o; work_done := work_done o;
     status := status o; price := p; promised_date := promised_date o;
     checklist := checklist o; created_at := created_at o;
     completed_at := completed_at o |}.

Definition with_texts (issue done : string) (o : ServiceOrder) : ServiceOrder :=
  {| pk := pk o; bike := bike o; service_code := service_code o;
     issue_description := issue; work_done := done;
     status := status o; price := price o; promised_date := promised_date o;
     checklist := checklist o; created_at := created_at o;
     completed_at := completed_at o |}.

(** [order.save()]: writes every field of the row. *)
Definition save_order (o : ServiceOrder) (s : Store) : Store :=
  set_orders (insert (pk o) o) s.

(** [order.save(update_fields=[...])]: writes the named fields of the row. *)
Definition save_order_fields (copy : ServiceOrder → ServiceOrder → ServiceOrder)
    (o : ServiceOrder) (s : Store) : Store :=
  set_orders (alter (copy o) (pk o)) s.

(** *** The staff panel: row actions ([service_panel], POST) *)

Definition _redirect_back (POST : gmap string string) : Response :=
  let tab := default "active" (POST !! "tab") in
  let page_num := PyStr.strip (let p := default "1" (POST !! "page") in
                               if PyStr.nonempty p then p else "1") in
  let param (name value : string) : list (string * string) :=
    if PyStr.nonempty value then [(name, value)] else [] in
  Redirect "service_panel"
    (param "tab" tab ++ param "q" (post_get POST "q")
     ++ param "status" (post_get POST "status")
     ++ param "tickets" (post_get POST "tickets")
     ++ param "done_today" (post_get POST "done_today")
     ++ (if PyStr.isdigit page_num && (1 <? PyStr.int page_num)
         then [("page", page_num)] else []))%list.

(** [action == "row_update_status"] *)
Definition row_update_status (w : World) (POST : gmap string string)
    (now : datetime) : Response * World :=
  let order_id_raw := post_get POST "order_id" in
  let new_status := post_get POST "new_status" in
  let failed := (_redirect_back POST,
                 add_message ERROR "Nepodarilo sa uložiť stav." w) in
  if PyStr.isdigit order_id_raw then
    match Status_of_string new_status with
    | Some st =>
        match orders (db w) !! PyStr.int order_id_raw with
        | Some order =>
            let completed :=
              match st with
              | DONE => match completed_at order with
                        | None => Some now
                        | Some c => Some c
                        end
              | _ => None
              end in
            let order := with_status st completed order in
            let w := set_db (save_order_fields
                               (fun o row => with_status (status o) (completed_at o) row)
                               order) w in
            let w := set_cache invalidate_dashboard_cache w in
            (_redirect_back POST, add_message SUCCESS "Stav bol uložený." w)
        | None => failed
        end
    | None => failed
    end
  else failed.

(** [action == "row_update_eta"] *)
Definition row_update_eta (w : World) (POST : gmap string string) : Response * World :=
  let order_id_raw := post_get POST "order_id" in
  let promised_raw := post_get POST "promised_date" in
  let failed := (_redirect_back POST,
                 add_message ERROR "Nepodarilo sa uložiť termín." w) in
  if PyStr.isdigit order_id_raw then
    let promised := _parse_date promised_raw in
    match orders (db w) !! PyStr.int order_id_raw with
    | Some order =>
        let order := with_promised_date promised order in
        let w := set_db (save_order_fields
                           (fun o row => with_promised_date (promised_date o) row)
                           order) w in
        let w := set_cache invalidate_dashboard_cache w in
        (_redirect_back POST, add_message SUCCESS "Termín bol uložený." w)
    | None => failed
    end
  else failed.

Definition service_panel_post (w : World) (POST : gmap string string)
    (now : datetime) : Response * World :=
  let action := post_get POST "action" in
  if String.eqb action "row_update_status" then row_update_status w POST now
  else if String.eqb action "row_update_eta" then row_update_eta w POST
  else (Redirect "service_panel" [], w).

(** *** The order detail ([service_order_admin_detail], POST) *)

(** [action == "apply_service_package"] *)
Definition apply_service_package (w : World) (order : ServiceOrder)
    (POST : gmap string string) : Response * World :=
  let package_key := post_get POST "service_package" in
  match package_get SERVICE_PACKAGE_DEFS package_key with
  | None =>
      (RedirectOrder "service_order_admin_detail" (pk order),
       add_message ERROR "Vybraný balík neexistuje." w)
  | Some package =>
      let order := with_checklist (package_checklist package)
                     (with_texts (issue_description order) (package_work_done package)
                        (with_price (package_price package) order)) in
      let w := set_db (save_order_fields
                         (fun o row =>
                            with_checklist (checklist o)
                              (with_texts (issue_description row) (work_done o)
                                 (with_price (price o) row)))
                         order) w in
      let w := set_cache invalidate_dashboard_cache w in
      (RedirectOrder "service_order_admin_detail" (pk order),
       add_message SUCCESS ("Balík „" +:+ label package +:+ "“ bol aplikovaný.") w)
  end.

Definition NL : string := String (ascii_of_nat 10) EmptyString.

(** [str(order.price)], for an amount in cents. *)
Definition price_str (cents : Z) : string :=
  (if cents <? 0 then "-" else "") +:+ pretty (Z.abs cents / 100) +:+ "."
  +:+ pad2 (Z.abs cents mod 100).

(** [order.service_code or str(order.id)] *)
Definition order_code (o : ServiceOrder) : string :=
  if PyStr.nonempty (service_code o) then service_code o else pretty (pk o).

Definition checklist_text (o : ServiceOrder) : string :=
  let checklist_lines :=
    omap (fun d : string * string =>
            if default false (checklist o !! d.1)
            then Some ("OK: " +:+ d.2) else None) CHECKLIST_DEFS in
  match checklist_lines with
  | [] => "Checklist nebol vyplnený."
  | l :: ls => foldl (fun acc x => acc +:+ NL +:+ x) l ls
  end.

Definition done_mail_body (o : ServiceOrder) (customer : CustomerProfile) : string :=
  "Ahoj " +:+ full_name customer +:+ "," +:+ NL +:+ NL
  +:+ "Servisná objednávka #" +:+ order_code o +:+ " je hotová." +:+ NL +:+ NL
  +:+ "Čo sa urobilo:" +:+ NL +:+ work_done o +:+ NL +:+ NL
  +:+ "Checklist:" +:+ NL +:+ checklist_text o +:+ NL +:+ NL
  +:+ "Cena: " +:+ price_str (price o) +:+ " €" +:+ NL.

(** The default action: the full save of the order form. *)
Definition save_order_form (w : World) (order : ServiceOrder)
    (POST : gmap string string) (now : datetime) (user : Z) : Response * World :=
  let status_raw := post_get POST "status" in
  let price_raw := post_get POST "price" in
  let issue := post_get POST "issue_description" in
  let done := post_get POST "work_done" in
  let promised_date_raw := post_get POST "promised_date" in
  let order :=
    match Status_of_string status_raw with
    | Some st => with_status st (completed_at order) order
    | None => order
    end in
  let order := with_promised_date (_parse_date promised_date_raw) order in
  (* checklist fields may be absent when the checklist UI is hidden *)
  let order :=
    if existsb (fun d : string * string =>
                  bool_decide (is_Some (POST !! ("cl_" +:+ d.1)))) CHECKLIST_DEFS
    then with_checklist
           (list_to_map
              (map (fun d : string * string =>
                      (d.1, PyStr.nonempty (default "" (POST !! ("cl_" +:+ d.1)))))
                   CHECKLIST_DEFS))
           order
    else order in
  let parsed :=
    if PyStr.nonempty price_raw
    then match Decimal_parse (PyStr.replace_comma price_raw) with
         | Some p => Some (with_price p order)
         | None => None
         end
    else Some order in
  match parsed with
  | None =>
      (Render "service_order_admin_detail.html" (Some order),
       add_message ERROR "Cena nie je v správnom formáte." w)
  | Some order =>
      let order := with_texts issue done order in
      let just_completed :=
        Status_eqb (status order) DONE && is_null (completed_at order) in
      let order :=
        if just_completed then with_status (status order) (Some now) order else order in
      let order :=
        if negb (Status_eqb (status order) DONE)
        then with_status (status order) None order else order in
      let w := set_db (save_order order) w in
      let w := set_cache invalidate_dashboard_cache w in
      let w :=
        match order_customer (db w) order with
        | Some customer =>
            if just_completed && PyStr.nonempty (email customer) then
              let w := (_send_email_safely
                          ("Servis hotový #" +:+ order_code order)
                          (done_mail_body order customer)
                          [email customer] w).2 in
              set_db (add_log {| log_order := pk order; log_kind := EMAIL_DONE;
                                 log_body := "To " +:+ email customer
                                             +:+ ": servis hotový";
                                 log_created_by := user |}) w
            else w
        | None => w
        end in
      (RedirectOrder "service_order_admin_detail" (pk order),
       add_message SUCCESS "Servisná objednávka bola uložená." w)
  end.

(** The POST branch of the view.  The actions that only send messages
    ([invite_customer_portal], [send_sms], [send_protocol_email]) are not
    part of the embedding: on them the result is [None]. *)
Definition service_order_admin_detail_post (w : World) (order_id : Z)
    (POST : gmap string string) (now : datetime) (user : Z)
    : option (Response * World) :=
  match orders (db w) !! order_id with
  | None => Some (NotFound, w)
  | Some order =>
      let action := post_get POST "action" in
      if String.eqb action "invite_customer_portal"
         || String.eqb action "send_sms"
         || String.eqb action "send_protocol_email"
      then None
      else if String.eqb action "apply_service_package"
      then Some (apply_service_package w order POST)
      else Some (save_order_form w order POST now user)
  end.

(** *** Order creation ([create_service_order], POST) *)

(** The primary key given to a new row. *)
Definition next_pk {A} (m : gmap Z A) : Z :=
  1 + map_fold (fun k _ acc => Z.max k acc) 0 m.

(** [qs.filter(...).first()] *)
Definition first_where {A} (P : A → bool) (m : gmap Z A) : option A :=
  head (List.filter P (rows m)).

(** [ServiceOrder.objects.create(bike=bike, issue_description=..., status=NEW)] *)
Definition ServiceOrder_create (bike_id : Z) (issue : string) (now : datetime)
    (s : Store) : ServiceOrder * Store :=
  let o := {| pk := next_pk (orders s); bike := bike_id; service_code := "";
              issue_description := issue; work_done := ""; status := NEW;
              price := 0; promised_date := None; checklist := ∅;
              created_at := now; completed_at := None |} in
  (o, set_orders (insert (pk o) o) s).

Definition set_customer (c : CustomerProfile) (s : Store) : Store :=
  {| customers := <[customer_pk c := c]> (customers s); bikes := bikes s;
     orders := orders s; tickets := tickets s; logs := logs s |}.

Definition add_bike (b : Bike) (s : Store) : Store :=
  {| customers := customers s; bikes := <[bike_pk b := b]> (bikes s);
     orders := orders s; tickets := tickets s; logs := logs s |}.

Definition order_created (w : World) (bike_id : Z) (issue : string)
    (now : datetime) : Response * World :=
  let '(order, s) := ServiceOrder_create bike_id issue now (db w) in
  let w := set_db (fun _ => s) w in
  let w := set_cache invalidate_dashboard_cache w in
  (RedirectOrder "service_order_admin_detail" (pk order),
   add_message SUCCESS
     ("Servisná objednávka #" +:+ order_code order +:+ " bola vytvorená.") w).

Definition create_service_order_post (w : World) (POST : gmap string string)
    (now : datetime) : Response * World :=
  let bike_id := post_get POST "bike_id" in
  let edit_customer_id := post_get POST "edit_customer_id" in
  let new_full_name := post_get POST "new_full_name" in
  let new_email := PyStr.lower (post_get POST "new_email") in
  let new_phone := post_get POST "new_phone_number" in
  let new_brand := post_get POST "new_brand" in
  let new_model := post_get POST "new_model" in
  let new_serial := post_get POST "new_serial_number" in
  let issue := post_get POST "issue_description" in
  if PyStr.isdigit bike_id then
    match bikes (db w) !! PyStr.int bike_id with
    | None => (NotFound, w)
    | Some b => order_created w (bike_pk b) issue now
    end
  else if negb (PyStr.nonempty new_full_name) || negb (PyStr.nonempty new_email)
          || negb (PyStr.nonempty new_brand) then
    (Redirect "create_service_order" [],
     add_message ERROR
       "Vyplň meno, email a aspoň značku bicykla, alebo vyber existujúci bicykel." w)
  else
    let edited :=
      if PyStr.isdigit edit_customer_id
      then customers (db w) !! PyStr.int edit_customer_id else None in
    let '(profile, w) :=
      match edited with
      | Some p =>
          let p := {| customer_pk := customer_pk p; full_name := new_full_name;
                      email := new_email; phone_number := new_phone |} in
          (Some p,
           add_message INFO
             "Použitý bol existujúci zákazník a údaje sa aktualizovali."
             (set_db (set_customer p) w))
      | None =>
          let found :=
            match first_where (fun c => String.eqb (PyStr.lower (email c)) new_email)
                              (customers (db w)) with
            | Some p => Some p
            | None =>
                if PyStr.nonempty new_phone
                then first_where (fun c => String.eqb (phone_number c) new_phone)
                                 (customers (db w))
                else None
            end in
          match found with
          | Some p =>
              (Some p,
               add_message INFO
                 "Našli sme existujúceho zákazníka podľa emailu/telefónu a použili sme jeho profil."
                 w)
          | None => (None, w)
          end
      end in
    let profile :=
      match profile with
      | None => {| customer_pk := next_pk (customers (db w));
                   full_name := new_full_name; email := new_email;
                   phone_number := new_phone |}
      | Some p =>
          {| customer_pk := customer_pk p;
             full_name := if PyStr.nonempty (full_name p) then full_name p
                          else new_full_name;
             email := if PyStr.nonempty (email p) then email p else new_email;
             phone_number :=
               if PyStr.nonempty new_phone && negb (PyStr.nonempty (phone_number p))
               then new_phone else phone_number p |}
      end in
    let w := set_db (set_customer profile) w in
    let b := {| bike_pk := next_pk (bikes (db w)); bike_customer := customer_pk profile;
                brand := new_brand; model := new_model; serial_number := new_serial |} in
    let w := set_db (add_bike b) w in
    order_created w (bike_pk b) issue now.

End Views.

(** ** Rate limiting ([service/security.py])

    The counters live in the cache under their own keys, each with the
    instant at which it expires. *)

Module RateLimit.

Abbreviation Counters := (gmap string (Z * Z)).

(** The entry of a key that has not expired at [now]. *)
Definition live (c : Counters) (now : datetime) (key : string) : option (Z * Z) :=
  match c !! key with
  | Some (v, expires) => if expires <=? timestamp now then None else Some (v, expires)
  | None => None
  end.

(** [cache.add(key, v, timeout=timeout)] *)
Definition cache_add (c : Counters) (now : datetime) (key : string) (v timeout : Z)
    : bool * Counters :=
  match live c now key with
  | Some _ => (false, c)
  | None => (true, <[key := (v, timestamp now + timeout * 1000000)]> c)
  end.

(** [cache.incr(key)]: the new value; [None] is the [ValueError] raised when
    the key is absent.  The expiry of the entry is kept. *)
Definition cache_incr (c : Counters) (now : datetime) (key : string)
    : option (Z * Counters) :=
  match live c now key with
  | Some (v, expires) => Some (v + 1, <[key := (v + 1, expires)]> c)
  | None => None
  end.

Definition _rate_limit_key (scope ident : string) : string :=
  "rl:" +:+ scope +:+ ":" +:+ ident.

(** [is_rate_limited(scope=, ident=, limit=, window_seconds=)]; the result is
    [None] when [cache.incr] raises. *)
Definition is_rate_limited (c : Counters) (now : datetime) (scope ident : string)
    (limit window_seconds : Z) : option (bool * Counters) :=
  let key := _rate_limit_key scope ident in
  let '(added, c1) := cache_add c now key 1 window_seconds in
  if added then Some (false, c1)
  else
    match cache_incr c1 now key with
    | Some (count, c2) => Some (limit <? count, c2)
    | None => None
    end.

(** [reset_rate_limit(scope=, ident=)] *)
Definition reset_rate_limit (c : Counters) (scope ident : string) : Counters :=
  delete (_rate_limit_key scope ident) c.

End RateLimit.

(** ** The order admin ([service/admin.py])

    [ServiceOrderAdmin.save_model(request, obj, form, change)]: [obj] is the
    order as the form left it.  On the change form it carries its primary
    key; on the add form the row is inserted under a new key, with the
    creation time set. *)

Section Admin.
Context `{PyFloat}.

(** [admin._send_email_safely] *)
Definition admin_send_email_safely (subject body : string) (to_list : list string)
    (w : World) : World :=
  match to_list with
  | [] => w
  | _ :: _ =>
      {| db := db w; cache := cache w;
         outbox := (outbox w ++ [{| mail_subject := subject; mail_body := body;
                                    mail_to := to_list |}])%list;
         flash := flash w |}
  end.

Definition admin_done_mail_body (obj : ServiceOrder) (customer_name customer_email : string)
    : string :=
  "Ahoj " +:+ (if PyStr.nonempty customer_name then customer_name else customer_email)
  +:+ "," +:+ NL +:+ NL
  +:+ "Servisná objednávka #" +:+ order_code obj +:+ " je hotová." +:+ NL +:+ NL
  +:+ "Čo sa urobilo:" +:+ NL +:+ work_done obj +:+ NL +:+ NL
  +:+ "Cena: " +:+ price_str (price obj) +:+ " €" +:+ NL.

(** The row inserted for an object without primary key. *)
Definition inserted (k : Z) (now : datetime) (o : ServiceOrder) : ServiceOrder :=
  {| pk := k; bike := bike o; service_code := service_code o;
     issue_description := issue_description o; work_done := work_done o;
     status := status o; price := price o; promised_date := promised_date o;
     checklist := checklist o; created_at := now; completed_at := completed_at o |}.

Definition save_model (w : World) (obj : ServiceOrder) (change : bool)
    (now : datetime) (user : Z) : World :=
  let prev := if change && negb (pk obj =? 0) then orders (db w) !! pk obj else None in
  let status_before := status <$> prev in
  let completed_before := prev ≫= completed_at in
  (* super().save_model(request, obj, form, change) *)
  let obj := if change then obj else inserted (next_pk (orders (db w))) now obj in
  let w := set_db (save_order obj) w in
  let needs_time := Status_eqb (status obj) DONE && is_null (completed_at obj) in
  let obj := if needs_time then with_status (status obj) (Some now) obj else obj in
  let w :=
    if needs_time
    then set_db (save_order_fields
                   (fun o row => with_status (status row) (completed_at o) row) obj) w
    else w in
  let just_completed :=
    needs_time
    || (Status_eqb (status obj) DONE
        && negb (bool_decide (status_before = Some DONE))) in
  if just_completed && is_null completed_before then
    let customer := order_customer (db w) obj in
    let customer_email := default "" (PyStr.strip ∘ email <$> customer) in
    let customer_name := default "" (PyStr.strip ∘ full_name <$> customer) in
    if PyStr.nonempty customer_email then
      let w := admin_send_email_safely
                 ("Servis hotový #" +:+ order_code obj)
                 (admin_done_mail_body obj customer_name customer_email)
                 [customer_email] w in
      set_db (add_log {| log_order := pk obj; log_kind := EMAIL_DONE;
                         log_body := "Email DONE odoslaný na " +:+ customer_email;
                         log_created_by := user |}) w
    else w
  else w.

End Admin.

(** ** Tickets ([service/ticket_views.py]) *)

Inductive Role := CUSTOMER | ADMIN.

(** A row of [TicketMessage] with its role and author. *)
Record MessageRow := {
  mr_message : TicketMessage;
  mr_role : Role;
  mr_author : Z;
}.

Definition TicketStatus_of_string (s : string) : option TicketStatus :=
  if String.eqb s "OPEN" then Some OPEN
  else if String.eqb s "WAITING_ADMIN" then Some WAITING_ADMIN
  else if String.eqb s "WAITING_CUSTOMER" then Some WAITING_CUSTOMER
  else if String.eqb s "CLOSED" then Some CLOSED
  else None.

Definition TicketStatus_eqb (a b : TicketStatus) : bool :=
  match a, b with
  | OPEN, OPEN | WAITING_ADMIN, WAITING_ADMIN | WAITING_CUSTOMER, WAITING_CUSTOMER
  | CLOSED, CLOSED => true
  | _, _ => false
  end.

Section Tickets.
Context `{PyFloat}.

(** The state of the ticket views: the world of the order views and the
    table of ticket messages. *)
Record Desk := {
  desk_world : World;
  desk_messages : list MessageRow;
}.

Definition on_world (f : World → World) (d : Desk) : Desk :=
  {| desk_world := f (desk_world d); desk_messages := desk_messages d |}.

(** [TicketMessage.objects.create(ticket=, role=, author_user=, message=)] *)
Definition add_ticket_message (ticket : Ticket) (role : Role) (author : Z)
    (text : string) (d : Desk) : Desk :=
  {| desk_world := desk_world d;
     desk_messages :=
       (desk_messages d
        ++ [{| mr_message := {| tm_ticket := ticket_pk ticket; tm_message := text |};
               mr_role := role; mr_author := author |}])%list |}.

Definition with_ticket_status (st : TicketStatus) (t : Ticket) : Ticket :=
  {| ticket_pk := ticket_pk t; ticket_order := ticket_order t; ticket_status := st;
     subject := subject t; message := message t |}.

(** [ticket.status = st; ticket.save(update_fields=["status"])] *)
Definition save_ticket_status (ticket : Ticket) (st : TicketStatus) (s : Store) : Store :=
  {| customers := customers s; bikes := bikes s; orders := orders s;
     tickets := alter (with_ticket_status st) (ticket_pk ticket) (tickets s);
     logs := logs s |}.

(** The customer a ticket belongs to ([ticket.order.bike.customer]). *)
Definition ticket_customer (s : Store) (t : Ticket) : option CustomerProfile :=
  o ← orders s !! ticket_order t; order_customer s o.

(** [get_object_or_404(Ticket, pk=ticket_id, order__bike__customer=profile)] *)
Definition customer_ticket (s : Store) (profile : CustomerProfile) (ticket_id : Z)
    : option Ticket :=
  t ← tickets s !! ticket_id;
  c ← ticket_customer s t;
  if customer_pk c =? customer_pk profile then Some t else None.

(** [customer_ticket_detail], POST, for a user who is not staff and has the
    profile [profile]. *)
Definition customer_ticket_detail_post (d : Desk) (profile : CustomerProfile)
    (ticket_id : Z) (POST : gmap string string) (user : Z) : Response * Desk :=
  match customer_ticket (db (desk_world d)) profile ticket_id with
  | None => (NotFound, d)
  | Some ticket =>
      let back := RedirectOrder "customer_ticket_detail" (ticket_pk ticket) in
      if TicketStatus_eqb (ticket_status ticket) CLOSED then
        (back, on_world (add_message ERROR "Ticket je zatvorený.") d)
      else
        let text := post_get POST "message" in
        if negb (PyStr.nonempty text) then
          (back, on_world (add_message ERROR "Správa nemôže byť prázdna.") d)
        else
          let d := add_ticket_message ticket CUSTOMER user text d in
          let d := on_world (set_db (save_ticket_status ticket WAITING_ADMIN)) d in
          let d := on_world (set_cache invalidate_dashboard_cache) d in
          (back, on_world (add_message SUCCESS "Správa bola odoslaná.") d)
  end.

(** [admin_ticket_detail], POST. *)
Definition admin_ticket_detail_post (d : Desk) (ticket_id : Z)
    (POST : gmap string string) (user : Z) : Response * Desk :=
  match tickets (db (desk_world d)) !! ticket_id with
  | None => (NotFound, d)
  | Some ticket =>
      let back := RedirectOrder "admin_ticket_detail" (ticket_pk ticket) in
      if bool_decide (POST !! "close" = Some "1") then
        let d := on_world (set_db (save_ticket_status ticket CLOSED)) d in
        let d := on_world (set_cache invalidate_dashboard_cache) d in
        (back, on_world (add_message SUCCESS "Ticket bol zatvorený.") d)
      else
        let new_status := post_get POST "status" in
        let '(ticket, d) :=
          match TicketStatus_of_string new_status with
          | Some st =>
              (with_ticket_status st ticket,
               on_world (set_cache invalidate_dashboard_cache)
                 (on_world (set_db (save_ticket_status ticket st)) d))
          | None => (ticket, d)
          end in
        if TicketStatus_eqb (ticket_status ticket) CLOSED then
          (back, on_world (add_message SUCCESS "Ticket bol uložený.") d)
        else
          let text := post_get POST "message" in
          if PyStr.nonempty text then
            let d := add_ticket_message ticket ADMIN user text d in
            let d := on_world (set_db (save_ticket_status ticket WAITING_CUSTOMER)) d in
            let d := on_world (set_cache invalidate_dashboard_cache) d in
            (back, on_world (add_message SUCCESS "Odpoveď bola odoslaná.") d)
          else
            (back, on_world (add_message SUCCESS "Ticket bol uložený.") d)
  end.

End Tickets.


(** * Verification *)

(** ** Facts about the string functions *)

Module PyStrFacts.
Import PyStr.

Definition all_ascii : list ascii := map ascii_of_nat (seq 0 256).

(** A boolean property of characters holds of all of them when it holds of
    the 256 of them. *)
Lemma forall_ascii (P : ascii → bool) :
  forallb P all_ascii = true → ∀ c, P c = true.
Proof.
  intros H c. rewrite forallb_forall in H. apply H.
  rewrite <- (ascii_nat_embedding c). apply in_map, in_seq.
  pose proof (nat_ascii_bounded c). lia.
Qed.

Lemma digit_not_space c : is_digit c = true → is_space c = false.
Proof.
  pose proof (forall_ascii (fun c => implb (is_digit c) (negb (is_space c)))
                eq_refl c) as H.
  simpl in H. destruct (is_digit c), (is_space c); done.
Qed.

Lemma digit_not_hash c : is_digit c = true → Ascii.eqb c "#" = false.
Proof.
  pose proof (forall_ascii (fun c => implb (is_digit c) (negb (Ascii.eqb c "#")))
                eq_refl c) as H.
  simpl in H. destruct (is_digit c), (Ascii.eqb c "#"); done.
Qed.

Lemma lower_char_digit c d :
  is_digit d = true → Ascii.eqb d (lower_char c) = Ascii.eqb d c.
Proof.
  assert (H : forallb (fun c => forallb (fun d =>
                implb (is_digit d)
                      (Bool.eqb (Ascii.eqb d (lower_char c)) (Ascii.eqb d c)))
                all_ascii) all_ascii = true) by (vm_compute; reflexivity).
  pose proof (forall_ascii _ (forall_ascii _ H c) d) as Hcd. simpl in Hcd.
  intros Hd. rewrite Hd in Hcd. simpl in Hcd. by apply eqb_prop in Hcd.
Qed.

Lemma lower_digit c : is_digit c = true → lower_char c = c.
Proof.
  pose proof (forall_ascii (fun c => implb (is_digit c) (Ascii.eqb (lower_char c) c))
                eq_refl c) as H.
  simpl in H. intros Hd. rewrite Hd in H. by apply Ascii.eqb_eq in H.
Qed.

Lemma lower_digits ds : all_digits ds = true → lower ds = ds.
Proof.
  induction ds as [|c ds IH]; simpl; [done|].
  intros [Hc Hds]%andb_prop. by rewrite (IH Hds), (lower_digit _ Hc).
Qed.

Lemma lstrip_digit_head c s :
  is_digit c = true → lstrip (String c s) = String c s.
Proof. intros H. simpl. by rewrite (digit_not_space _ H). Qed.

Lemma prefix_cons c n d h :
  String.prefix (String c n) (String d h) = Ascii.eqb c d && String.prefix n h.
Proof.
  simpl. destruct (ascii_dec c d) as [->|Hne].
  - by rewrite Ascii.eqb_refl.
  - apply Ascii.eqb_neq in Hne. by rewrite Hne.
Qed.

Lemma prefix_spec n h :
  String.prefix n h = true ↔ ∃ post, h = n +:+ post.
Proof.
  revert h. induction n as [|c n IH]; intros h.
  - split; [intros _; by exists h | by destruct h].
  - destruct h as [|d h].
    + split; [done | intros [post Hp]; done].
    + rewrite prefix_cons, andb_true_iff, IH, Ascii.eqb_eq. split.
      * intros [-> [post ->]]. by exists post.
      * intros [post Hp]. simpl in Hp. injection Hp as -> ->. eauto.
Qed.

Lemma contains_spec n h :
  contains n h = true ↔ ∃ pre post, h = pre +:+ n +:+ post.
Proof.
  induction h as [|d h IH].
  - cbn [contains]. rewrite orb_false_r, prefix_spec. split.
    + intros [post Hp]. by exists "", post.
    + intros [pre [post Hp]]. destruct pre; [by exists post|done].
  - cbn [contains]. rewrite orb_true_iff, prefix_spec, IH. split.
    + intros [[post Hp]|[pre [post Hp]]].
      * by exists "", post.
      * exists (String d pre), post. simpl. by rewrite Hp.
    + intros [pre [post Hp]]. destruct pre as [|e pre].
      * left. by exists post.
      * right. simpl in Hp. injection Hp as _ ->. eauto.
Qed.

Lemma prefix_lower_digits ds h :
  all_digits ds = true → String.prefix ds (lower h) = String.prefix ds h.
Proof.
  revert h. induction ds as [|c ds IH]; intros h; [by destruct h|].
  intros [Hc Hds]%andb_prop. destruct h as [|d h]; [done|].
  cbn [lower]. rewrite !prefix_cons, (IH _ Hds). f_equal.
  by apply lower_char_digit.
Qed.

Lemma contains_lower_digits ds h :
  all_digits ds = true → contains ds (lower h) = contains ds h.
Proof.
  intros Hds. induction h as [|d h IH].
  - done.
  - pose proof (prefix_lower_digits ds (String d h) Hds) as Hp.
    cbn [lower] in Hp. cbn [lower contains]. by rewrite Hp, IH.
Qed.

(** For a needle made of digits, [icontains] is plain containment. *)
Lemma icontains_digits ds h :
  all_digits ds = true →
  icontains ds h = true ↔ ∃ pre post, h = pre +:+ ds +:+ post.
Proof.
  intros Hds. unfold icontains.
  by rewrite (lower_digits _ Hds), (contains_lower_digits _ _ Hds), contains_spec.
Qed.

Lemma digits_only_all_digits s : all_digits (digits_only s) = true.
Proof.
  induction s as [|c s IH]; [done|]. simpl.
  destruct (is_digit c) eqn:Hc; [|done]. simpl. by rewrite Hc.
Qed.

End PyStrFacts.

(** ** Smart search *)

Module SearchFacts.
Import PyStr PyStrFacts.

(** Sample rows: an order with its bike, customer and tickets. *)
Definition sample_order (k : Z) (code issue done : string) : ServiceOrder :=
  {| pk := k; bike := 1; service_code := code; issue_description := issue;
     work_done := done; status := NEW; price := 0; promised_date := None;
     checklist := ∅;
     created_at := mkdatetime (mkdate 2024 5 1) 0; completed_at := None |}.

Definition sample_row (k : Z) (code issue done phone : string)
    (ts : list TicketRow) : OrderRow :=
  {| row_order := sample_order k code issue done;
     row_bike := {| bike_pk := 1; bike_customer := 1; brand := "Trek";
                    model := "Domane"; serial_number := "SN-1" |};
     row_customer := {| customer_pk := 1; full_name := "Test Customer";
                        email := "customer@example.com"; phone_number := phone |};
     row_tickets := ts |}.

Definition sample_ticket (subj body : string) (msgs : list string) : TicketRow :=
  {| tr_ticket := {| ticket_pk := 1; ticket_order := 1; ticket_status := OPEN;
                     subject := subj; message := body |};
     tr_messages := map (fun m => {| tm_ticket := 1; tm_message := m |}) msgs |}.

Lemma isdigit_inv ds :
  isdigit ds = true →
  ∃ c s, ds = String c s ∧ is_digit c = true ∧ all_digits ds = true.
Proof.
  unfold isdigit. destruct ds as [|c s]; [done|]. simpl.
  intros [Hc Hs]%andb_prop. exists c, s. by rewrite Hc, Hs.
Qed.

Lemma code_match_digits ds :
  isdigit ds = true → code_match ds = Some ds.
Proof.
  intros H. destruct (isdigit_inv _ H) as (c & s & -> & Hc & _).
  unfold code_match. cbv beta iota zeta.
  rewrite (digit_not_hash _ Hc), (lstrip_digit_head _ _ Hc).
  by rewrite H.
Qed.

Lemma code_match_hash_digits ds :
  isdigit ds = true → code_match ("#" +:+ ds) = Some ds.
Proof.
  intros H. destruct (isdigit_inv _ H) as (c & s & -> & Hc & _).
  unfold code_match. change ("#" +:+ String c s) with (String "#" (String c s)).
  cbv beta iota zeta. change (Ascii.eqb "#" "#") with true. cbv iota.
  rewrite (lstrip_digit_head _ _ Hc). by rewrite H.
Qed.

Lemma exact_lookup_spec ds r :
  all_digits ds = true →
  exact_lookup ds r = true ↔
  pk (row_order r) = int ds ∨
  ∃ pre post, service_code (row_order r) = pre +:+ ds +:+ post.
Proof.
  intros Hds. unfold exact_lookup.
  by rewrite orb_true_iff, Z.eqb_eq, (icontains_digits _ _ Hds).
Qed.

Lemma filter_singleton (P : OrderRow → bool) pre r post :
  Forall (fun x => P x = false) pre → Forall (fun x => P x = false) post →
  P r = true →
  filter (fun x => P x = true) (pre ++ r :: post)%list = [r].
Proof.
  intros Hpre Hpost Hr.
  assert (Hnil : ∀ l, Forall (fun x => P x = false) l →
                      filter (fun x => P x = true) l = []).
  { induction 1 as [|x l Hx _ IH]; [done|].
    rewrite filter_cons_False; [done|]. by rewrite Hx. }
  rewrite filter_app, (Hnil _ Hpre), filter_cons_True by done.
  by rewrite (Hnil _ Hpost).
Qed.

(** C3. A query that, once stripped, is an optional [#] followed by digits is
    an exact lookup: the search returns exactly the orders of the collection
    whose id is the number written by the digits or whose service code
    contains the digits, in the order of the collection, whatever the other
    fields hold (no token scan takes place).  In particular "#777" over a
    collection where one order has code "ABC-777" and no other order has
    id 777 or a code containing "777" returns that order alone. *)
Theorem smart_search_exact_lookup
    (orders_qs : list OrderRow) (query ds : string) :
  isdigit ds = true →
  strip query = ds ∨ strip query = "#" +:+ ds →
  _apply_service_panel_smart_search orders_qs query
    = filter (fun r => exact_lookup ds r = true) orders_qs
  ∧ (∀ r, r ∈ _apply_service_panel_smart_search orders_qs query ↔
          r ∈ orders_qs ∧
          (pk (row_order r) = int ds ∨
           ∃ pre post, service_code (row_order r) = pre +:+ ds +:+ post))
  ∧ (ds = "777" →
     ∀ pre target post,
       orders_qs = (pre ++ target :: post)%list →
       service_code (row_order target) = "ABC-777" →
       (∀ r, r ∈ (pre ++ post)%list →
             pk (row_order r) ≠ 777 ∧
             ¬ ∃ a b, service_code (row_order r) = a +:+ "777" +:+ b) →
       _apply_service_panel_smart_search orders_qs query = [target]).
Proof.
  intros Hds Hq.
  destruct (isdigit_inv _ Hds) as (c & s & Hshape & Hc & Hall).
  assert (Heq : _apply_service_panel_smart_search orders_qs query
                = filter (fun r => exact_lookup ds r = true) orders_qs).
  { unfold _apply_service_panel_smart_search.
    destruct Hq as [-> | ->].
    - rewrite (code_match_digits _ Hds). by rewrite Hshape.
    - by rewrite (code_match_hash_digits _ Hds). }
  split; [exact Heq|]. split.
  - intros r. rewrite Heq, list_elem_of_filter, (exact_lookup_spec _ _ Hall).
    tauto.
  - intros -> pre target post -> Hcode Hothers. rewrite Heq.
    assert (Hfalse : ∀ l, (∀ r, r ∈ l → r ∈ (pre ++ post)%list) →
                          Forall (fun x => exact_lookup "777" x = false) l).
    { intros l Hl. apply Forall_forall. intros r Hr.
      destruct (Hothers r (Hl r Hr)) as [Hpk Hno].
      destruct (exact_lookup "777" r) eqn:E; [|done].
      apply (exact_lookup_spec "777" r Hall) in E as [E|E]; [|done].
      by destruct Hpk. }
    apply filter_singleton.
    + apply Hfalse. intros r Hr. apply elem_of_app. by left.
    + apply Hfalse. intros r Hr. apply elem_of_app. by right.
    + apply (exact_lookup_spec "777" target Hall). right.
      exists "ABC-", "". by rewrite Hcode.
Qed.

Definition rows_777 : list OrderRow :=
  [ sample_row 1 "" "rattle at 777 rpm" "" "0900777000"
      [sample_ticket "call 777" "777" ["777 again"]];
    sample_row 2 "ABC-777" "" "" "" [];
    sample_row 3 "ZX-12" "" "replaced part 777" "" [] ].

Lemma smart_search_exact_lookup_witness :
  _apply_service_panel_smart_search rows_777 "  #777 "
    = [sample_row 2 "ABC-777" "" "" "" []].
Proof.
  destruct (smart_search_exact_lookup rows_777 "  #777 " "777")
    as (Heq & _ & _).
  - reflexivity.
  - right. reflexivity.
  - rewrite Heq. vm_compute. reflexivity.
Defined.

(** The stored phone number is matched as it is stored: the digits of the
    token found in "0903123456" are not found in "0903 123 456", although
    both numbers have the same digits. *)
Lemma phone_match_formatting_counterexample :
  digits_only "0903123456" = digits_only "0903 123 456"
  ∧ phone_match "0903123456" "0903123456" = true
  ∧ phone_match "0903123456" "0903 123 456" = false
  ∧ _apply_service_panel_smart_search
      [ sample_row 1 "" "" "" "0903123456" [];
        sample_row 2 "" "" "" "0903 123 456" [] ] "tel:0903123456"
    = [ sample_row 1 "" "" "" "0903123456" [] ].
Proof. repeat split; vm_compute; reflexivity. Qed.

(** C4 (amended). The phone match of a token depends on the token only
    through its digits, and on the stored phone number as it is stored: two
    tokens with the same digits match the same stored numbers, and a token
    with at least one digit matches exactly when its digits occur
    contiguously in the stored phone number. *)
Theorem phone_match_token_digits (token1 token2 phone : string) :
  nonempty (digits_only token1) = true →
  digits_only token1 = digits_only token2 →
  phone_match token1 phone = phone_match token2 phone
  ∧ (phone_match token1 phone = true ↔
     ∃ pre post, phone = pre +:+ digits_only token1 +:+ post).
Proof.
  intros Hne Hsame. split.
  - unfold phone_match. by rewrite Hsame.
  - unfold phone_match. rewrite Hne. cbn [andb].
    apply icontains_digits, digits_only_all_digits.
Qed.

Lemma phone_match_token_digits_witness :
  phone_match "0903-123" "+421 0903123456" = phone_match "(0903) 123" "+421 0903123456"
  ∧ (phone_match "0903-123" "+421 0903123456" = true ↔
     ∃ pre post, "+421 0903123456" = pre +:+ digits_only "0903-123" +:+ post).
Proof.
  apply (phone_match_token_digits "0903-123" "(0903) 123" "+421 0903123456");
    reflexivity.
Defined.

End SearchFacts.

(** ** The due-date classifier *)

Module EtaFacts.

(** C7. [_eta_meta] applies the first matching rule, in this order: no
    promised date gives a gray label without warning; a completed order gives
    the formatted date, gray, without warning, also when the date is past;
    today after the promised date gives the late label ("Mešká"), orange, with
    warning; today equal to it the today label ("Dnes"), blue, with warning; a
    promised date one day ahead the tomorrow label ("Zajtra"), blue, with
    warning; at most two days ahead the "On time" label, blue, without
    warning; anything else the formatted date, gray, without warning.  So the
    warning is raised exactly for orders that are not completed and whose
    promised date is past, today or tomorrow. *)
Theorem eta_meta_rules (order : ServiceOrder) (today : date) :
  (promised_date order = None →
     _eta_meta order today = ("Bez termínu", "chip-gray", false))
  ∧ (∀ p, promised_date order = Some p →
      (is_Some (completed_at order) →
         _eta_meta order today = (strftime_dmY p, "chip-gray", false))
      ∧ (completed_at order = None →
          (date_ltb p today = true →
             _eta_meta order today
               = ("Mešká " +:+ strftime_dmY p, "chip-orange", true))
          ∧ (date_ltb p today = false → date_eqb today p = true →
             _eta_meta order today
               = ("Dnes " +:+ strftime_dmY p, "chip-blue", true))
          ∧ (date_ltb p today = false → date_eqb today p = false →
             days_between p today = 1 →
             _eta_meta order today
               = ("Zajtra " +:+ strftime_dmY p, "chip-blue", true))
          ∧ (date_ltb p today = false → date_eqb today p = false →
             days_between p today ≠ 1 → days_between p today ≤ 2 →
             _eta_meta order today
               = ("On time " +:+ strftime_dmY p, "chip-blue", false))
          ∧ (date_ltb p today = false → date_eqb today p = false →
             2 < days_between p today →
             _eta_meta order today = (strftime_dmY p, "chip-gray", false))))
  ∧ ((_eta_meta order today).2 = true ↔
     completed_at order = None ∧
     ∃ p, promised_date order = Some p ∧
          (date_ltb p today = true ∨ date_eqb today p = true
           ∨ days_between p today = 1)).
Proof.
  unfold _eta_meta. destruct (promised_date order) as [p|] eqn:Hp.
  2:{ split; [done|]. split; [done|]. simpl. split; [done|].
      intros (_ & q & Hq & _). done. }
  split; [done|]. split.
  - intros q [= <-]. split.
    + intros Hc. by rewrite bool_decide_eq_true_2.
    + intros Hc. rewrite bool_decide_eq_false_2
        by (rewrite Hc; intros [? ?]; done).
      split; [by intros ->|]. split; [by intros -> ->|].
      split; [intros -> -> ->; done|].
      split.
      * intros -> -> Hne Hle.
        destruct (Z.eqb_spec (days_between p today) 1); [done|].
        destruct (Z.leb_spec (days_between p today) 2); [done|lia].
      * intros -> -> Hlt.
        destruct (Z.eqb_spec (days_between p today) 1); [lia|].
        destruct (Z.leb_spec (days_between p today) 2); [lia|done].
  - destruct (completed_at order) as [c|] eqn:Hc.
    + rewrite bool_decide_eq_true_2 by eauto. simpl. split; [done|].
      by intros [? _].
    + rewrite bool_decide_eq_false_2 by (intros [? ?]; done).
      destruct (date_ltb p today) eqn:Hlt; simpl.
      { split; [|done]. intros _. split; [done|]. exists p. auto. }
      destruct (date_eqb today p) eqn:Heq; simpl.
      { split; [|done]. intros _. split; [done|]. exists p. auto. }
      destruct (Z.eqb_spec (days_between p today) 1) as [H1|H1]; simpl.
      { split; [|done]. intros _. split; [done|]. exists p. auto. }
      destruct (days_between p today <=? 2); simpl.
      * split; [done|]. intros (_ & q & [= <-] & [?|[?|?]]); congruence.
      * split; [done|]. intros (_ & q & [= <-] & [?|[?|?]]); congruence.
Qed.

Definition eta_order (p : option date) (c : option datetime) : ServiceOrder :=
  {| pk := 1; bike := 1; service_code := ""; issue_description := "";
     work_done := ""; status := match c with Some _ => DONE | None => NEW end; price := 0;
     promised_date := p; checklist := ∅;
     created_at := mkdatetime (mkdate 2024 1 1) 0; completed_at := c |}.

Example eta_meta_tomorrow_across_leap_day :
  _eta_meta (eta_order (Some (mkdate 2024 3 1)) None) (mkdate 2024 2 29)
  = ("Zajtra 01.03.2024", "chip-blue", true).
Proof. reflexivity. Qed.

Example eta_meta_completed_past :
  _eta_meta (eta_order (Some (mkdate 2024 3 1))
                       (Some (mkdatetime (mkdate 2024 3 9) 0))) (mkdate 2024 4 1)
  = ("01.03.2024", "chip-gray", false).
Proof. reflexivity. Qed.

Example eta_meta_on_time :
  _eta_meta (eta_order (Some (mkdate 2025 1 1)) None) (mkdate 2024 12 30)
  = ("On time 01.01.2025", "chip-blue", false).
Proof. reflexivity. Qed.

End EtaFacts.

(** ** Loyalty statistics *)

Module LoyaltyFacts.

Lemma elem_of_rows {A} (m : gmap Z A) (x : A) :
  x ∈ rows m ↔ ∃ k, m !! k = Some x.
Proof.
  unfold rows. rewrite list_elem_of_fmap. split.
  - intros ([k y] & -> & Hin). rewrite merge_sort_Permutation in Hin.
    exists k. by apply elem_of_map_to_list.
  - intros [k Hk]. exists (k, x). split; [done|].
    rewrite merge_sort_Permutation. by apply elem_of_map_to_list.
Qed.

(** A customer whose only completed order has a negative price of -3.00. *)
Definition refund_profile : CustomerProfile :=
  {| customer_pk := 1; full_name := "Test Customer";
     email := "customer@example.com"; phone_number := "" |}.

Definition refund_store : Store :=
  {| customers := {[ 1 := refund_profile ]};
     bikes := {[ 1 := {| bike_pk := 1; bike_customer := 1; brand := "Trek";
                         model := "Domane"; serial_number := "SN-1" |} ]};
     orders := {[ 1 := {| pk := 1; bike := 1; service_code := "";
                          issue_description := ""; work_done := "";
                          status := DONE; price := -300; promised_date := None;
                          checklist := ∅;
                          created_at := mkdatetime (mkdate 2024 5 1) 0;
                          completed_at := Some (mkdatetime (mkdate 2024 5 2) 0) |} ]};
     tickets := ∅; logs := [] |}.

(** With a total of -3.00 the points are -1 (halved and truncated towards
    zero), while the floor of -1.5 is -2. *)
Lemma loyalty_points_floor_counterexample :
  let st := _loyalty_stats_for_profile refund_store refund_profile in
  loyalty_total_spent st = -300
  ∧ loyalty_points st = -1
  ∧ loyalty_total_spent st / 200 = -2
  ∧ loyalty_points st ≠ loyalty_total_spent st / 200.
Proof. vm_compute. repeat split; congruence. Qed.

(** C10 (amended). The loyalty statistics are computed from S, the sum of
    the prices of the customer's completed orders (0.00 when there are none):
    points is S / 2 truncated towards zero, which is the floor of S / 2
    whenever S is not negative; discount_eur is points div 10; points_to_next
    is 0 when points mod 10 is 0 and 10 - (points mod 10) otherwise, so it
    lies between 0 and 9.  (Prices are amounts in cents.) *)
Theorem loyalty_stats_spec (s : Store) (profile : CustomerProfile) :
  let st := _loyalty_stats_for_profile s profile in
  let S := sum_price (completed_orders_of s profile) in
  (∀ o, o ∈ completed_orders_of s profile ↔
        (∃ k, orders s !! k = Some o)
        ∧ (customer_pk <$> order_customer s o) = Some (customer_pk profile)
        ∧ completed_at o ≠ None)
  ∧ (completed_orders_of s profile = [] → S = 0)
  ∧ loyalty_total_spent st = S
  ∧ loyalty_points st = Z.quot S 200
  ∧ (0 ≤ S → loyalty_points st = S / 200)
  ∧ loyalty_discount_eur st = loyalty_points st / 10
  ∧ loyalty_points_to_next_eur st
      = (if loyalty_points st mod 10 =? 0 then 0
         else 10 - loyalty_points st mod 10)
  ∧ 0 ≤ loyalty_points_to_next_eur st ≤ 9.
Proof.
  cbv zeta. split.
  { intros o. unfold completed_orders_of.
    rewrite list_elem_of_filter, elem_of_rows, <- not_eq_None_Some. tauto. }
  split; [by intros ->|]. split; [done|]. split; [done|].
  split; [intros HS; simpl; by rewrite Z.quot_div_nonneg by lia|].
  split; [done|]. split; [done|]. simpl.
  pose proof (Z.mod_pos_bound (Z.quot (sum_price (completed_orders_of s profile)) 200) 10).
  destruct (Z.eqb_spec
    (Z.quot (sum_price (completed_orders_of s profile)) 200 mod 10) 0); lia.
Qed.

End LoyaltyFacts.

(** ** Instances used in the examples *)

Module Instances.

(** Exact rational arithmetic, rounding half to even. *)
Definition Q_round (x : Q) (ndigits : Z) : Q :=
  let scale := inject_Z (10 ^ ndigits) in
  let y := Qmult x scale in
  let f := Qfloor y in
  let r := Qminus y (inject_Z f) in
  let n := match Qcompare r (1 # 2) with
           | Lt => f
           | Gt => f + 1
           | Eq => if Z.even f then f else f + 1
           end in
  Qdiv (inject_Z n) scale.

#[global] Instance Q_float : PyFloat := {|
  float := Q;
  float_of_Z := inject_Z;
  int_truediv a b := Qdiv (inject_Z a) (inject_Z b);
  float_div := Qdiv;
  float_sum := foldr Qplus (inject_Z 0);
  float_round := Q_round;
|}.

(** The [Decimal] constructor on plain numerals: an optional sign, digits,
    and an optional fraction; the value is rounded half to even to cents. *)
Fixpoint split_at_dot (s : string) : string * option string :=
  match s with
  | EmptyString => (EmptyString, None)
  | String c s' =>
      if Ascii.eqb c "." then (EmptyString, Some s')
      else let '(a, b) := split_at_dot s' in (String c a, b)
  end.

Definition plain_numeral (s : string) : option Z :=
  let '(ip, fp) := split_at_dot s in
  let fp := default "" fp in
  if PyStr.all_digits ip && PyStr.all_digits fp
     && PyStr.nonempty (ip +:+ fp)
  then
    let n := PyStr.int (ip +:+ fp) * 100 in
    let d := 10 ^ Z.of_nat (String.length fp) in
    let q := n / d in
    let r := n mod d in
    Some (if 2 * r <? d then q
          else if d <? 2 * r then q + 1
          else if Z.even q then q else q + 1)
  else None.

#[global] Instance plain_decimal : PyDecimal := fun s =>
  match PyStr.strip s with
  | String c s' =>
      if Ascii.eqb c "-" then Z.opp <$> plain_numeral s'
      else if Ascii.eqb c "+" then plain_numeral s'
      else plain_numeral (String c s')
  | EmptyString => None
  end.

Example plain_decimal_examples :
  Decimal_parse "29.00" = Some 2900 ∧ Decimal_parse "12.5" = Some 1250
  ∧ Decimal_parse "-3" = Some (-300) ∧ Decimal_parse "0.125" = Some 12
  ∧ Decimal_parse "abc" = None ∧ Decimal_parse "12.3.4" = None.
Proof. repeat split; reflexivity. Qed.

(** A store with one customer, one bike and the given orders. *)
Definition customer_with (mail : string) : CustomerProfile :=
  {| customer_pk := 1; full_name := "Test Customer"; email := mail;
     phone_number := "" |}.

Definition order_with (k : Z) (st : Status) (c : option datetime) : ServiceOrder :=
  {| pk := k; bike := 1; service_code := ""; issue_description := "squeaky brakes";
     work_done := ""; status := st; price := 1000;
     promised_date := Some (mkdate 2024 5 10);
     checklist := {[ "chain" := true; "bell" := true ]};
     created_at := mkdatetime (mkdate 2024 5 1) 0; completed_at := c |}.

Definition store_with (mail : string) (os : list ServiceOrder) : Store :=
  {| customers := {[ 1 := customer_with mail ]};
     bikes := {[ 1 := {| bike_pk := 1; bike_customer := 1; brand := "Trek";
                         model := "Domane"; serial_number := "SN-1" |} ]};
     orders := list_to_map (map (fun o => (pk o, o)) os);
     tickets := ∅; logs := [] |}.

Definition empty_cache : Cache := {| cache_version := None; cache_stats := ∅ |}.

Definition world_with (mail : string) (os : list ServiceOrder) : World :=
  {| db := store_with mail os; cache := empty_cache; outbox := []; flash := [] |}.

Definition noon : datetime := mkdatetime (mkdate 2024 5 3) 43200000000.

End Instances.

(** ** The order lifecycle *)

Module LifecycleFacts.

Section Lifecycle.
Context `{PyFloat} `{PyDecimal}.

(** The action of a request reaches the form save of the order detail. *)
Definition form_action (POST : gmap string string) : Prop :=
  post_get POST "action" ≠ "invite_customer_portal"
  ∧ post_get POST "action" ≠ "send_sms"
  ∧ post_get POST "action" ≠ "send_protocol_email"
  ∧ post_get POST "action" ≠ "apply_service_package".

Lemma detail_post_form w order_id order POST now user :
  orders (db w) !! order_id = Some order → form_action POST →
  service_order_admin_detail_post w order_id POST now user
    = Some (save_order_form w order POST now user).
Proof.
  intros Ho (H1 & H2 & H3 & H4). unfold service_order_admin_detail_post.
  rewrite Ho. cbv zeta.
  apply String.eqb_neq in H1, H2, H3, H4. by rewrite H1, H2, H3, H4.
Qed.

Lemma detail_post_package w order_id order POST now user :
  orders (db w) !! order_id = Some order →
  post_get POST "action" = "apply_service_package" →
  service_order_admin_detail_post w order_id POST now user
    = Some (apply_service_package w order POST).
Proof.
  intros Ho Ha. unfold service_order_admin_detail_post.
  rewrite Ho. cbv zeta. by rewrite Ha.
Qed.


(** *** Service packages *)

Lemma package_checklist_lookup package k :
  package_checklist package !! k
  = if bool_decide (k ∈ CHECKLIST_DEFS.*1)
    then Some (bool_decide (k ∈ checklist_keys package)) else None.
Proof.
  unfold package_checklist, CHECKLIST_DEFS. cbn [map list_to_map fst foldr].
  rewrite !lookup_insert, lookup_empty.
  cbn [snd].
  repeat (case_decide;
          [subst k;
           match goal with
           | |- context [bool_decide (?x ∈ ?l.*1)] =>
               replace (bool_decide (x ∈ l.*1)) with true
                 by (symmetry; apply bool_decide_eq_true_2; compute_done)
           end; reflexivity|]).
  rewrite bool_decide_eq_false_2; [done|].
  cbn [fmap list_fmap fst]. rewrite !elem_of_cons, elem_of_nil.
  intuition congruence.
Qed.

Lemma package_keys_defined key package :
  package_get SERVICE_PACKAGE_DEFS key = Some package →
  Forall (fun k => k ∈ CHECKLIST_DEFS.*1) (checklist_keys package).
Proof.
  unfold SERVICE_PACKAGE_DEFS. cbn [package_get].
  repeat (destruct (String.eqb _ key); [intros [= <-]; compute_done|]).
  done.
Qed.

Lemma package_get_basic package :
  package_get SERVICE_PACKAGE_DEFS "basic" = Some package →
  package_price package = 2900
  ∧ package_work_done package
    = "Základná kontrola bicykla, dofúkanie pneumatík, kontrola bŕzd a radenia."
  ∧ checklist_keys package = ["brakes"; "shifting"; "tyre_pressure"; "torque"].
Proof. intros [= <-]. done. Qed.

(** C6. Applying a defined package to an order stores the package's price
    and work-done text and replaces the whole checklist: the new mapping is
    the package's own, whatever the checklist held before; its true keys are
    exactly the keys the package declares, every other defined key is false,
    and no other key remains.  For "basic" the price is 29.00 and the true
    keys are brakes, shifting, tyre_pressure and torque.  Status, completion
    time and the other fields are left as they were. *)
Theorem apply_package_overwrites
    (w : World) (order_id : Z) (order : ServiceOrder)
    (POST : gmap string string) (now : datetime) (user : Z)
    (key : string) (package : ServicePackage) :
  orders (db w) !! order_id = Some order → pk order = order_id →
  post_get POST "action" = "apply_service_package" →
  post_get POST "service_package" = key →
  package_get SERVICE_PACKAGE_DEFS key = Some package →
  ∃ resp w' order',
    service_order_admin_detail_post w order_id POST now user = Some (resp, w')
    ∧ orders (db w') !! order_id = Some order'
    ∧ price order' = package_price package
    ∧ work_done order' = package_work_done package
    ∧ checklist order' = package_checklist package
    ∧ (∀ k, checklist order' !! k = Some true ↔ k ∈ checklist_keys package)
    ∧ (∀ k, checklist order' !! k = Some false ↔
            k ∈ CHECKLIST_DEFS.*1 ∧ k ∉ checklist_keys package)
    ∧ (∀ k, k ∉ CHECKLIST_DEFS.*1 → checklist order' !! k = None)
    ∧ (key = "basic" →
       price order' = 2900
       ∧ work_done order'
         = "Základná kontrola bicykla, dofúkanie pneumatík, kontrola bŕzd a radenia."
       ∧ ∀ k, checklist order' !! k = Some true ↔
              k ∈ ["brakes"; "shifting"; "tyre_pressure"; "torque"])
    ∧ status order' = status order
    ∧ completed_at order' = completed_at order
    ∧ issue_description order' = issue_description order
    ∧ promised_date order' = promised_date order
    ∧ service_code order' = service_code order.
Proof.
  intros Ho Hpk Ha Hkey Hget.
  rewrite (detail_post_package _ _ _ _ _ _ Ho Ha).
  unfold apply_service_package. cbv zeta. rewrite Hkey, Hget.
  eexists _, _, _. split; [reflexivity|].
  assert (Htrue : ∀ k, package_checklist package !! k = Some true ↔
                       k ∈ checklist_keys package).
  { intros k. rewrite package_checklist_lookup.
    pose proof (package_keys_defined _ _ Hget) as Hsub.
    rewrite Forall_forall in Hsub. specialize (Hsub k).
    repeat case_bool_decide; intuition congruence. }
  split.
  { cbn [db add_message set_cache set_db orders save_order_fields set_orders pk
         with_checklist with_texts with_price].
    rewrite Hpk, lookup_alter, decide_True by done. rewrite Ho. reflexivity. }
  cbn [checklist price work_done status completed_at issue_description
       promised_date service_code with_checklist with_texts with_price].
  split; [done|]. split; [done|]. split; [done|]. split; [done|].
  split.
  { intros k. rewrite package_checklist_lookup.
    repeat case_bool_decide; intuition congruence. }
  split.
  { intros k Hk. rewrite package_checklist_lookup. by rewrite bool_decide_eq_false_2. }
  split; [|done].
  intros ->. destruct (package_get_basic _ Hget) as (Hp & Hw & Hk).
  split; [done|]. split; [done|]. intros k. by rewrite Htrue, Hk.
Qed.

(** *** The completion invariant *)

(** [completed_at] is set exactly when the status is DONE. *)
Definition order_inv (o : ServiceOrder) : Prop :=
  is_Some (completed_at o) ↔ status o = DONE.

Definition store_inv (s : Store) : Prop :=
  ∀ k o, orders s !! k = Some o → order_inv o.

(** The completion time a status change leaves behind. *)
Definition completed_after (st : Status) (before : option datetime)
    (now : datetime) : option datetime :=
  match st with
  | DONE => Some (default now before)
  | _ => None
  end.

Lemma order_inv_completed_after st before now o :
  order_inv (with_status st (completed_after st before now) o).
Proof. unfold order_inv. destruct st; simpl; split; (done || by inversion 1). Qed.

Lemma Status_eqb_eq a b : Status_eqb a b = true ↔ a = b.
Proof. destruct a, b; simpl; split; congruence. Qed.

Lemma store_inv_save o s : store_inv s → order_inv o → store_inv (save_order o s).
Proof.
  intros Hs Ho k o'. cbn. rewrite lookup_insert. case_decide; [|by apply Hs].
  by intros [= <-].
Qed.

Lemma store_inv_save_fields copy o s :
  store_inv s → (∀ row, order_inv row → order_inv (copy o row)) →
  store_inv (save_order_fields copy o s).
Proof.
  intros Hs Hf k o'. cbn. rewrite lookup_alter. case_decide; [|by apply Hs].
  destruct (orders s !! pk o) as [row|] eqn:Hrow; [|done].
  intros [= <-]. subst k. apply Hf. by apply (Hs _ _ Hrow).
Qed.

Lemma row_update_status_inv w POST now :
  store_inv (db w) → store_inv (db (row_update_status w POST now).2).
Proof.
  intros Hs. unfold row_update_status. cbv zeta.
  destruct (PyStr.isdigit _); [|done].
  destruct (Status_of_string _) as [st|]; [|done].
  destruct (orders (db w) !! _) as [order|]; [|done].
  cbn [snd db add_message set_cache set_db].
  apply store_inv_save_fields; [done|]. intros row _.
  unfold order_inv. cbn [status completed_at with_status].
  destruct st, (completed_at order); split; intros Hx;
    try done; eauto; by inversion Hx.
Qed.

Lemma row_update_eta_inv w POST :
  store_inv (db w) → store_inv (db (row_update_eta w POST).2).
Proof.
  intros Hs. unfold row_update_eta. cbv zeta.
  destruct (PyStr.isdigit _); [|done].
  destruct (orders (db w) !! _) as [order|]; [|done].
  cbn [snd db add_message set_cache set_db].
  by apply store_inv_save_fields.
Qed.

Lemma apply_service_package_inv w order POST :
  store_inv (db w) → store_inv (db (apply_service_package w order POST).2).
Proof.
  intros Hs. unfold apply_service_package. cbv zeta.
  destruct (package_get _ _) as [package|]; [|done].
  cbn [snd db add_message set_cache set_db].
  by apply store_inv_save_fields.
Qed.

(** The order a form save stores, when the price field is accepted. *)
Definition form_saved (order : ServiceOrder) (POST : gmap string string)
    (now : datetime) (o' : ServiceOrder) : Prop :=
  pk o' = pk order
  ∧ bike o' = bike order
  ∧ status o' = default (status order) (Status_of_string (post_get POST "status"))
  ∧ completed_at o' = completed_after (status o') (completed_at order) now.

Definition price_accepted (POST : gmap string string) : Prop :=
  PyStr.nonempty (post_get POST "price") = true →
  is_Some (Decimal_parse (PyStr.replace_comma (post_get POST "price"))).

(** What a form save with an accepted price does to the store, the mail
    queue and the log. *)
Lemma save_order_form_accepted w order POST now user :
  price_accepted POST →
  ∃ o',
    form_saved order POST now o'
    ∧ orders (db (save_order_form w order POST now user).2)
      = <[pk order := o']> (orders (db w))
    ∧ (let w' := (save_order_form w order POST now user).2 in
       let notify :=
         status o' = DONE ∧ completed_at order = None
         ∧ ∃ c, order_customer (db w) order = Some c
                ∧ PyStr.nonempty (email c) = true in
       (notify →
        ∃ c, order_customer (db w) order = Some c
             ∧ outbox w'
               = (outbox w ++ [{| mail_subject := "Servis hotový #" +:+ order_code o';
                                  mail_body := done_mail_body o' c;
                                  mail_to := [email c] |}])%list
             ∧ logs (db w')
               = (logs (db w) ++ [{| log_order := pk order; log_kind := EMAIL_DONE;
                                     log_body := "To " +:+ email c +:+ ": servis hotový";
                                     log_created_by := user |}])%list)
       ∧ (¬ notify → outbox w' = outbox w ∧ logs (db w') = logs (db w))).
Proof.
  intros Hprice. unfold save_order_form. cbv zeta.
  set (o1 := match Status_of_string (post_get POST "status") with
             | Some st => with_status st (completed_at order) order
             | None => order
             end).
  set (o2 := with_promised_date _ o1).
  set (o3 := if existsb _ CHECKLIST_DEFS then _ else o2).
  assert (H3 : pk o3 = pk order ∧ bike o3 = bike order
                ∧ status o3 = default (status order)
                                (Status_of_string (post_get POST "status"))
                ∧ completed_at o3 = completed_at order).
  { subst o3 o2 o1. destruct (existsb _ _), (Status_of_string _); done. }
  destruct H3 as (Hpk3 & Hbike3 & Hst3 & Hc3).
  set (parsed := if PyStr.nonempty (post_get POST "price") then _ else Some o3).
  assert (∃ o4, parsed = Some o4 ∧ pk o4 = pk order ∧ bike o4 = bike order
                ∧ status o4 = status o3 ∧ completed_at o4 = completed_at order)
    as (o4 & -> & Hpk4 & Hbike4 & Hst4 & Hc4).
  { subst parsed. unfold price_accepted in Hprice.
    destruct (PyStr.nonempty (post_get POST "price")); [|by exists o3].
    destruct (Hprice eq_refl) as [p ->]. by eexists. }
  set (o5 := with_texts _ _ o4).
  assert (Hjc : Status_eqb (status o5) DONE && is_null (completed_at o5)
                = bool_decide (status o4 = DONE ∧ completed_at order = None)).
  { cbn [o5 status completed_at with_texts]. rewrite Hc4.
    destruct (status o4), (completed_at order); done. }
  rewrite Hjc.
  set (o6 := if bool_decide _ then _ else o5).
  set (o7 := if negb (Status_eqb (status o6) DONE) then _ else o6).
  assert (H7 : pk o7 = pk order ∧ bike o7 = bike order ∧ status o7 = status o4
               ∧ completed_at o7
                 = completed_after (status o4) (completed_at order) now).
  { subst o7 o6. case_bool_decide as Hd.
    - destruct Hd as [Hd1 Hd2]. cbn [status with_status with_texts o5].
      rewrite Hd1. cbn. by rewrite Hd2.
    - cbn [o5]. destruct (status o4) eqn:E; cbn; rewrite ?E; cbn;
        try done; rewrite Hc4.
      destruct (completed_at order) eqn:E2; [done|]. destruct Hd. done. }
  destruct H7 as (Hpk7 & Hbike7 & Hst7 & Hc7).
  exists o7. split.
  { unfold form_saved. split; [done|]. split; [done|].
    split; [by rewrite Hst7, Hst4|]. by rewrite Hc7, Hst7. }
  clearbody o7. clear Hjc. clearbody o5.
  set (w1 := set_cache invalidate_dashboard_cache (set_db (save_order o7) w)).
  assert (Hcust : order_customer (db w1) o7 = order_customer (db w) order).
  { unfold order_customer. cbn. by rewrite Hbike7. }
  assert (Hw1 : orders (db w1) = <[pk order := o7]> (orders (db w))
                ∧ outbox w1 = outbox w ∧ logs (db w1) = logs (db w)).
  { cbn. by rewrite Hpk7. }
  destruct Hw1 as (Ho1 & Hout1 & Hlog1).
  cbn [snd]. rewrite Hcust. clearbody w1.
  split.
  { destruct (order_customer (db w) order) as [c|]; [|done].
    by destruct (bool_decide _ && PyStr.nonempty (email c)). }
  rewrite Hst7. split.
  - intros (Hd & Hn & c & Hc & He). exists c. rewrite Hc, He.
    rewrite bool_decide_eq_true_2 by done. cbn. by rewrite Hpk7, Hout1, Hlog1.
  - intros Hno. destruct (order_customer (db w) order) as [c|]; [|done].
    case_bool_decide as Hd; [|done]. destruct Hd as [Hd1 Hd2].
    destruct (PyStr.nonempty (email c)) eqn:He; [|done].
    destruct Hno. eauto.
Qed.

Lemma order_created_inv w bike_id issue now :
  store_inv (db w) → store_inv (db (order_created w bike_id issue now).2).
Proof.
  intros Hs k o. cbn. rewrite lookup_insert. case_decide; [|by apply Hs].
  intros [= <-]. unfold order_inv. cbn. split; [by intros [? ?]|done].
Qed.

Lemma create_service_order_post_inv w POST now :
  store_inv (db w) → store_inv (db (create_service_order_post w POST now).2).
Proof.
  intros Hs. unfold create_service_order_post. cbv zeta.
  destruct (PyStr.isdigit (post_get POST "bike_id")).
  { destruct (bikes (db w) !! _); [by apply order_created_inv|done]. }
  destruct (_ || _); [done|].
  match goal with
  | |- context [match ?e with (_, _) => _ end] =>
      assert (Hw : store_inv (db e.2));
      [|destruct e as [profile w0]]
  end.
  { repeat case_match; simplify_eq/=; try done; intros k o; apply Hs. }
  apply order_created_inv. intros k o. apply Hw.
Qed.

Lemma form_saved_inv order POST now o' :
  form_saved order POST now o' → order_inv o'.
Proof.
  intros (_ & _ & _ & Hc). unfold order_inv. rewrite Hc.
  destruct (status o'); cbn; split; intros Hx; try done; eauto; by inversion Hx.
Qed.

Lemma save_order_form_inv w order POST now user :
  store_inv (db w) → store_inv (db (save_order_form w order POST now user).2).
Proof.
  intros Hs.
  destruct (PyStr.nonempty (post_get POST "price")) eqn:Hne.
  - destruct (Decimal_parse (PyStr.replace_comma (post_get POST "price")))
      as [p|] eqn:Hp.
    + destruct (save_order_form_accepted w order POST now user)
        as (o' & Hsaved & Ho & _).
      { intros _. rewrite Hp. eauto. }
      intros k o. rewrite Ho, lookup_insert.
      case_decide; [intros [= <-]; by eapply form_saved_inv|by apply Hs].
    + unfold save_order_form. cbv zeta. by rewrite Hne, Hp.
  - destruct (save_order_form_accepted w order POST now user)
      as (o' & Hsaved & Ho & _).
    { intros Hx. congruence. }
    intros k o. rewrite Ho, lookup_insert.
    case_decide; [intros [= <-]; by eapply form_saved_inv|by apply Hs].
Qed.

Lemma detail_post_inv w order_id POST now user r w' :
  store_inv (db w) →
  service_order_admin_detail_post w order_id POST now user = Some (r, w') →
  store_inv (db w').
Proof.
  intros Hs. unfold service_order_admin_detail_post.
  destruct (orders (db w) !! order_id) as [order|] eqn:Ho;
    [|by intros [= <- <-]].
  cbv zeta. destruct (_ || _); [done|].
  destruct (String.eqb _ "apply_service_package").
  { intros [= Heq]. rewrite (surjective_pairing (apply_service_package _ _ _)) in Heq.
    injection Heq as _ <-. by apply apply_service_package_inv. }
  intros [= Heq].
  rewrite (surjective_pairing (save_order_form _ _ _ _ _)) in Heq.
  injection Heq as _ <-. by apply save_order_form_inv.
Qed.

Lemma row_update_status_found w POST now order st :
  PyStr.isdigit (post_get POST "order_id") = true →
  Status_of_string (post_get POST "new_status") = Some st →
  orders (db w) !! PyStr.int (post_get POST "order_id") = Some order →
  pk order = PyStr.int (post_get POST "order_id") →
  let w' := (row_update_status w POST now).2 in
  orders (db w') !! pk order
    = Some (with_status st (completed_after st (completed_at order) now) order)
  ∧ outbox w' = outbox w ∧ logs (db w') = logs (db w).
Proof.
  intros Hd Hst Ho Hpk. unfold row_update_status. cbv zeta.
  rewrite Hd, Hst, Ho.
  cbn [snd db add_message set_cache set_db orders save_order_fields set_orders
       pk with_status outbox logs].
  split; [|done]. rewrite lookup_alter, decide_True by done. rewrite Hpk, Ho. cbn.
  f_equal. destruct order, st, completed_at; reflexivity.
Qed.

Lemma service_panel_post_row_update_status w POST now :
  post_get POST "action" = "row_update_status" →
  service_panel_post w POST now = row_update_status w POST now.
Proof. intros Ha. unfold service_panel_post. cbv zeta. by rewrite Ha. Qed.

Lemma service_panel_post_inv w POST now :
  store_inv (db w) → store_inv (db (service_panel_post w POST now).2).
Proof.
  intros Hs. unfold service_panel_post. cbv zeta.
  destruct (String.eqb _ "row_update_status"); [by apply row_update_status_inv|].
  destruct (String.eqb _ "row_update_eta"); [by apply row_update_eta_inv|done].
Qed.

(** C1. Every lifecycle mutation of the staff dashboard keeps the invariant
    "completed_at is set exactly when the status is DONE": the row actions of
    the panel, the order detail (form save and package application) and
    order creation.  After a status change by the row action or by the form
    save the stored order has the new status, and its completion time is
    [now] when it enters DONE without one, the one it had when it enters
    DONE with one, and null for every other status. *)
Theorem completion_invariant_preserved
    (w : World) (POST : gmap string string) (now : datetime) (user : Z)
    (order_id : Z) :
  store_inv (db w) →
  store_inv (db (service_panel_post w POST now).2)
  ∧ (∀ r w', service_order_admin_detail_post w order_id POST now user = Some (r, w') →
             store_inv (db w'))
  ∧ store_inv (db (create_service_order_post w POST now).2)
  ∧ (∀ order st,
       post_get POST "action" = "row_update_status" →
       PyStr.isdigit (post_get POST "order_id") = true →
       Status_of_string (post_get POST "new_status") = Some st →
       orders (db w) !! PyStr.int (post_get POST "order_id") = Some order →
       pk order = PyStr.int (post_get POST "order_id") →
       ∃ o', orders (db (service_panel_post w POST now).2) !! pk order = Some o'
             ∧ status o' = st
             ∧ completed_at o' = completed_after st (completed_at order) now)
  ∧ (∀ order,
       orders (db w) !! order_id = Some order → pk order = order_id →
       form_action POST → price_accepted POST →
       ∃ r w' o',
         service_order_admin_detail_post w order_id POST now user = Some (r, w')
         ∧ orders (db w') !! order_id = Some o'
         ∧ status o'
           = default (status order) (Status_of_string (post_get POST "status"))
         ∧ completed_at o' = completed_after (status o') (completed_at order) now)
  ∧ (∀ before st,
       completed_after DONE None now = Some now
       ∧ completed_after DONE (Some before) now = Some before
       ∧ (st ≠ DONE → completed_after st None now = None
                      ∧ completed_after st (Some before) now = None)).
Proof.
  intros Hs. split; [by apply service_panel_post_inv|].
  split; [intros r w'; by apply detail_post_inv|].
  split; [by apply create_service_order_post_inv|]. split.
  { intros order st Ha Hd Hst Ho Hpk.
    rewrite (service_panel_post_row_update_status _ _ _ Ha).
    destruct (row_update_status_found w POST now order st Hd Hst Ho Hpk) as (Hr & _).
    eexists. split; [exact Hr|]. done. }
  split.
  { intros order Ho Hpk Hform Hprice.
    rewrite (detail_post_form _ _ _ _ _ _ Ho Hform).
    destruct (save_order_form_accepted w order POST now user Hprice)
      as (o' & (Hpk' & _ & Hst & Hc) & Horders & _).
    rewrite (surjective_pairing (save_order_form _ _ _ _ _)).
    eexists _, _, o'. split; [reflexivity|].
    split; [by rewrite Horders, Hpk, lookup_insert_eq|]. done. }
  intros before st. split; [done|]. split; [done|]. by destruct st.
Qed.

(** C5 (amended). A form save that moves an order without completion time
    into DONE stores [now] as its completion time and, when the customer has
    an email on file, queues the "service complete" mail to that address and
    appends a log entry of kind EMAIL_DONE; when the customer has no email,
    it queues no mail and appends no log entry.  The row action that moves
    such an order into DONE stores [now] as its completion time.  A form
    save or a row action that leaves the order in another status than DONE
    queues no mail and appends no log entry. *)
Theorem done_transition_effects
    (w : World) (POST : gmap string string) (now : datetime) (user : Z)
    (order_id : Z) (order : ServiceOrder) :
  orders (db w) !! order_id = Some order → pk order = order_id →
  (form_action POST → price_accepted POST →
   ∃ r w' o',
     service_order_admin_detail_post w order_id POST now user = Some (r, w')
     ∧ orders (db w') !! order_id = Some o'
     ∧ status o' = default (status order) (Status_of_string (post_get POST "status"))
     ∧ (status o' = DONE → completed_at order = None →
        completed_at o' = Some now
        ∧ (∀ c, order_customer (db w) order = Some c →
                PyStr.nonempty (email c) = true →
                outbox w'
                = (outbox w ++ [{| mail_subject := "Servis hotový #" +:+ order_code o';
                                   mail_body := done_mail_body o' c;
                                   mail_to := [email c] |}])%list
                ∧ logs (db w')
                  = (logs (db w)
                     ++ [{| log_order := order_id; log_kind := EMAIL_DONE;
                            log_body := "To " +:+ email c +:+ ": servis hotový";
                            log_created_by := user |}])%list)
        ∧ ((∀ c, order_customer (db w) order = Some c →
                 PyStr.nonempty (email c) = false) →
           outbox w' = outbox w ∧ logs (db w') = logs (db w)))
     ∧ (status o' ≠ DONE → outbox w' = outbox w ∧ logs (db w') = logs (db w)))
  ∧ (∀ st,
       post_get POST "action" = "row_update_status" →
       PyStr.isdigit (post_get POST "order_id") = true →
       PyStr.int (post_get POST "order_id") = order_id →
       Status_of_string (post_get POST "new_status") = Some st →
       let w' := (service_panel_post w POST now).2 in
       (st = DONE → completed_at order = None →
        ∃ o', orders (db w') !! order_id = Some o'
              ∧ status o' = DONE ∧ completed_at o' = Some now)
       ∧ (st ≠ DONE → outbox w' = outbox w ∧ logs (db w') = logs (db w))).
Proof.
  intros Ho Hpk. split.
  - intros Hform Hprice.
    rewrite (detail_post_form _ _ _ _ _ _ Ho Hform).
    destruct (save_order_form_accepted w order POST now user Hprice)
      as (o' & (Hpk' & _ & Hst & Hc) & Horders & Hyes & Hno).
    rewrite (surjective_pairing (save_order_form _ _ _ _ _)).
    eexists _, _, o'. split; [reflexivity|].
    split; [by rewrite Horders, Hpk, lookup_insert_eq|]. split; [done|]. split.
    + intros Hdone Hnone. split; [by rewrite Hc, Hdone, Hnone|]. split.
      * intros c Hcust Hmail.
        destruct Hyes as (c' & Hc' & Hout & Hlog); [by eauto|].
        rewrite Hcust in Hc'. injection Hc' as <-. by rewrite Hout, Hlog, Hpk.
      * intros Hnomail. apply Hno. intros (_ & _ & c & Hcust & Hmail).
        by rewrite (Hnomail c Hcust) in Hmail.
    + intros Hnd. apply Hno. by intros (Hd & _).
  - intros st Ha Hd Hint Hst. cbv zeta.
    rewrite (service_panel_post_row_update_status _ _ _ Ha).
    destruct (row_update_status_found w POST now order st Hd Hst) as (Hr & Hout & Hlog).
    { by rewrite Hint. } { by rewrite Hint. }
    split; [|done]. intros -> Hnone. eexists. rewrite <- Hpk. split; [exact Hr|].
    by rewrite Hnone.
Qed.

End Lifecycle.

Import Instances.



Lemma store_with_inv mail os :
  Forall order_inv os → store_inv (store_with mail os).
Proof.
  intros Hos k o Hk. cbn in Hk. apply elem_of_list_to_map_2 in Hk.
  apply list_elem_of_fmap in Hk as (o' & [= -> ->] & Hin).
  rewrite Forall_forall in Hos. by apply Hos.
Qed.

Lemma order_with_inv k st c :
  (is_Some c ↔ st = DONE) → order_inv (order_with k st c).
Proof. done. Qed.

Definition done_form_POST : gmap string string :=
  {[ "status" := "DONE"; "price" := "12,50"; "issue_description" := "squeaky brakes";
     "work_done" := "pads replaced" ]}.

Definition row_done_POST : gmap string string :=
  {[ "action" := "row_update_status"; "order_id" := "1"; "new_status" := "DONE";
     "tab" := "active" ]}.

Definition basic_package_POST : gmap string string :=
  {[ "action" := "apply_service_package"; "service_package" := " basic " ]}.

Lemma completion_invariant_preserved_witness :
  store_inv (db (world_with "customer@example.com" [order_with 1 NEW None]))
  ∧ store_inv (db (service_panel_post
                     (world_with "customer@example.com" [order_with 1 NEW None])
                     row_done_POST noon).2)
  ∧ ∃ o', orders (db (service_panel_post
                        (world_with "customer@example.com" [order_with 1 NEW None])
                        row_done_POST noon).2) !! 1 = Some o'
          ∧ status o' = DONE ∧ completed_at o' = Some noon.
Proof.
  assert (Hinv : store_inv (db (world_with "customer@example.com"
                                  [order_with 1 NEW None]))).
  { apply store_with_inv. constructor; [|constructor].
    split; [by intros [? ?]|done]. }
  split; [exact Hinv|].
  destruct (completion_invariant_preserved
              (world_with "customer@example.com" [order_with 1 NEW None])
              row_done_POST noon 7 1 Hinv) as (Hpanel & _ & _ & Hrow & _).
  split; [exact Hpanel|].
  destruct (Hrow (order_with 1 NEW None) DONE) as (o' & Ho' & Hst & Hc);
    try reflexivity.
  exists o'. split; [exact Ho'|]. split; [exact Hst|exact Hc].
Defined.

(** Entering DONE through the form for a customer without email stores the
    completion time but appends no EMAIL_DONE entry, and entering DONE
    through the row action for a customer with an email queues no mail and
    appends no entry either. *)
Lemma done_transition_counterexample :
  (∃ r w' o',
     service_order_admin_detail_post (world_with "" [order_with 1 NEW None]) 1
       done_form_POST noon 7 = Some (r, w')
     ∧ orders (db w') !! 1 = Some o'
     ∧ status o' = DONE ∧ completed_at o' = Some noon
     ∧ outbox w' = [] ∧ logs (db w') = [])
  ∧ (let w' := (service_panel_post
                  (world_with "customer@example.com" [order_with 1 NEW None])
                  row_done_POST noon).2 in
     ∃ o', orders (db w') !! 1 = Some o'
           ∧ status o' = DONE ∧ completed_at o' = Some noon
           ∧ outbox w' = [] ∧ logs (db w') = []).
Proof.
  split.
  - eexists _, _, _. split; [vm_compute; reflexivity|]. by vm_compute.
  - eexists. split; [vm_compute; reflexivity|]. by vm_compute.
Qed.

Lemma done_transition_effects_witness :
  ∃ r w' o',
    service_order_admin_detail_post
      (world_with "customer@example.com" [order_with 1 NEW None]) 1
      done_form_POST noon 7 = Some (r, w')
    ∧ orders (db w') !! 1 = Some o'
    ∧ completed_at o' = Some noon
    ∧ mail_to <$> outbox w' = [["customer@example.com"]]
    ∧ log_kind <$> logs (db w') = [EMAIL_DONE].
Proof.
  destruct (done_transition_effects
              (world_with "customer@example.com" [order_with 1 NEW None])
              done_form_POST noon 7 1 (order_with 1 NEW None) eq_refl eq_refl)
    as (Hform & _).
  destruct Hform as (r & w' & o' & Hpost & Ho' & Hst & Hdone & _).
  { vm_compute. repeat split; congruence. }
  { intros _. vm_compute. eauto. }
  destruct (Hdone Hst eq_refl) as (Hc & Hmail & _).
  destruct (Hmail (customer_with "customer@example.com") eq_refl eq_refl)
    as (Hout & Hlog).
  exists r, w', o'. split; [exact Hpost|]. split; [exact Ho'|].
  split; [exact Hc|]. split; [by rewrite Hout|by rewrite Hlog].
Defined.

Lemma apply_package_overwrites_witness :
  ∃ resp w' order',
    service_order_admin_detail_post
      (world_with "customer@example.com" [order_with 1 NEW None]) 1
      basic_package_POST noon 7 = Some (resp, w')
    ∧ orders (db w') !! 1 = Some order'
    ∧ price order' = 2900
    ∧ checklist order' !! "brakes" = Some true
    ∧ checklist order' !! "chain" = Some false
    ∧ checklist order' !! "bell" = None.
Proof.
  destruct (apply_package_overwrites
              (world_with "customer@example.com" [order_with 1 NEW None]) 1
              (order_with 1 NEW None) basic_package_POST noon 7 "basic"
              {| label := "Basic servis"; package_price := 2900;
                 package_work_done :=
                   "Základná kontrola bicykla, dofúkanie pneumatík, kontrola bŕzd a radenia.";
                 checklist_keys := ["brakes"; "shifting"; "tyre_pressure"; "torque"] |}
              eq_refl eq_refl eq_refl eq_refl eq_refl)
    as (resp & w' & o' & Hpost & Ho' & _ & _ & _ & Htrue & Hfalse & Hnone & Hbasic & _).
  destruct (Hbasic eq_refl) as (Hprice & _ & _).
  exists resp, w', o'. split; [exact Hpost|]. split; [exact Ho'|].
  split; [exact Hprice|]. split; [apply Htrue; compute_done|].
  split; [apply Hfalse; split; compute_done|]. apply Hnone. compute_done.
Defined.

End LifecycleFacts.

(** ** The dashboard aggregator *)

Module DashboardFacts.

Section Dashboard.
Context `{PyFloat}.

#[local] Instance completed_desc_trans : Transitive completed_desc.
Proof. unfold completed_desc. intros a b c. lia. Qed.

#[local] Instance completed_desc_total : Total completed_desc.
Proof. unfold completed_desc. intros a b. lia. Qed.



(** *** The version counter *)

Lemma invalidate_uninitialized c :
  cache_version c = None →
  invalidate_dashboard_cache c = cache_set_version c 1.
Proof. intros Hv. unfold invalidate_dashboard_cache, cache_add_version. by rewrite Hv. Qed.

Lemma invalidate_initialized c v :
  cache_version c = Some v →
  invalidate_dashboard_cache c = cache_set_version c (v + 1).
Proof.
  intros Hv. unfold invalidate_dashboard_cache, cache_add_version.
  rewrite Hv. unfold cache_incr_version. by rewrite Hv.
Qed.

(** C2 fails in the initial state.  With the version counter never
    initialised, a first read caches its snapshot under version 1; the first
    invalidation stores version 1; and the next read of the same day, within
    the time to live, returns the cached snapshot whatever the entity store
    holds by then. *)
Theorem first_invalidation_not_observed
    (db1 db2 : Store) (c : Cache) (now now' : datetime) (today : date)
    (ttl_seconds : Z) :
  cache_version c = None →
  cache_get_stats c now (stats_key 1 today) = None →
  timestamp now' < timestamp now + ttl_seconds * 1000000 →
  let r1 := get_staff_dashboard_counts db1 c now today ttl_seconds in
  let c2 := invalidate_dashboard_cache r1.2 in
  let r2 := get_staff_dashboard_counts db2 c2 now' today ttl_seconds in
  r1.1 = compute_dashboard_counts db1 today
  ∧ cache_version c2 = Some 1
  ∧ r2.1 = r1.1.
Proof.
  intros Hv Hmiss Httl. cbv zeta.
  assert (Hr1 : get_staff_dashboard_counts db1 c now today ttl_seconds
                = (compute_dashboard_counts db1 today,
                   cache_set_stats c now (stats_key 1 today)
                     (compute_dashboard_counts db1 today) ttl_seconds)).
  { unfold get_staff_dashboard_counts, cache_get_version. rewrite Hv. cbv zeta.
    by rewrite Hmiss. }
  rewrite Hr1. cbn [fst snd].
  rewrite invalidate_uninitialized by done.
  split; [done|]. split; [done|].
  unfold get_staff_dashboard_counts, cache_get_version.
  cbn [cache_version cache_set_version]. cbv zeta. unfold cache_get_stats.
  cbn [cache_stats cache_set_version cache_set_stats].
  rewrite lookup_insert_eq.
  destruct (Z.leb_spec (timestamp now + ttl_seconds * 1000000) (timestamp now'));
    [lia|done].
Qed.

(** Once the counter is initialised, an invalidation is observed by the
    next read, provided nothing is cached under the new version. *)
Lemma invalidation_observed_when_initialized
    (db : Store) (c : Cache) (v : Z) (now : datetime) (today : date)
    (ttl_seconds : Z) :
  cache_version c = Some v →
  cache_stats c !! stats_key (v + 1) today = None →
  (get_staff_dashboard_counts db (invalidate_dashboard_cache c) now today
     ttl_seconds).1
  = compute_dashboard_counts db today.
Proof.
  intros Hv Hfree. rewrite (invalidate_initialized _ _ Hv).
  unfold get_staff_dashboard_counts, cache_get_version, cache_get_stats.
  cbn [cache_version cache_stats cache_set_version]. cbv zeta. by rewrite Hfree.
Qed.

End Dashboard.

Import Instances.

Definition later : datetime := mkdatetime (mkdate 2024 5 3) 43230000000.

Definition store_before : Store :=
  store_with "customer@example.com" [order_with 1 NEW None].

(** The store after the row action has moved order 1 to DONE. *)
Definition store_after : Store :=
  db (service_panel_post
        (world_with "customer@example.com" [order_with 1 NEW None])
        LifecycleFacts.row_done_POST noon).2.

Lemma first_invalidation_not_observed_witness :
  let r1 := get_staff_dashboard_counts store_before empty_cache noon
              (mkdate 2024 5 3) 60 in
  let c2 := invalidate_dashboard_cache r1.2 in
  let r2 := get_staff_dashboard_counts store_after c2 later (mkdate 2024 5 3) 60 in
  r2.1 = r1.1
  ∧ unfinished_count r2.1 = 1%nat
  ∧ unfinished_count (compute_dashboard_counts store_after (mkdate 2024 5 3)) = 0%nat.
Proof.
  cbv zeta.
  destruct (first_invalidation_not_observed store_before store_after empty_cache
              noon later (mkdate 2024 5 3) 60) as (H1 & _ & H2).
  - reflexivity.
  - reflexivity.
  - vm_compute. reflexivity.
  - split; [exact H2|]. split; [rewrite H2, H1|]; vm_compute; reflexivity.
Defined.

Definition timed_order (k : Z) (created completed : datetime) : ServiceOrder :=
  {| pk := k; bike := 1; service_code := ""; issue_description := "";
     work_done := ""; status := DONE; price := 0; promised_date := None;
     checklist := ∅; created_at := created; completed_at := Some completed |}.

(** Durations of 1 day and 2.5 days, and an order completed before it was
    created, which is left out: the mean 1.75 is rounded to 1.8. *)
Example avg_repair_days_example :
  Qeq (avg_repair_days
         (compute_dashboard_counts
            (store_with ""
               [ timed_order 1 (mkdatetime (mkdate 2024 2 28) 0)
                               (mkdatetime (mkdate 2024 2 29) 0);
                 timed_order 2 (mkdatetime (mkdate 2024 2 28) 0)
                               (mkdatetime (mkdate 2024 3 1) 43200000000);
                 timed_order 3 (mkdatetime (mkdate 2024 3 5) 0)
                               (mkdatetime (mkdate 2024 3 4) 0) ])
            (mkdate 2024 3 6)))
      (18 # 10).
Proof. vm_compute. reflexivity. Qed.

End DashboardFacts.

(** ** Further properties of the smart search *)

Module SearchProps.
Import PyStr PyStrFacts.

(** The primary keys of the orders of a queryset. *)
Definition pks (qs : list OrderRow) : list Z := map (fun r => pk (row_order r)) qs.

(** A string made of whitespace only. *)
Definition blank (s : string) : Prop :=
  Forall (fun c => is_space c = true) (list_ascii_of_string s).

Lemma lstrip_blank s : blank s → lstrip s = "".
Proof.
  unfold blank. induction s as [|c s IH]; [done|]. cbn [list_ascii_of_string lstrip].
  intros [Hc Hs]%Forall_cons. rewrite Hc. by apply IH.
Qed.

Lemma search_tokens_fold (ts : list string) (qs : list OrderRow) :
  fold_left (fun qs token => filter (fun r => token_filter token r = true) qs) ts qs
  = filter (fun r => forallb (fun t => token_filter t r) ts = true) qs.
Proof.
  revert qs. induction ts as [|t ts IH]; intros qs.
  - cbn. symmetry. induction qs as [|r qs IHqs]; [done|].
    by rewrite filter_cons_True, IHqs.
  - cbn [fold_left forallb]. rewrite IH, list_filter_filter.
    apply list_filter_iff. intros r. rewrite andb_true_iff. tauto.
Qed.

Lemma distinct_sublist (seen : list Z) (qs : list OrderRow) : sublist (distinct seen qs) qs.
Proof.
  revert seen. induction qs as [|r qs IH]; intros seen; [done|]. cbn [distinct].
  case_bool_decide; [by apply sublist_cons|by apply sublist_skip].
Qed.

Lemma distinct_fresh (seen : list Z) (qs : list OrderRow) :
  NoDup (pks (distinct seen qs))
  ∧ ∀ k, k ∈ pks (distinct seen qs) → k ∉ seen.
Proof.
  revert seen. induction qs as [|r qs IH]; intros seen.
  - split; [constructor|]. intros k Hk. by apply elem_of_nil in Hk.
  - cbn [distinct]. case_bool_decide as Hin; [apply IH|].
    destruct (IH (pk (row_order r) :: seen)) as [Hnd Hfresh].
    cbn [pks map]. split.
    + constructor; [|done]. intros Hk. apply Hfresh in Hk. apply Hk. by left.
    + intros k [->|Hk]%elem_of_cons; [done|].
      apply Hfresh in Hk. intros Hs. apply Hk. by right.
Qed.

Lemma distinct_id (seen : list Z) (qs : list OrderRow) :
  NoDup (pks qs) → (∀ k, k ∈ pks qs → k ∉ seen) → distinct seen qs = qs.
Proof.
  revert seen. induction qs as [|r qs IH]; intros seen Hnd Hseen; [done|].
  cbn [pks map] in Hnd, Hseen. apply NoDup_cons in Hnd as [Hr Hnd].
  cbn [distinct]. rewrite bool_decide_eq_false_2 by (apply Hseen; by left).
  f_equal. apply IH; [done|]. intros k Hk [->|Hs]%elem_of_cons; [done|].
  by apply (Hseen k); [right|].
Qed.

Lemma pks_filter_NoDup (P : OrderRow → Prop) `{∀ r, Decision (P r)}
    (qs : list OrderRow) :
  NoDup (pks qs) → NoDup (pks (filter P qs)).
Proof.
  intros Hnd. apply (sublist_NoDup _ (pks qs)); [done|].
  unfold pks. apply (fmap_sublist (fun r => pk (row_order r))), sublist_filter.
Qed.

(** X1. A query that is empty or made of whitespace only returns the
    queryset as it is. *)
Theorem smart_search_blank_query (qs : list OrderRow) (query : string) :
  blank query → _apply_service_panel_smart_search qs query = qs.
Proof.
  intros Hb. unfold _apply_service_panel_smart_search, strip.
  by rewrite (lstrip_blank _ Hb).
Qed.

Lemma smart_search_blank_query_witness :
  _apply_service_panel_smart_search
    [SearchFacts.sample_row 1 "A-1" "" "" "" []; SearchFacts.sample_row 1 "A-1" "" "" "" []]
    (String " " (String (ascii_of_nat 9) " "))
  = [SearchFacts.sample_row 1 "A-1" "" "" "" []; SearchFacts.sample_row 1 "A-1" "" "" "" []].
Proof.
  apply (smart_search_blank_query _ (String " " (String (ascii_of_nat 9) " "))).
  repeat constructor.
Defined.

(** X2. A query that is not an exact lookup is split at whitespace, and an
    order is returned when every token matches it: the tokens are combined
    by "and", each over all the searched fields.  Over a queryset that holds
    every order once, the result is the rows matching all tokens, in the
    order of the queryset. *)
Theorem smart_search_tokens_conjunction (qs : list OrderRow) (query : string) :
  nonempty (strip query) = true →
  code_match (strip query) = None →
  NoDup (pks qs) →
  _apply_service_panel_smart_search qs query
  = filter (fun r => forallb (fun t => token_filter t r) (tokens (strip query)) = true) qs.
Proof.
  intros Hne Hcode Hnd. unfold _apply_service_panel_smart_search. cbv zeta.
  rewrite Hne, Hcode. cbn [negb]. rewrite search_tokens_fold.
  apply distinct_id; [by apply pks_filter_NoDup|]. intros k _. apply not_elem_of_nil.
Qed.

Lemma smart_search_tokens_conjunction_witness :
  _apply_service_panel_smart_search
    [ SearchFacts.sample_row 1 "A-1" "brake squeal" "" "" [];
      SearchFacts.sample_row 2 "A-2" "rear brake" "new pads" "" [];
      SearchFacts.sample_row 3 "A-3" "gears" "new pads" "" [] ]
    "BRAKE  pads"
  = [ SearchFacts.sample_row 2 "A-2" "rear brake" "new pads" "" [] ].
Proof.
  rewrite (smart_search_tokens_conjunction _ "BRAKE  pads").
  - vm_compute. reflexivity.
  - reflexivity.
  - reflexivity.
  - compute_done.
Defined.

(** X3. The search only selects: whatever the query, the result is a
    subsequence of the queryset (no row is added, the order is kept). *)
Theorem smart_search_sublist (qs : list OrderRow) (query : string) :
  sublist (_apply_service_panel_smart_search qs query) qs.
Proof.
  unfold _apply_service_panel_smart_search. cbv zeta.
  destruct (negb _); [done|].
  destruct (code_match _) as [code|]; [apply sublist_filter|].
  rewrite search_tokens_fold.
  etrans; [apply distinct_sublist|apply sublist_filter].
Qed.

(** X4. A token search never returns an order twice, also when the joins of
    the queryset repeat it. *)
Theorem smart_search_tokens_distinct (qs : list OrderRow) (query : string) :
  nonempty (strip query) = true →
  code_match (strip query) = None →
  NoDup (pks (_apply_service_panel_smart_search qs query)).
Proof.
  intros Hne Hcode. unfold _apply_service_panel_smart_search. cbv zeta.
  rewrite Hne, Hcode. cbn [negb]. apply distinct_fresh.
Qed.

Lemma smart_search_tokens_distinct_witness :
  NoDup (pks (_apply_service_panel_smart_search
                [ SearchFacts.sample_row 1 "A-1" "brake" "" "" [];
                  SearchFacts.sample_row 1 "A-1" "brake" "" "" [] ]
                "brake")).
Proof.
  apply (smart_search_tokens_distinct _ "brake"); reflexivity.
Defined.

Lemma lower_char_idemp c : lower_char (lower_char c) = lower_char c.
Proof.
  pose proof (forall_ascii
                (fun c => Ascii.eqb (lower_char (lower_char c)) (lower_char c))
                eq_refl c) as H.
  by apply Ascii.eqb_eq in H.
Qed.

Lemma is_digit_lower_char c : is_digit (lower_char c) = is_digit c.
Proof.
  pose proof (forall_ascii
                (fun c => Bool.eqb (is_digit (lower_char c)) (is_digit c))
                eq_refl c) as H.
  by apply eqb_prop in H.
Qed.

Lemma digits_only_lower s : digits_only (lower s) = digits_only s.
Proof.
  induction s as [|c s IH]; [done|]. cbn [lower digits_only].
  rewrite is_digit_lower_char, IH. destruct (is_digit c) eqn:Hc; [|done].
  by rewrite (lower_digit _ Hc).
Qed.

(** X5. The token filter does not distinguish letter case in the token:
    two tokens that agree up to the case of ASCII letters match the same
    orders, on every searched field and on the phone number. *)
Theorem token_filter_case_insensitive (token1 token2 : string) (r : OrderRow) :
  lower token1 = lower token2 →
  token_filter token1 r = token_filter token2 r.
Proof.
  intros Hl.
  assert (Hd : digits_only token1 = digits_only token2).
  { by rewrite <- (digits_only_lower token1), Hl, digits_only_lower. }
  unfold token_filter, phone_match, ticket_match, icontains. cbv zeta.
  by rewrite Hl, Hd.
Qed.

Lemma token_filter_case_insensitive_witness :
  token_filter "TREK" (SearchFacts.sample_row 1 "" "" "" "" [])
  = token_filter "trek" (SearchFacts.sample_row 1 "" "" "" "" [])
  ∧ token_filter "trek" (SearchFacts.sample_row 1 "" "" "" "" []) = true.
Proof.
  split; [|reflexivity].
  apply (token_filter_case_insensitive "TREK" "trek"). reflexivity.
Defined.

End SearchProps.

(** ** Further properties of the dashboard cache *)

Module CacheProps.

Fixpoint colon_free (s : string) : bool :=
  match s with
  | EmptyString => true
  | String c s' => negb (Ascii.eqb c ":") && colon_free s'
  end.

Lemma pretty_N_go_colon_free x s :
  colon_free s = true → colon_free (pretty_N_go x s) = true.
Proof.
  revert s. induction (N.lt_wf_0 x) as [x _ IH]; intros s Hs.
  assert (x = 0 ∨ 0 < x)%N as [->|?] by lia.
  - by rewrite pretty_N_go_0.
  - rewrite pretty_N_go_step by done. apply IH.
    { by apply N.div_lt. }
    cbn [colon_free]. rewrite Hs. unfold pretty_N_char. by repeat case_match.
Qed.

Lemma pretty_Z_colon_free (z : Z) : colon_free (pretty z) = true.
Proof.
  assert (HN : ∀ n : N, colon_free (pretty n) = true).
  { intros n. unfold pretty, pretty_N. case_decide; [done|].
    by apply pretty_N_go_colon_free. }
  destruct z as [|p|p]; [done|apply (HN (Npos p))|].
  unfold pretty, pretty_Z. cbn [String.app colon_free].
  apply (HN (Npos p)).
Qed.

(** Two strings cut at their first colon. *)
Lemma colon_split a a' b b' :
  colon_free a = true → colon_free a' = true →
  a +:+ String ":" b = a' +:+ String ":" b' → a = a'.
Proof.
  revert a'. induction a as [|c a IH]; intros [|c' a'] Ha Ha' Heq; cbn in *.
  - done.
  - injection Heq as <- _. done.
  - injection Heq as -> _. done.
  - injection Heq as -> Heq. apply andb_prop in Ha as [_ Ha].
    apply andb_prop in Ha' as [_ Ha']. f_equal. by apply IH.
Qed.

Lemma string_app_inv_head (s a b : string) : s +:+ a = s +:+ b → a = b.
Proof. induction s as [|c s IH]; cbn; [done|]. intros [= Heq]. by apply IH. Qed.

Lemma stats_key_version (v v' : Z) (d d' : date) :
  stats_key v d = stats_key v' d' → v = v'.
Proof.
  unfold stats_key. intros Heq.
  apply string_app_inv_head in Heq.
  apply colon_split in Heq; [|apply pretty_Z_colon_free..].
  by apply (inj pretty).
Qed.

Section Cache.
Context `{PyFloat}.

(** Every cached snapshot sits under a key of a version that the counter
    has reached. *)
Definition cache_wf (c : Cache) : Prop :=
  ∀ key x, cache_stats c !! key = Some x →
           ∃ v d, key = stats_key v d ∧ v ≤ cache_get_version c 1.

Lemma cache_wf_read db c now today ttl_seconds :
  cache_wf c → cache_wf (get_staff_dashboard_counts db c now today ttl_seconds).2.
Proof.
  intros Hwf. unfold get_staff_dashboard_counts. cbv zeta.
  destruct (cache_get_stats _ _ _); [done|]. cbn [snd].
  intros key x. unfold cache_set_stats, cache_get_version. cbn [cache_stats cache_version].
  rewrite lookup_insert. case_decide as Hk.
  - intros _. subst key. eexists _, _. split; [reflexivity|]. unfold cache_get_version. lia.
  - apply Hwf.
Qed.

Lemma cache_version_invalidate c :
  cache_version (invalidate_dashboard_cache c)
  = Some (match cache_version c with Some v => v + 1 | None => 1 end).
Proof.
  unfold invalidate_dashboard_cache, cache_add_version, cache_incr_version.
  destruct (cache_version c) as [v|] eqn:Hv; [|done]. by rewrite Hv.
Qed.

Lemma cache_stats_invalidate c :
  cache_stats (invalidate_dashboard_cache c) = cache_stats c.
Proof.
  unfold invalidate_dashboard_cache, cache_add_version, cache_incr_version.
  destruct (cache_version c) as [v|] eqn:Hv; [|done]. by rewrite Hv.
Qed.

Lemma cache_wf_invalidate c :
  cache_wf c → cache_wf (invalidate_dashboard_cache c).
Proof.
  intros Hwf key x. rewrite cache_stats_invalidate. intros Hk.
  destruct (Hwf key x Hk) as (v & d & -> & Hv). exists v, d. split; [done|].
  unfold cache_get_version in *. rewrite cache_version_invalidate.
  destruct (cache_version c); lia.
Qed.

(** X6. The keys of the cache are well-formed at every moment: the empty
    cache holds no snapshot, and reading the dashboard and invalidating keep
    every cached snapshot under a key of a version not above the counter. *)
Theorem dashboard_cache_keys_invariant :
  cache_wf {| cache_version := None; cache_stats := ∅ |}
  ∧ (∀ db c now today ttl_seconds,
       cache_wf c → cache_wf (get_staff_dashboard_counts db c now today ttl_seconds).2)
  ∧ (∀ c, cache_wf c → cache_wf (invalidate_dashboard_cache c)).
Proof.
  split; [|split].
  - intros key x. cbn. by rewrite lookup_empty.
  - apply cache_wf_read.
  - apply cache_wf_invalidate.
Qed.

(** X7. Once the version counter exists, every invalidation is observed:
    the read that follows it, for any day and at any time, finds nothing
    under the new version and computes the snapshot from the entity store. *)
Theorem invalidation_observed_once_initialized
    (db : Store) (c : Cache) (v : Z) (now : datetime) (today : date)
    (ttl_seconds : Z) :
  cache_wf c →
  cache_version c = Some v →
  let r := get_staff_dashboard_counts db (invalidate_dashboard_cache c) now today
             ttl_seconds in
  cache_version (invalidate_dashboard_cache c) = Some (v + 1)
  ∧ r.1 = compute_dashboard_counts db today
  ∧ cache_stats r.2 !! stats_key (v + 1) today
    = Some (compute_dashboard_counts db today, timestamp now + ttl_seconds * 1000000).
Proof.
  intros Hwf Hv. cbv zeta.
  assert (Hfree : cache_stats c !! stats_key (v + 1) today = None).
  { destruct (cache_stats c !! stats_key (v + 1) today) as [x|] eqn:Hk; [|done].
    destruct (Hwf _ _ Hk) as (v' & d & Hkey & Hle).
    apply stats_key_version in Hkey. unfold cache_get_version in Hle.
    rewrite Hv in Hle. lia. }
  rewrite cache_version_invalidate, Hv. split; [done|].
  unfold get_staff_dashboard_counts, cache_get_version, cache_get_stats.
  rewrite cache_version_invalidate, cache_stats_invalidate, Hv. cbv zeta.
  rewrite Hfree. cbn [fst snd cache_set_stats cache_stats].
  split; [done|]. by rewrite lookup_insert_eq.
Qed.

(** X8. A snapshot computed at [now] is served until its time to live has
    passed, whatever happens to the entity store meanwhile, and the cache is
    not written by those reads; from the expiry on, the next read computes
    the snapshot again. *)
Theorem dashboard_snapshot_ttl
    (db1 db2 : Store) (c : Cache) (now now' : datetime) (today : date)
    (ttl_seconds : Z) :
  cache_get_stats c now (stats_key (cache_get_version c 1) today) = None →
  let r1 := get_staff_dashboard_counts db1 c now today ttl_seconds in
  let r2 := get_staff_dashboard_counts db2 r1.2 now' today ttl_seconds in
  (timestamp now' < timestamp now + ttl_seconds * 1000000 →
     r2 = (compute_dashboard_counts db1 today, r1.2))
  ∧ (timestamp now + ttl_seconds * 1000000 ≤ timestamp now' →
     r2.1 = compute_dashboard_counts db2 today).
Proof.
  intros Hmiss. cbv zeta.
  assert (Hr1 : get_staff_dashboard_counts db1 c now today ttl_seconds
                = (compute_dashboard_counts db1 today,
                   cache_set_stats c now (stats_key (cache_get_version c 1) today)
                     (compute_dashboard_counts db1 today) ttl_seconds)).
  { unfold get_staff_dashboard_counts. cbv zeta. by rewrite Hmiss. }
  rewrite Hr1. cbn [fst snd].
  unfold get_staff_dashboard_counts at 1 2. cbv zeta.
  unfold cache_get_version at 1 3 5 7. cbn [cache_version cache_set_stats].
  fold (cache_get_version c 1).
  unfold cache_get_stats at 1 2. cbn [cache_stats cache_set_stats].
  rewrite lookup_insert_eq.
  split; intros Ht.
  - destruct (Z.leb_spec (timestamp now + ttl_seconds * 1000000) (timestamp now'));
      [lia|done].
  - destruct (Z.leb_spec (timestamp now + ttl_seconds * 1000000) (timestamp now'));
      [done|lia].
Qed.

(** X9. The counter counts the invalidations: after [n] of them (at least
    one) it holds [v + n] when it held [v], and [n] when it did not exist;
    the snapshots stored in the cache are never deleted by invalidating. *)
Theorem invalidations_counted (c : Cache) (n : nat) :
  (0 < n)%nat →
  cache_version (Nat.iter n invalidate_dashboard_cache c)
  = Some (match cache_version c with
          | Some v => v + Z.of_nat n
          | None => Z.of_nat n
          end)
  ∧ cache_stats (Nat.iter n invalidate_dashboard_cache c) = cache_stats c.
Proof.
  intros Hn. destruct n as [|n]; [lia|]. clear Hn.
  induction n as [|n [IHv IHs]].
  - change (Nat.iter 1 invalidate_dashboard_cache c)
      with (invalidate_dashboard_cache c).
    rewrite cache_version_invalidate, cache_stats_invalidate.
    split; [|done]. destruct (cache_version c); f_equal; lia.
  - change (Nat.iter (S (S n)) invalidate_dashboard_cache c)
      with (invalidate_dashboard_cache (Nat.iter (S n) invalidate_dashboard_cache c)).
    rewrite cache_version_invalidate, cache_stats_invalidate, IHv, IHs.
    split; [|done]. destruct (cache_version c); f_equal; lia.
Qed.

Lemma count_le {A} (P Q : A → bool) (m : gmap Z A) :
  (∀ x, P x = true → Q x = true) → (count P m ≤ count Q m)%nat.
Proof.
  intros HPQ. unfold count. induction (rows m) as [|x l IH]; [done|]. cbn [List.filter].
  destruct (P x) eqn:HP.
  - rewrite (HPQ _ HP). cbn [length]. lia.
  - destruct (Q x); cbn [length]; lia.
Qed.

Lemma count_disjoint_le {A} (P1 P2 Q : A → bool) (m : gmap Z A) :
  (∀ x, P1 x = true → Q x = true) → (∀ x, P2 x = true → Q x = true) →
  (∀ x, P1 x = true → P2 x = false) →
  (count P1 m + count P2 m ≤ count Q m)%nat.
Proof.
  intros H1 H2 Hd. unfold count. induction (rows m) as [|x l IH]; [done|].
  cbn [List.filter]. destruct (P1 x) eqn:HP1.
  - rewrite (H1 _ HP1), (Hd _ HP1). cbn [length]. lia.
  - destruct (P2 x) eqn:HP2.
    + rewrite (H2 _ HP2). cbn [length]. lia.
    + destruct (Q x); cbn [length]; lia.
Qed.

(** X10. The counters of a snapshot are consistent with each other: the
    new and in-progress orders together are not more than the unfinished
    ones, the tickets waiting for the shop are not more than the tickets not
    closed, and the orders completed today are among those completed in the
    last seven days. *)
Theorem dashboard_counts_consistent (db : Store) (today : date) :
  let s := compute_dashboard_counts db today in
  (stat_orders_new s + stat_orders_in_progress s ≤ unfinished_count s)%nat
  ∧ (waiting_tickets_count s ≤ open_tickets_count s)%nat
  ∧ (stat_orders_done_today s ≤ completed_last_7_days s)%nat.
Proof.
  cbv zeta. cbn [compute_dashboard_counts stat_orders_new stat_orders_in_progress
    unfinished_count waiting_tickets_count open_tickets_count stat_orders_done_today
    completed_last_7_days].
  split; [|split].
  - apply count_disjoint_le; intros o; destruct (status o), (completed_at o); done.
  - apply count_le. intros t. unfold ticket_waiting, ticket_not_closed.
    by destruct (ticket_status t).
  - apply count_le. intros o. destruct (completed_at o) as [c|]; [|done].
    unfold date_eqb. intros [[Hy Hm]%andb_prop Hd]%andb_prop.
    apply Z.eqb_eq in Hy, Hm, Hd. apply Z.leb_le.
    unfold toordinal. rewrite Hy, Hm, Hd. lia.
Qed.

End Cache.

Import Instances.

(** Distinct versions give distinct keys, whatever the days. *)
Lemma stats_key_version_example :
  stats_key 1 (mkdate 2024 5 3) ≠ stats_key 2 (mkdate 2024 5 3).
Proof. intros Heq. by apply stats_key_version in Heq. Qed.

Definition warm_cache : Cache :=
  (get_staff_dashboard_counts (store_with "" [order_with 1 NEW None])
     (cache_set_version empty_cache 4) noon (mkdate 2024 5 3) 60).2.

Lemma invalidation_observed_once_initialized_witness :
  let r := get_staff_dashboard_counts (store_with "" [order_with 1 DONE (Some noon)])
             (invalidate_dashboard_cache warm_cache) noon (mkdate 2024 5 3) 60 in
  cache_version (invalidate_dashboard_cache warm_cache) = Some 5
  ∧ unfinished_count r.1 = 0%nat.
Proof.
  cbv zeta.
  destruct (invalidation_observed_once_initialized
              (store_with "" [order_with 1 DONE (Some noon)]) warm_cache 4 noon
              (mkdate 2024 5 3) 60) as (Hv & Hr & _).
  - apply cache_wf_read. intros key x. cbn. by rewrite lookup_empty.
  - reflexivity.
  - split; [exact Hv|]. rewrite Hr. vm_compute. reflexivity.
Defined.

Lemma dashboard_snapshot_ttl_witness :
  let r1 := get_staff_dashboard_counts (store_with "" [order_with 1 NEW None])
              empty_cache noon (mkdate 2024 5 3) 60 in
  (get_staff_dashboard_counts (store_with "" []) r1.2
     (mkdatetime (mkdate 2024 5 3) 43259999999) (mkdate 2024 5 3) 60)
  = (compute_dashboard_counts (store_with "" [order_with 1 NEW None]) (mkdate 2024 5 3),
     r1.2)
  ∧ unfinished_count
      (get_staff_dashboard_counts (store_with "" []) r1.2
         (mkdatetime (mkdate 2024 5 3) 43260000000) (mkdate 2024 5 3) 60).1 = 0%nat.
Proof.
  cbv zeta. split.
  - apply (dashboard_snapshot_ttl (store_with "" [order_with 1 NEW None])
             (store_with "" []) empty_cache noon
             (mkdatetime (mkdate 2024 5 3) 43259999999) (mkdate 2024 5 3) 60);
      [reflexivity|vm_compute; reflexivity].
  - destruct (dashboard_snapshot_ttl (store_with "" [order_with 1 NEW None])
             (store_with "" []) empty_cache noon
             (mkdatetime (mkdate 2024 5 3) 43260000000) (mkdate 2024 5 3) 60)
      as [_ Hexp]; [reflexivity|].
    rewrite Hexp; [vm_compute; reflexivity|vm_compute; discriminate].
Defined.

Lemma invalidations_counted_witness :
  cache_version (Nat.iter 3 invalidate_dashboard_cache empty_cache) = Some 3
  ∧ cache_version (Nat.iter 3 invalidate_dashboard_cache (cache_set_version empty_cache 4))
    = Some 7.
Proof.
  split.
  - apply (invalidations_counted empty_cache 3). lia.
  - apply (invalidations_counted (cache_set_version empty_cache 4) 3). lia.
Defined.

End CacheProps.

(** ** Further properties of the staff panel and the order detail *)

Module PanelProps.

Section Panel.
Context `{PyFloat} `{PyDecimal}.

Lemma alter_present {A} (f : A → A) (m : gmap Z A) (k : Z) (x : A) :
  m !! k = Some x → alter f k m = <[k := f x]> m.
Proof.
  intros Hk. apply map_eq. intros j. rewrite lookup_alter, lookup_insert.
  case_decide; [subst j; by rewrite Hk|done].
Qed.

(** The tables of the store that the order views never write. *)
Definition same_relations (s s' : Store) : Prop :=
  customers s' = customers s ∧ bikes s' = bikes s ∧ tickets s' = tickets s.

(** X11. The row action [row_update_status] is rejected when the order id
    is not a number, when the status is not one of the choices, or when no
    such order exists: the store, the cache and the mail queue stay as they
    are, the error message is shown, and the response is the redirect back
    to the panel. *)
Theorem row_update_status_rejected
    (w : World) (POST : gmap string string) (now : datetime) :
  post_get POST "action" = "row_update_status" →
  PyStr.isdigit (post_get POST "order_id") = false
  ∨ Status_of_string (post_get POST "new_status") = None
  ∨ orders (db w) !! PyStr.int (post_get POST "order_id") = None →
  service_panel_post w POST now
  = (_redirect_back POST,
     {| db := db w; cache := cache w; outbox := outbox w;
        flash := (flash w ++ [(ERROR, "Nepodarilo sa uložiť stav.")])%list |}).
Proof.
  intros Ha Hbad. rewrite (LifecycleFacts.service_panel_post_row_update_status _ _ _ Ha).
  unfold row_update_status. cbv zeta.
  destruct (PyStr.isdigit _) eqn:Hd; [|done].
  destruct (Status_of_string _) as [st|] eqn:Hst; [|done].
  destruct (orders (db w) !! _) as [order|] eqn:Ho; [|done].
  by destruct Hbad as [?|[?|?]].
Qed.

(** X12. The row action [row_update_eta] writes the promised date and
    nothing else: the stored order differs from the one before in that field
    only, the other orders and tables are untouched, no mail is queued and
    the cache is invalidated.  The date stored is the one parsed from the
    text, so a text that is empty or not a date clears the promised date. *)
Theorem row_update_eta_effect
    (w : World) (POST : gmap string string) (now : datetime) (order : ServiceOrder) :
  post_get POST "action" = "row_update_eta" →
  PyStr.isdigit (post_get POST "order_id") = true →
  orders (db w) !! PyStr.int (post_get POST "order_id") = Some order →
  pk order = PyStr.int (post_get POST "order_id") →
  let w' := (service_panel_post w POST now).2 in
  let promised := _parse_date (post_get POST "promised_date") in
  orders (db w') = <[pk order := with_promised_date promised order]> (orders (db w))
  ∧ status (with_promised_date promised order) = status order
  ∧ completed_at (with_promised_date promised order) = completed_at order
  ∧ same_relations (db w) (db w')
  ∧ logs (db w') = logs (db w)
  ∧ outbox w' = outbox w
  ∧ cache w' = invalidate_dashboard_cache (cache w)
  ∧ flash w' = (flash w ++ [(SUCCESS, "Termín bol uložený.")])%list.
Proof.
  intros Ha Hd Ho Hpk. cbv zeta. unfold service_panel_post. cbv zeta.
  rewrite Ha. cbn [String.eqb Ascii.eqb Bool.eqb]. unfold row_update_eta. cbv zeta.
  rewrite Hd, Ho.
  cbn [snd db cache outbox flash add_message set_cache set_db save_order_fields
       set_orders orders customers bikes tickets logs pk with_promised_date
       promised_date status completed_at].
  split; [|by repeat split].
  rewrite Hpk. by rewrite (alter_present _ _ _ _ Ho).
Qed.

(** X13. The panel only updates rows of the order table: whatever the
    request, no order is created or deleted, the other tables, the log and
    the mail queue are untouched, and a request that changed an order has
    invalidated the dashboard cache. *)
Theorem service_panel_post_frame
    (w : World) (POST : gmap string string) (now : datetime) :
  let w' := (service_panel_post w POST now).2 in
  dom (orders (db w')) = dom (orders (db w))
  ∧ same_relations (db w) (db w')
  ∧ logs (db w') = logs (db w)
  ∧ outbox w' = outbox w
  ∧ (orders (db w') ≠ orders (db w) →
     cache w' = invalidate_dashboard_cache (cache w)).
Proof.
  cbv zeta. unfold service_panel_post. cbv zeta.
  destruct (String.eqb _ "row_update_status").
  { unfold row_update_status. cbv zeta.
    destruct (PyStr.isdigit _); [|done].
    destruct (Status_of_string _) as [st|]; [|done].
    destruct (orders (db w) !! _) as [order|]; [|done].
    cbn [snd db cache outbox flash add_message set_cache set_db save_order_fields
         set_orders orders customers bikes tickets logs].
    split; [apply dom_alter_L|done]. }
  destruct (String.eqb _ "row_update_eta"); [|done].
  unfold row_update_eta. cbv zeta.
  destruct (PyStr.isdigit _); [|done].
  destruct (orders (db w) !! _) as [order|]; [|done].
  cbn [snd db cache outbox flash add_message set_cache set_db save_order_fields
       set_orders orders customers bikes tickets logs].
  split; [apply dom_alter_L|done].
Qed.

End Panel.

Import Instances.

Lemma row_update_status_rejected_witness :
  service_panel_post (world_with "customer@example.com" [order_with 1 NEW None])
    {[ "action" := "row_update_status"; "order_id" := "1"; "new_status" := "FINISHED" ]}
    noon
  = (Redirect "service_panel" [("tab", "active")],
     {| db := store_with "customer@example.com" [order_with 1 NEW None];
        cache := empty_cache; outbox := [];
        flash := [(ERROR, "Nepodarilo sa uložiť stav.")] |}).
Proof.
  rewrite (row_update_status_rejected
             (world_with "customer@example.com" [order_with 1 NEW None])
             {[ "action" := "row_update_status"; "order_id" := "1";
                "new_status" := "FINISHED" ]} noon).
  - reflexivity.
  - reflexivity.
  - right. left. reflexivity.
Defined.

Lemma row_update_eta_effect_witness :
  let w' := (service_panel_post
               (world_with "customer@example.com"
                  [order_with 1 DONE (Some noon); order_with 2 NEW None])
               {[ "action" := "row_update_eta"; "order_id" := "1";
                  "promised_date" := "next week" ]} noon).2 in
  orders (db w') !! 1
  = Some (with_promised_date None (order_with 1 DONE (Some noon)))
  ∧ cache_version (cache w') = Some 1.
Proof.
  cbv zeta.
  destruct (row_update_eta_effect
              (world_with "customer@example.com"
                 [order_with 1 DONE (Some noon); order_with 2 NEW None])
              {[ "action" := "row_update_eta"; "order_id" := "1";
                 "promised_date" := "next week" ]} noon
              (order_with 1 DONE (Some noon)))
    as (Ho & _ & _ & _ & _ & _ & Hc & _); try reflexivity.
  split.
  - rewrite Ho. apply lookup_insert_eq.
  - rewrite Hc. reflexivity.
Defined.

End PanelProps.

(** ** Further properties of the order detail *)

Module DetailProps.
Import PanelProps.

Section Detail.
Context `{PyFloat} `{PyDecimal}.

(** Some checklist field is present in the request. *)
Definition checklist_posted (POST : gmap string string) : bool :=
  existsb (fun d : string * string => bool_decide (is_Some (POST !! ("cl_" +:+ d.1))))
          CHECKLIST_DEFS.

(** The checklist read from the request: a defined key is ticked when its
    field holds a non-empty value. *)
Definition posted_checklist (POST : gmap string string) : gmap string bool :=
  list_to_map
    (map (fun d : string * string =>
            (d.1, PyStr.nonempty (default "" (POST !! ("cl_" +:+ d.1)))))
         CHECKLIST_DEFS).

Ltac fields :=
  cbn [pk bike service_code issue_description work_done status price promised_date
       checklist created_at completed_at with_status with_promised_date
       with_checklist with_price with_texts fst snd db cache outbox flash
       add_message set_cache set_db save_order set_orders add_log orders customers
       bikes tickets logs _send_email_safely].

(** The order stored by a form save whose price field is accepted, field by
    field, and what else the request does. *)
Lemma save_order_form_fields w order POST now user :
  LifecycleFacts.price_accepted POST →
  ∃ o',
    orders (db (save_order_form w order POST now user).2)
      = <[pk order := o']> (orders (db w))
    ∧ promised_date o' = _parse_date (post_get POST "promised_date")
    ∧ issue_description o' = post_get POST "issue_description"
    ∧ work_done o' = post_get POST "work_done"
    ∧ checklist o' = (if checklist_posted POST then posted_checklist POST
                      else checklist order)
    ∧ price o' = (if PyStr.nonempty (post_get POST "price")
                  then default (price order)
                         (Decimal_parse (PyStr.replace_comma (post_get POST "price")))
                  else price order)
    ∧ service_code o' = service_code order
    ∧ created_at o' = created_at order
    ∧ same_relations (db w) (db (save_order_form w order POST now user).2)
    ∧ cache (save_order_form w order POST now user).2
      = invalidate_dashboard_cache (cache w)
    ∧ (save_order_form w order POST now user).1
      = RedirectOrder "service_order_admin_detail" (pk order)
    ∧ flash (save_order_form w order POST now user).2
      = (flash w ++ [(SUCCESS, "Servisná objednávka bola uložená.")])%list.
Proof.
  intros Hprice. unfold save_order_form. cbv zeta.
  unfold LifecycleFacts.price_accepted in Hprice.
  change (existsb _ CHECKLIST_DEFS) with (checklist_posted POST).
  change (list_to_map _) with (posted_checklist POST).
  set (o1 := match Status_of_string (post_get POST "status") with
             | Some st => with_status st (completed_at order) order
             | None => order
             end).
  set (o2 := with_promised_date _ o1).
  set (o3 := if checklist_posted POST then _ else o2).
  assert (H3 : pk o3 = pk order
               ∧ promised_date o3 = _parse_date (post_get POST "promised_date")
               ∧ checklist o3 = (if checklist_posted POST then posted_checklist POST
                                 else checklist order)
               ∧ price o3 = price order
               ∧ service_code o3 = service_code order
               ∧ created_at o3 = created_at order).
  { subst o3 o2 o1. destruct (checklist_posted POST), (Status_of_string _); done. }
  clearbody o3. clear o2 o1.
  destruct H3 as (Hpk3 & Hpd3 & Hcl3 & Hpr3 & Hsc3 & Hcr3).
  set (parsed := if PyStr.nonempty (post_get POST "price") then _ else Some o3).
  assert (∃ o4, parsed = Some o4 ∧ pk o4 = pk order
                ∧ promised_date o4 = promised_date o3
                ∧ checklist o4 = checklist o3
                ∧ price o4 = (if PyStr.nonempty (post_get POST "price")
                              then default (price order)
                                     (Decimal_parse
                                        (PyStr.replace_comma (post_get POST "price")))
                              else price order)
                ∧ service_code o4 = service_code order
                ∧ created_at o4 = created_at order)
    as (o4 & -> & Hpk4 & Hpd4 & Hcl4 & Hpr4 & Hsc4 & Hcr4).
  { subst parsed.
    destruct (PyStr.nonempty (post_get POST "price")); [|by exists o3].
    destruct (Hprice eq_refl) as [p ->]. by eexists. }
  set (o5 := with_texts _ _ o4).
  assert (H5 : pk o5 = pk order ∧ promised_date o5 = promised_date o4
               ∧ issue_description o5 = post_get POST "issue_description"
               ∧ work_done o5 = post_get POST "work_done"
               ∧ checklist o5 = checklist o4 ∧ price o5 = price o4
               ∧ service_code o5 = service_code order
               ∧ created_at o5 = created_at order) by done.
  clearbody o5. destruct H5 as (Hpk5 & Hpd5 & Hi5 & Hw5 & Hcl5 & Hpr5 & Hsc5 & Hcr5).
  set (jc := Status_eqb (status o5) DONE && is_null (completed_at o5)).
  set (o6 := if jc then _ else o5).
  set (o7 := if negb (Status_eqb (status o6) DONE) then _ else o6).
  assert (H7 : pk o7 = pk o5 ∧ promised_date o7 = promised_date o5
               ∧ issue_description o7 = issue_description o5
               ∧ work_done o7 = work_done o5
               ∧ checklist o7 = checklist o5 ∧ price o7 = price o5
               ∧ service_code o7 = service_code o5
               ∧ created_at o7 = created_at o5).
  { subst o7 o6. destruct jc, (negb _); done. }
  clearbody o7 jc. clear o6.
  destruct H7 as (Hpk7 & Hpd7 & Hi7 & Hw7 & Hcl7 & Hpr7 & Hsc7 & Hcr7).
  assert (Hpk : pk o7 = pk order) by congruence.
  exists o7. fields.
  destruct (order_customer _ o7) as [cu|];
    [destruct (jc && PyStr.nonempty (email cu))|]; fields; rewrite ?Hpk;
    (split; [reflexivity|]); unfold same_relations; fields;
    repeat split; congruence.
Qed.

Lemma posted_checklist_lookup POST k :
  posted_checklist POST !! k
  = if bool_decide (k ∈ CHECKLIST_DEFS.*1)
    then Some (PyStr.nonempty (default "" (POST !! ("cl_" +:+ k)))) else None.
Proof.
  unfold posted_checklist, CHECKLIST_DEFS. cbn [map list_to_map fst foldr].
  rewrite !lookup_insert, lookup_empty.
  repeat (case_decide;
          [subst k;
           match goal with
           | |- context [bool_decide (?x ∈ ?l.*1)] =>
               replace (bool_decide (x ∈ l.*1)) with true
                 by (symmetry; apply bool_decide_eq_true_2; compute_done)
           end; reflexivity|]).
  rewrite bool_decide_eq_false_2; [done|].
  cbn [fmap list_fmap fst]. rewrite !elem_of_cons, elem_of_nil.
  intuition congruence.
Qed.

Lemma checklist_posted_spec POST :
  checklist_posted POST = true
  ↔ ∃ k, k ∈ CHECKLIST_DEFS.*1 ∧ is_Some (POST !! ("cl_" +:+ k)).
Proof.
  unfold checklist_posted. rewrite existsb_exists. split.
  - intros ([k l] & Hin & Hp). exists k. split.
    + apply list_elem_of_fmap. exists (k, l). split; [done|]. by apply list_elem_of_In.
    + by apply bool_decide_eq_true_1 in Hp.
  - intros (k & Hin & Hp). apply list_elem_of_fmap in Hin as ([k' l] & -> & Hin).
    exists (k', l). split; [by apply list_elem_of_In|]. by apply bool_decide_eq_true_2.
Qed.

(** The stored order after a form save with an accepted price. *)
Lemma detail_form_saved w order_id order POST now user :
  orders (db w) !! order_id = Some order → pk order = order_id →
  LifecycleFacts.form_action POST → LifecycleFacts.price_accepted POST →
  ∃ r w' o',
    service_order_admin_detail_post w order_id POST now user = Some (r, w')
    ∧ w' = (save_order_form w order POST now user).2
    ∧ orders (db w') = <[order_id := o']> (orders (db w))
    ∧ orders (db w') !! order_id = Some o'.
Proof.
  intros Ho Hpk Hform Hprice.
  rewrite (LifecycleFacts.detail_post_form _ _ _ _ _ _ Ho Hform).
  destruct (save_order_form_fields w order POST now user Hprice) as (o' & Horders & _).
  rewrite (surjective_pairing (save_order_form _ _ _ _ _)).
  eexists _, _, o'. split; [reflexivity|]. split; [done|].
  rewrite Horders, Hpk. split; [done|]. apply lookup_insert_eq.
Qed.

(** X14. The checklist of the order form is gated by presence: a request
    that carries none of the checklist fields leaves the stored checklist as
    it is; a request that carries at least one replaces the whole checklist,
    every defined key being ticked exactly when its field holds a non-empty
    value, so that the keys absent from the request become false. *)
Theorem form_save_checklist_gated
    (w : World) (order_id : Z) (order : ServiceOrder)
    (POST : gmap string string) (now : datetime) (user : Z) :
  orders (db w) !! order_id = Some order → pk order = order_id →
  LifecycleFacts.form_action POST → LifecycleFacts.price_accepted POST →
  ∃ r w' o',
    service_order_admin_detail_post w order_id POST now user = Some (r, w')
    ∧ orders (db w') !! order_id = Some o'
    ∧ ((∀ k, k ∈ CHECKLIST_DEFS.*1 → POST !! ("cl_" +:+ k) = None) →
       checklist o' = checklist order)
    ∧ ((∃ k, k ∈ CHECKLIST_DEFS.*1 ∧ is_Some (POST !! ("cl_" +:+ k))) →
       ∀ k, checklist o' !! k
            = if bool_decide (k ∈ CHECKLIST_DEFS.*1)
              then Some (PyStr.nonempty (default "" (POST !! ("cl_" +:+ k))))
              else None).
Proof.
  intros Ho Hpk Hform Hprice.
  destruct (detail_form_saved w order_id order POST now user Ho Hpk Hform Hprice)
    as (r & w' & o' & Hpost & -> & Horders & Hlook).
  destruct (save_order_form_fields w order POST now user Hprice)
    as (o'' & Horders' & _ & _ & _ & Hcl & _).
  assert (o'' = o') as ->.
  { rewrite Horders', Hpk in Hlook. rewrite lookup_insert_eq in Hlook. congruence. }
  eexists r, _, o'. split; [exact Hpost|]. split; [done|]. split.
  - intros Hnone. rewrite Hcl.
    destruct (checklist_posted POST) eqn:Hp; [|done].
    apply checklist_posted_spec in Hp as (k & Hk & [x Hx]).
    rewrite (Hnone k Hk) in Hx. done.
  - intros Hsome k. rewrite Hcl.
    apply checklist_posted_spec in Hsome. rewrite Hsome.
    apply posted_checklist_lookup.
Qed.

(** X15. The form save treats its fields differently.  The promised date,
    the issue description and the work-done text are always replaced by what
    the request carries, so a request without these fields clears them; the
    status is kept when the posted status is not one of the choices, the
    price is kept when the price field is blank, and the order code and the
    creation time are never written. *)
Theorem form_save_field_overwrite
    (w : World) (order_id : Z) (order : ServiceOrder)
    (POST : gmap string string) (now : datetime) (user : Z) :
  orders (db w) !! order_id = Some order → pk order = order_id →
  LifecycleFacts.form_action POST → LifecycleFacts.price_accepted POST →
  ∃ r w' o',
    service_order_admin_detail_post w order_id POST now user = Some (r, w')
    ∧ orders (db w') !! order_id = Some o'
    ∧ promised_date o' = _parse_date (post_get POST "promised_date")
    ∧ issue_description o' = post_get POST "issue_description"
    ∧ work_done o' = post_get POST "work_done"
    ∧ (POST !! "promised_date" = None → promised_date o' = None)
    ∧ (POST !! "issue_description" = None → issue_description o' = "")
    ∧ (POST !! "work_done" = None → work_done o' = "")
    ∧ (Status_of_string (post_get POST "status") = None → status o' = status order)
    ∧ (PyStr.nonempty (post_get POST "price") = false → price o' = price order)
    ∧ service_code o' = service_code order
    ∧ created_at o' = created_at order.
Proof.
  intros Ho Hpk Hform Hprice.
  destruct (detail_form_saved w order_id order POST now user Ho Hpk Hform Hprice)
    as (r & w' & o' & Hpost & -> & Horders & Hlook).
  destruct (save_order_form_fields w order POST now user Hprice)
    as (o'' & Horders' & Hpd & Hi & Hwd & _ & Hpr & Hsc & Hcr & _).
  assert (o'' = o') as ->.
  { rewrite Horders', Hpk in Hlook. rewrite lookup_insert_eq in Hlook. congruence. }
  destruct (LifecycleFacts.save_order_form_accepted w order POST now user Hprice)
    as (o'' & (_ & _ & Hst & _) & Horders'' & _).
  assert (o'' = o') as ->.
  { rewrite Horders'', Hpk in Hlook. rewrite lookup_insert_eq in Hlook. congruence. }
  eexists r, _, o'. split; [exact Hpost|]. split; [done|].
  split; [done|]. split; [done|]. split; [done|].
  split; [intros Hn; rewrite Hpd; unfold post_get; by rewrite Hn|].
  split; [intros Hn; rewrite Hi; unfold post_get; by rewrite Hn|].
  split; [intros Hn; rewrite Hwd; unfold post_get; by rewrite Hn|].
  split; [intros Hn; by rewrite Hst, Hn|].
  split; [intros Hn; by rewrite Hpr, Hn|]. done.
Qed.

(** X16. The "service complete" mail is sent once: a form save of an
    order that already has a completion time queues no mail and appends no
    log entry, and when the order stays in DONE its completion time is the
    one it had. *)
Theorem completed_order_save_silent
    (w : World) (order_id : Z) (order : ServiceOrder) (c : datetime)
    (POST : gmap string string) (now : datetime) (user : Z) :
  orders (db w) !! order_id = Some order → pk order = order_id →
  LifecycleFacts.form_action POST → LifecycleFacts.price_accepted POST →
  completed_at order = Some c →
  ∃ r w' o',
    service_order_admin_detail_post w order_id POST now user = Some (r, w')
    ∧ orders (db w') !! order_id = Some o'
    ∧ outbox w' = outbox w
    ∧ logs (db w') = logs (db w)
    ∧ (status o' = DONE → completed_at o' = Some c).
Proof.
  intros Ho Hpk Hform Hprice Hc.
  destruct (detail_form_saved w order_id order POST now user Ho Hpk Hform Hprice)
    as (r & w' & o' & Hpost & -> & Horders & Hlook).
  destruct (LifecycleFacts.save_order_form_accepted w order POST now user Hprice)
    as (o'' & (_ & _ & _ & Hca) & Horders'' & _ & Hno).
  assert (o'' = o') as ->.
  { rewrite Horders'', Hpk in Hlook. rewrite lookup_insert_eq in Hlook. congruence. }
  destruct Hno as [Hout Hlog].
  { intros (_ & Hnone & _). congruence. }
  eexists r, _, o'. split; [exact Hpost|]. split; [done|]. split; [done|]. split; [done|].
  intros Hd. by rewrite Hca, Hd, Hc.
Qed.

Lemma package_get_defined key :
  is_Some (package_get SERVICE_PACKAGE_DEFS key)
  ↔ key ∈ ["basic"; "full"; "brake_setup"].
Proof.
  unfold SERVICE_PACKAGE_DEFS. cbn [package_get]. rewrite !elem_of_cons, elem_of_nil.
  destruct (String.eqb "basic" key) eqn:E1;
    [apply String.eqb_eq in E1; split; [intros _|]; eauto|].
  destruct (String.eqb "full" key) eqn:E2;
    [apply String.eqb_eq in E2; split; [intros _|]; eauto|].
  destruct (String.eqb "brake_setup" key) eqn:E3;
    [apply String.eqb_eq in E3; split; [intros _|]; eauto|].
  apply String.eqb_neq in E1, E2, E3.
  split; [by intros [? ?]|]. intros [?|[?|[?|[]]]]; congruence.
Qed.

(** X17. There are three service packages, "basic", "full" and
    "brake_setup"; applying any other key is rejected: the order, the cache
    and the mail queue stay as they are and the error message is shown. *)
Theorem unknown_package_rejected
    (w : World) (order_id : Z) (order : ServiceOrder)
    (POST : gmap string string) (now : datetime) (user : Z) :
  orders (db w) !! order_id = Some order →
  post_get POST "action" = "apply_service_package" →
  post_get POST "service_package" ∉ ["basic"; "full"; "brake_setup"] →
  service_order_admin_detail_post w order_id POST now user
  = Some (RedirectOrder "service_order_admin_detail" (pk order),
          {| db := db w; cache := cache w; outbox := outbox w;
             flash := (flash w ++ [(ERROR, "Vybraný balík neexistuje.")])%list |}).
Proof.
  intros Ho Ha Hkey.
  rewrite (LifecycleFacts.detail_post_package _ _ _ _ _ _ Ho Ha).
  unfold apply_service_package. cbv zeta.
  destruct (package_get _ _) as [p|] eqn:Hp; [|done].
  destruct Hkey. apply package_get_defined. by rewrite Hp.
Qed.

(** X18. Every write of the order detail invalidates the dashboard cache:
    a request that changed the store has bumped the version counter, and the
    customers, bikes and tickets are never written. *)
Theorem detail_post_invalidates
    (w : World) (order_id : Z) (POST : gmap string string) (now : datetime)
    (user : Z) (r : Response) (w' : World) :
  service_order_admin_detail_post w order_id POST now user = Some (r, w') →
  same_relations (db w) (db w')
  ∧ (db w' ≠ db w → cache w' = invalidate_dashboard_cache (cache w)).
Proof.
  unfold service_order_admin_detail_post.
  destruct (orders (db w) !! order_id) as [order|] eqn:Ho;
    [|by intros [= <- <-]].
  cbv zeta. destruct (_ || _); [done|].
  destruct (String.eqb _ "apply_service_package").
  { unfold apply_service_package. cbv zeta.
    destruct (package_get _ _) as [p|]; by intros [= <- <-]. }
  intros [= Heq].
  destruct (PyStr.nonempty (post_get POST "price")) eqn:Hne;
    [destruct (Decimal_parse (PyStr.replace_comma (post_get POST "price")))
       as [p|] eqn:Hp|].
  - destruct (save_order_form_fields w order POST now user)
      as (o' & _ & _ & _ & _ & _ & _ & _ & _ & Hrel & Hcache & _).
    { intros _. rewrite Hp. eauto. }
    rewrite (surjective_pairing (save_order_form _ _ _ _ _)) in Heq.
    injection Heq as _ <-. done.
  - revert Heq. unfold save_order_form. cbv zeta. rewrite Hne, Hp.
    by intros [= <- <-].
  - destruct (save_order_form_fields w order POST now user)
      as (o' & _ & _ & _ & _ & _ & _ & _ & _ & Hrel & Hcache & _).
    { intros Hx. congruence. }
    rewrite (surjective_pairing (save_order_form _ _ _ _ _)) in Heq.
    injection Heq as _ <-. done.
Qed.

End Detail.

Import Instances.

Definition sample_world : World :=
  world_with "customer@example.com" [order_with 1 NEW None].

Lemma form_save_checklist_gated_witness :
  (∃ r w' o',
     service_order_admin_detail_post sample_world 1
       {[ "status" := "IN_PROGRESS"; "cl_brakes" := "on" ]} noon 7 = Some (r, w')
     ∧ orders (db w') !! 1 = Some o'
     ∧ checklist o' !! "brakes" = Some true
     ∧ checklist o' !! "chain" = Some false
     ∧ checklist o' !! "bell" = None)
  ∧ (∃ r w' o',
       service_order_admin_detail_post sample_world 1
         {[ "status" := "IN_PROGRESS" ]} noon 7 = Some (r, w')
       ∧ orders (db w') !! 1 = Some o'
       ∧ checklist o' = {[ "chain" := true; "bell" := true ]}).
Proof.
  split.
  - destruct (form_save_checklist_gated sample_world 1 (order_with 1 NEW None)
                {[ "status" := "IN_PROGRESS"; "cl_brakes" := "on" ]} noon 7)
      as (r & w' & o' & Hpost & Ho & _ & Hsome).
    + reflexivity.
    + reflexivity.
    + vm_compute. repeat split; congruence.
    + intros Hx. vm_compute in Hx. discriminate.
    + exists r, w', o'. split; [exact Hpost|]. split; [exact Ho|].
      assert (Hex : ∃ k, k ∈ CHECKLIST_DEFS.*1
                         ∧ is_Some (({[ "status" := "IN_PROGRESS"; "cl_brakes" := "on" ]}
                                       : gmap string string) !! ("cl_" +:+ k))).
      { exists "brakes". split; [compute_done|]. vm_compute. eauto. }
      rewrite !(Hsome Hex). vm_compute. done.
  - destruct (form_save_checklist_gated sample_world 1 (order_with 1 NEW None)
                {[ "status" := "IN_PROGRESS" ]} noon 7)
      as (r & w' & o' & Hpost & Ho & Hnone & _).
    + reflexivity.
    + reflexivity.
    + vm_compute. repeat split; congruence.
    + intros Hx. vm_compute in Hx. discriminate.
    + exists r, w', o'. split; [exact Hpost|]. split; [exact Ho|].
      apply Hnone. intros k Hk.
      cbn in Hk. rewrite !elem_of_cons, elem_of_nil in Hk.
      destruct Hk as [->|[->|[->|[->|[->|[->|[->|[->|[]]]]]]]]]; reflexivity.
Defined.

Lemma form_save_field_overwrite_witness :
  ∃ r w' o',
    service_order_admin_detail_post sample_world 1 {[ "status" := "FINISHED" ]} noon 7
      = Some (r, w')
    ∧ orders (db w') !! 1 = Some o'
    ∧ promised_date o' = None ∧ issue_description o' = ""
    ∧ status o' = NEW ∧ price o' = 1000.
Proof.
  destruct (form_save_field_overwrite sample_world 1 (order_with 1 NEW None)
              {[ "status" := "FINISHED" ]} noon 7)
    as (r & w' & o' & Hpost & Ho & _ & _ & _ & Hpd & Hi & _ & Hst & Hpr & _).
  - reflexivity.
  - reflexivity.
  - vm_compute. repeat split; congruence.
  - intros Hx. vm_compute in Hx. discriminate.
  - exists r, w', o'. split; [exact Hpost|]. split; [exact Ho|].
    split; [by apply Hpd|]. split; [by apply Hi|].
    split; [by apply Hst|by apply Hpr].
Defined.

Lemma completed_order_save_silent_witness :
  ∃ r w' o',
    service_order_admin_detail_post
      (world_with "customer@example.com" [order_with 1 DONE (Some noon)]) 1
      LifecycleFacts.done_form_POST (mkdatetime (mkdate 2024 5 4) 0) 7 = Some (r, w')
    ∧ orders (db w') !! 1 = Some o'
    ∧ outbox w' = [] ∧ logs (db w') = [].
Proof.
  destruct (completed_order_save_silent
              (world_with "customer@example.com" [order_with 1 DONE (Some noon)]) 1
              (order_with 1 DONE (Some noon)) noon
              LifecycleFacts.done_form_POST (mkdatetime (mkdate 2024 5 4) 0) 7)
    as (r & w' & o' & Hpost & Ho & Hout & Hlog & _).
  - reflexivity.
  - reflexivity.
  - vm_compute. repeat split; congruence.
  - intros _. vm_compute. eauto.
  - reflexivity.
  - exists r, w', o'. split; [exact Hpost|]. split; [exact Ho|].
    split; [exact Hout|exact Hlog].
Defined.

Lemma unknown_package_rejected_witness :
  service_order_admin_detail_post sample_world 1
    {[ "action" := "apply_service_package"; "service_package" := "premium" ]} noon 7
  = Some (RedirectOrder "service_order_admin_detail" 1,
          {| db := store_with "customer@example.com" [order_with 1 NEW None];
             cache := empty_cache; outbox := [];
             flash := [(ERROR, "Vybraný balík neexistuje.")] |}).
Proof.
  apply (unknown_package_rejected sample_world 1 (order_with 1 NEW None)
           {[ "action" := "apply_service_package"; "service_package" := "premium" ]}
           noon 7).
  - reflexivity.
  - reflexivity.
  - compute_done.
Defined.

Lemma detail_post_invalidates_witness :
  cache_version
    (cache (apply_service_package sample_world (order_with 1 NEW None)
              LifecycleFacts.basic_package_POST).2) = Some 1.
Proof.
  destruct (detail_post_invalidates sample_world 1 LifecycleFacts.basic_package_POST
              noon 7
              (apply_service_package sample_world (order_with 1 NEW None)
                 LifecycleFacts.basic_package_POST).1
              (apply_service_package sample_world (order_with 1 NEW None)
                 LifecycleFacts.basic_package_POST).2) as [_ Hc].
  - reflexivity.
  - rewrite Hc; [reflexivity|].
    intros Hdb. apply (f_equal (fun s => price <$> orders s !! 1)) in Hdb.
    vm_compute in Hdb. discriminate.
Defined.

End DetailProps.

(** ** Order creation *)

Module CreationProps.
Import PanelProps.

Lemma next_pk_above {A} (m : gmap Z A) (k : Z) :
  is_Some (m !! k) → k < next_pk m.
Proof.
  unfold next_pk.
  apply (map_fold_weak_ind
           (fun r (m : gmap Z A) => ∀ k, is_Some (m !! k) → k < 1 + r)).
  - intros j [x Hx]. by rewrite lookup_empty in Hx.
  - intros i x m' r Hi IH j. rewrite lookup_insert. case_decide as Hij.
    + subst j. lia.
    + intros Hj. specialize (IH j Hj). lia.
Qed.

(** The key given to a new row is not in use. *)
Lemma next_pk_fresh {A} (m : gmap Z A) : m !! next_pk m = None.
Proof.
  destruct (m !! next_pk m) as [x|] eqn:Hx; [|done].
  pose proof (next_pk_above m (next_pk m)) as Hlt. rewrite Hx in Hlt.
  specialize (Hlt (mk_is_Some _ _ eq_refl)). lia.
Qed.

Lemma head_filter_Some {A} (P : A → bool) (l : list A) (x : A) :
  head (List.filter P l) = Some x → x ∈ l ∧ P x = true.
Proof.
  induction l as [|y l IH]; [done|]. cbn [List.filter].
  destruct (P y) eqn:Hy.
  - intros [= ->]. split; [by left|done].
  - intros Hx. destruct (IH Hx). split; [by right|done].
Qed.

Lemma head_filter_None {A} (P : A → bool) (l : list A) :
  head (List.filter P l) = None → ∀ x, x ∈ l → P x = false.
Proof.
  induction l as [|y l IH]; [intros _ x Hx; by apply elem_of_nil in Hx|].
  cbn [List.filter]. destruct (P y) eqn:Hy; [done|].
  intros Hn x [->|Hx]%elem_of_cons; [done|by apply IH].
Qed.

Lemma first_where_Some {A} (P : A → bool) (m : gmap Z A) (x : A) :
  first_where P m = Some x → (∃ k, m !! k = Some x) ∧ P x = true.
Proof.
  intros [Hin HP]%head_filter_Some. split; [|done].
  by apply LoyaltyFacts.elem_of_rows.
Qed.

Lemma first_where_None {A} (P : A → bool) (m : gmap Z A) :
  first_where P m = None → ∀ k x, m !! k = Some x → P x = false.
Proof.
  intros Hn k x Hk. apply (head_filter_None _ _ Hn).
  apply LoyaltyFacts.elem_of_rows. eauto.
Qed.

Lemma first_where_absent {A} (P : A → bool) (m : gmap Z A) :
  (∀ k x, m !! k = Some x → P x = false) → first_where P m = None.
Proof.
  intros Hall. destruct (first_where P m) as [x|] eqn:Hx; [|done].
  apply first_where_Some in Hx as [[k Hk] HP]. by rewrite (Hall k x Hk) in HP.
Qed.

Lemma nonempty_lower s : PyStr.nonempty (PyStr.lower s) = PyStr.nonempty s.
Proof. by destruct s. Qed.

Section Creation.
Context `{PyFloat} `{PyDecimal}.

(** The order row written by [ServiceOrder.objects.create]. *)
Definition new_order (k bike_id : Z) (issue : string) (now : datetime) : ServiceOrder :=
  {| pk := k; bike := bike_id; service_code := ""; issue_description := issue;
     work_done := ""; status := NEW; price := 0; promised_date := None;
     checklist := ∅; created_at := now; completed_at := None |}.

Lemma order_created_spec w bike_id issue now :
  order_created w bike_id issue now
  = (RedirectOrder "service_order_admin_detail" (next_pk (orders (db w))),
     {| db := set_orders (insert (next_pk (orders (db w)))
                            (new_order (next_pk (orders (db w))) bike_id issue now))
                (db w);
        cache := invalidate_dashboard_cache (cache w);
        outbox := outbox w;
        flash := (flash w ++ [(SUCCESS,
                               "Servisná objednávka #"
                               +:+ pretty (next_pk (orders (db w)))
                               +:+ " bola vytvorená.")])%list |}).
Proof. reflexivity. Qed.

(** X19. Creating an order for an existing bike adds exactly one row to
    the order table, under a key that was not in use: the order is NEW, has
    no completion time, no promised date, price 0 and an empty checklist, it
    belongs to the chosen bike and carries the posted description.  Nothing
    else is written, the cache is invalidated and the response leads to the
    new order. *)
Theorem create_order_for_bike
    (w : World) (POST : gmap string string) (now : datetime) (b : Bike) :
  PyStr.isdigit (post_get POST "bike_id") = true →
  bikes (db w) !! PyStr.int (post_get POST "bike_id") = Some b →
  let k := next_pk (orders (db w)) in
  let r := create_service_order_post w POST now in
  r.1 = RedirectOrder "service_order_admin_detail" k
  ∧ orders (db w) !! k = None
  ∧ orders (db r.2)
    = <[k := new_order k (bike_pk b) (post_get POST "issue_description") now]>
        (orders (db w))
  ∧ same_relations (db w) (db r.2)
  ∧ logs (db r.2) = logs (db w)
  ∧ outbox r.2 = outbox w
  ∧ cache r.2 = invalidate_dashboard_cache (cache w)
  ∧ flash r.2
    = (flash w ++ [(SUCCESS, "Servisná objednávka #" +:+ pretty k
                             +:+ " bola vytvorená.")])%list.
Proof.
  intros Hd Hb. cbv zeta. unfold create_service_order_post. cbv zeta.
  rewrite Hd, Hb, order_created_spec. cbn [fst snd db cache outbox flash].
  split; [done|]. split; [apply next_pk_fresh|]. by repeat split.
Qed.

(** X20. Order creation is rejected without writing anything when the
    chosen bike does not exist (not found), and, when no bike is chosen, when
    the name, the email or the brand of the new customer is missing (the
    form is shown again with an error message). *)
Theorem create_order_rejected
    (w : World) (POST : gmap string string) (now : datetime) :
  (PyStr.isdigit (post_get POST "bike_id") = true →
   bikes (db w) !! PyStr.int (post_get POST "bike_id") = None →
   create_service_order_post w POST now = (NotFound, w))
  ∧ (PyStr.isdigit (post_get POST "bike_id") = false →
     post_get POST "new_full_name" = "" ∨ post_get POST "new_email" = ""
     ∨ post_get POST "new_brand" = "" →
     create_service_order_post w POST now
     = (Redirect "create_service_order" [],
        {| db := db w; cache := cache w; outbox := outbox w;
           flash := (flash w ++
                     [(ERROR, "Vyplň meno, email a aspoň značku bicykla, alebo vyber existujúci bicykel.")])%list |})).
Proof.
  split.
  - intros Hd Hb. unfold create_service_order_post. cbv zeta. by rewrite Hd, Hb.
  - intros Hd Hmissing. unfold create_service_order_post. cbv zeta. rewrite Hd.
    rewrite nonempty_lower.
    destruct Hmissing as [-> | [-> | ->]]; cbn [PyStr.nonempty negb orb];
      rewrite ?orb_true_r; reflexivity.
Qed.

(** The customer and the bike taken from the form of a new customer. *)
Definition posted_customer (k : Z) (POST : gmap string string) : CustomerProfile :=
  {| customer_pk := k; full_name := post_get POST "new_full_name";
     email := PyStr.lower (post_get POST "new_email");
     phone_number := post_get POST "new_phone_number" |}.

Definition posted_bike (k customer : Z) (POST : gmap string string) : Bike :=
  {| bike_pk := k; bike_customer := customer; brand := post_get POST "new_brand";
     model := post_get POST "new_model";
     serial_number := post_get POST "new_serial_number" |}.

(** The form of a new customer is filled in and no existing bike is chosen. *)
Definition new_customer_form (POST : gmap string string) : Prop :=
  PyStr.isdigit (post_get POST "bike_id") = false
  ∧ PyStr.nonempty (post_get POST "new_full_name") = true
  ∧ PyStr.nonempty (post_get POST "new_email") = true
  ∧ PyStr.nonempty (post_get POST "new_brand") = true
  ∧ PyStr.isdigit (post_get POST "edit_customer_id") = false.

(** X21. With the form of a new customer filled in and no stored customer
    having the posted email (up to letter case) or the posted phone number,
    the request creates one customer, one bike of that customer and one NEW
    order for that bike, each under a key not in use before; no mail is
    queued and the cache is invalidated. *)
Theorem create_order_new_customer
    (w : World) (POST : gmap string string) (now : datetime) :
  new_customer_form POST →
  (∀ k c, customers (db w) !! k = Some c →
          PyStr.lower (email c) ≠ PyStr.lower (post_get POST "new_email")) →
  (post_get POST "new_phone_number" = ""
   ∨ ∀ k c, customers (db w) !! k = Some c →
            phone_number c ≠ post_get POST "new_phone_number") →
  let kc := next_pk (customers (db w)) in
  let kb := next_pk (bikes (db w)) in
  let ko := next_pk (orders (db w)) in
  let r := create_service_order_post w POST now in
  r.1 = RedirectOrder "service_order_admin_detail" ko
  ∧ customers (db w) !! kc = None
  ∧ customers (db r.2) = <[kc := posted_customer kc POST]> (customers (db w))
  ∧ bikes (db w) !! kb = None
  ∧ bikes (db r.2) = <[kb := posted_bike kb kc POST]> (bikes (db w))
  ∧ orders (db w) !! ko = None
  ∧ orders (db r.2)
    = <[ko := new_order ko kb (post_get POST "issue_description") now]> (orders (db w))
  ∧ outbox r.2 = outbox w
  ∧ cache r.2 = invalidate_dashboard_cache (cache w).
Proof.
  intros (Hd & Hname & Hemail & Hbrand & Hedit) Hnoemail Hnophone. cbv zeta.
  unfold create_service_order_post. cbv zeta.
  rewrite Hd, nonempty_lower, Hname, Hemail, Hbrand, Hedit. cbn [negb orb].
  rewrite first_where_absent.
  2:{ intros k c Hk. apply String.eqb_neq. by apply (Hnoemail k c). }
  assert (Hphone : (if PyStr.nonempty (post_get POST "new_phone_number")
                    then first_where
                           (fun c => String.eqb (phone_number c)
                                       (post_get POST "new_phone_number"))
                           (customers (db w))
                    else None) = None).
  { destruct Hnophone as [-> | Hno]; [done|].
    destruct (PyStr.nonempty (post_get POST "new_phone_number")); [|done].
    apply first_where_absent.
    intros k c Hk. apply String.eqb_neq. by apply (Hno k c). }
  rewrite Hphone. cbv beta iota. rewrite order_created_spec.
  cbn [fst snd db cache outbox flash set_db set_customer add_bike set_orders
       customers bikes orders bike_pk customer_pk].
  split; [done|]. split; [apply next_pk_fresh|]. split; [done|].
  split; [apply next_pk_fresh|]. split; [done|].
  split; [apply next_pk_fresh|]. by repeat split.
Qed.

(** X22. When a stored customer has the posted email, up to letter case,
    no customer is created: the first such profile is used, the name and
    email it holds are kept (the posted ones fill only empty fields), the
    new bike belongs to it, and the order is created for that bike. *)
Theorem create_order_reuses_customer
    (w : World) (POST : gmap string string) (now : datetime) :
  new_customer_form POST →
  (∀ k c, customers (db w) !! k = Some c → customer_pk c = k) →
  (∃ k c, customers (db w) !! k = Some c
          ∧ PyStr.lower (email c) = PyStr.lower (post_get POST "new_email")) →
  let kb := next_pk (bikes (db w)) in
  let ko := next_pk (orders (db w)) in
  let r := create_service_order_post w POST now in
  ∃ p p',
    customers (db w) !! customer_pk p = Some p
    ∧ PyStr.lower (email p) = PyStr.lower (post_get POST "new_email")
    ∧ customers (db r.2) = <[customer_pk p := p']> (customers (db w))
    ∧ dom (customers (db r.2)) = dom (customers (db w))
    ∧ customer_pk p' = customer_pk p
    ∧ email p' = email p
    ∧ full_name p' = (if PyStr.nonempty (full_name p) then full_name p
                      else post_get POST "new_full_name")
    ∧ bikes (db r.2) = <[kb := posted_bike kb (customer_pk p) POST]> (bikes (db w))
    ∧ orders (db r.2)
      = <[ko := new_order ko kb (post_get POST "issue_description") now]>
          (orders (db w))
    ∧ r.1 = RedirectOrder "service_order_admin_detail" ko.
Proof.
  intros (Hd & Hname & Hemail & Hbrand & Hedit) Hkeyed (k0 & c0 & Hk0 & Hc0). cbv zeta.
  unfold create_service_order_post. cbv zeta.
  rewrite Hd, nonempty_lower, Hname, Hemail, Hbrand, Hedit. cbn [negb orb].
  destruct (first_where _ (customers (db w))) as [p|] eqn:Hfirst.
  2:{ pose proof (first_where_None _ _ Hfirst k0 c0 Hk0) as Hno. cbv beta in Hno.
      apply String.eqb_neq in Hno. done. }
  apply first_where_Some in Hfirst as [[k Hk] Hp]. apply String.eqb_eq in Hp.
  pose proof (Hkeyed k p Hk) as Hpk. subst k.
  assert (Hne : PyStr.nonempty (email p) = true).
  { by rewrite <- nonempty_lower, Hp, nonempty_lower. }
  cbv beta iota. rewrite order_created_spec.
  cbn [fst snd db cache outbox flash set_db set_customer add_bike set_orders
       customers bikes orders bike_pk customer_pk add_message].
  rewrite Hne. eexists p, _. split; [done|]. split; [done|].
  split; [reflexivity|]. split.
  { apply set_eq. intros j. rewrite !elem_of_dom, lookup_insert.
    case_decide; [subst j; rewrite Hk; split; eauto|done]. }
  by repeat split.
Qed.

End Creation.

Import Instances.

Lemma create_order_for_bike_witness :
  let r := create_service_order_post DetailProps.sample_world
             {[ "bike_id" := "1"; "issue_description" := " flat tyre " ]} noon in
  r.1 = RedirectOrder "service_order_admin_detail" 2
  ∧ orders (db r.2) !! 2 = Some (new_order 2 1 "flat tyre" noon)
  ∧ orders (db r.2) !! 1 = Some (order_with 1 NEW None).
Proof.
  cbv zeta.
  destruct (create_order_for_bike DetailProps.sample_world
              {[ "bike_id" := "1"; "issue_description" := " flat tyre " ]} noon
              {| bike_pk := 1; bike_customer := 1; brand := "Trek";
                 model := "Domane"; serial_number := "SN-1" |})
    as (Hr & _ & Ho & _); [reflexivity|reflexivity|].
  split; [exact Hr|]. rewrite Ho. split; reflexivity.
Defined.

Lemma create_order_rejected_witness :
  create_service_order_post DetailProps.sample_world {[ "bike_id" := "9" ]} noon
  = (NotFound, DetailProps.sample_world)
  ∧ db (create_service_order_post DetailProps.sample_world
          {[ "new_email" := "new@example.com"; "new_brand" := "Cube" ]} noon).2
    = db DetailProps.sample_world.
Proof.
  split.
  - apply (create_order_rejected DetailProps.sample_world {[ "bike_id" := "9" ]} noon);
      reflexivity.
  - destruct (create_order_rejected DetailProps.sample_world
                {[ "new_email" := "new@example.com"; "new_brand" := "Cube" ]} noon)
      as [_ Hmissing].
    rewrite Hmissing; [reflexivity|reflexivity|]. left. reflexivity.
Defined.

Definition new_customer_POST (mail : string) : gmap string string :=
  {[ "new_full_name" := "New Person"; "new_email" := mail; "new_brand" := "Cube";
     "issue_description" := "service" ]}.

Lemma create_order_new_customer_witness :
  let r := create_service_order_post DetailProps.sample_world
             (new_customer_POST " New@Example.com ") noon in
  r.1 = RedirectOrder "service_order_admin_detail" 2
  ∧ (email <$> customers (db r.2) !! 2) = Some "new@example.com"
  ∧ (bike_customer <$> bikes (db r.2) !! 2) = Some 2
  ∧ (bike <$> orders (db r.2) !! 2) = Some 2
  ∧ outbox r.2 = [].
Proof.
  cbv zeta.
  destruct (create_order_new_customer DetailProps.sample_world
              (new_customer_POST " New@Example.com ") noon)
    as (Hr & _ & Hc & _ & Hb & _ & Ho & Hout & _).
  - repeat split; reflexivity.
  - intros k c Hk. change (customers (db DetailProps.sample_world))
      with ({[ 1 := customer_with "customer@example.com" ]} : gmap Z CustomerProfile) in Hk.
    apply lookup_singleton_Some in Hk as [_ <-]. vm_compute. discriminate.
  - left. reflexivity.
  - split; [exact Hr|]. rewrite Hc, Hb, Ho, Hout. repeat split; reflexivity.
Defined.

Lemma create_order_reuses_customer_witness :
  let r := create_service_order_post DetailProps.sample_world
             (new_customer_POST "Customer@Example.COM") noon in
  dom (customers (db r.2)) = {[ 1 ]}
  ∧ (bikes (db r.2) !! 2) = Some (posted_bike 2 1 (new_customer_POST "Customer@Example.COM")).
Proof.
  cbv zeta.
  destruct (create_order_reuses_customer DetailProps.sample_world
              (new_customer_POST "Customer@Example.COM") noon)
    as (p & p' & Hp & _ & _ & Hdom & _ & _ & _ & Hb & _).
  - repeat split; reflexivity.
  - intros k c Hk. change (customers (db DetailProps.sample_world))
      with ({[ 1 := customer_with "customer@example.com" ]} : gmap Z CustomerProfile) in Hk.
    by apply lookup_singleton_Some in Hk as [<- <-].
  - exists 1, (customer_with "customer@example.com"). split; reflexivity.
  - split.
    + rewrite Hdom. apply dom_singleton_L.
    + rewrite Hb.
      assert (Hpk : customer_pk p = 1).
      { destruct (decide (customer_pk p = 1)) as [Heq|Hne]; [done|].
        change (customers (db DetailProps.sample_world))
          with ({[ 1 := customer_with "customer@example.com" ]}
                : gmap Z CustomerProfile) in Hp.
        by rewrite lookup_singleton_ne in Hp. }
      rewrite Hpk. reflexivity.
Defined.

End CreationProps.

(** ** Dates *)

Module DateProps.
Import PyStr PyStrFacts.

(** A date of the calendar, as [datetime.date] admits them. *)
Definition date_valid (d : date) : Prop :=
  1 ≤ year d ≤ 9999 ∧ 1 ≤ month d ≤ 12 ∧ 1 ≤ day d ≤ days_in_month (year d) (month d).

Lemma month_cases (m : Z) :
  1 ≤ m ≤ 12 →
  m = 1 ∨ m = 2 ∨ m = 3 ∨ m = 4 ∨ m = 5 ∨ m = 6 ∨ m = 7 ∨ m = 8 ∨ m = 9
  ∨ m = 10 ∨ m = 11 ∨ m = 12.
Proof. lia. Qed.

(** The days of a year up to the end of a month do not reach into a later
    month. *)
Lemma days_before_month_mono (y m m' : Z) :
  1 ≤ m → m < m' → m' ≤ 12 →
  days_before_month y m + days_in_month y m ≤ days_before_month y m'.
Proof.
  intros H1 H2 H3.
  destruct (month_cases m ltac:(lia)) as [->|[->|[->|[->|[->|[->|[->|[->|[->|[->|[->| ->]]]]]]]]]]];
  destruct (month_cases m' ltac:(lia)) as [->|[->|[->|[->|[->|[->|[->|[->|[->|[->|[->| ->]]]]]]]]]]];
    try lia; unfold days_before_month, days_in_month; destruct (is_leap y);
    apply Z.leb_le; vm_compute; reflexivity.
Qed.

Lemma days_in_year (y m : Z) :
  1 ≤ m ≤ 12 →
  days_before_month y m + days_in_month y m ≤ 365 + (if is_leap y then 1 else 0).
Proof.
  intros Hm.
  destruct (month_cases m Hm) as [->|[->|[->|[->|[->|[->|[->|[->|[->|[->|[->| ->]]]]]]]]]]];
    unfold days_before_month, days_in_month; destruct (is_leap y);
    apply Z.leb_le; vm_compute; reflexivity.
Qed.

Lemma days_before_month_nonneg (y m : Z) : 1 ≤ m ≤ 12 → 0 ≤ days_before_month y m.
Proof.
  intros Hm.
  destruct (month_cases m Hm) as [->|[->|[->|[->|[->|[->|[->|[->|[->|[->|[->| ->]]]]]]]]]]];
    unfold days_before_month; destruct (is_leap y);
    apply Z.leb_le; vm_compute; reflexivity.
Qed.

Lemma days_before_year_succ (y : Z) :
  days_before_year (y + 1) = days_before_year y + 365 + (if is_leap y then 1 else 0).
Proof.
  unfold days_before_year, is_leap. cbv zeta.
  replace (y + 1 - 1) with y by lia.
  destruct (Z.eqb_spec (y mod 4) 0), (Z.eqb_spec (y mod 100) 0),
    (Z.eqb_spec (y mod 400) 0); cbn [negb andb orb];
    Z.div_mod_to_equations; lia.
Qed.

Lemma days_before_year_mono (y y' : Z) :
  y ≤ y' → days_before_year y ≤ days_before_year y'.
Proof.
  intros Hle. unfold days_before_year. cbv zeta. Z.div_mod_to_equations. lia.
Qed.

(** The ordinal of a date grows with the date, compared as (year, month,
    day). *)
Lemma toordinal_lt (a b : date) :
  date_valid a → date_valid b → date_ltb a b = true → toordinal a < toordinal b.
Proof.
  intros (_ & Hma & Hda) (_ & Hmb & Hdb). unfold date_ltb, toordinal.
  destruct (Z.ltb_spec (year a) (year b)) as [Hy|Hy].
  - intros _.
    pose proof (days_in_year (year a) (month a) Hma).
    pose proof (days_before_year_succ (year a)).
    pose proof (days_before_year_mono (year a + 1) (year b) ltac:(lia)).
    pose proof (days_before_month_nonneg (year b) (month b) Hmb). lia.
  - cbn [orb]. intros [Hye Hrest]%andb_prop. apply Z.eqb_eq in Hye.
    rewrite Hye in *.
    destruct (Z.ltb_spec (month a) (month b)) as [Hm|Hm].
    + pose proof (days_before_month_mono (year b) (month a) (month b)
                    ltac:(lia) Hm ltac:(lia)). lia.
    + cbn [orb] in Hrest. apply andb_prop in Hrest as [Hme Hd].
      apply Z.eqb_eq in Hme. apply Z.ltb_lt in Hd. rewrite Hme. lia.
Qed.

Lemma date_trichotomy (a b : date) :
  date_ltb a b = false → date_eqb b a = false → date_ltb b a = true.
Proof.
  unfold date_ltb, date_eqb.
  destruct (Z.ltb_spec (year a) (year b)), (Z.ltb_spec (year b) (year a)),
    (Z.eqb_spec (year a) (year b)), (Z.eqb_spec (year b) (year a)),
    (Z.ltb_spec (month a) (month b)), (Z.ltb_spec (month b) (month a)),
    (Z.eqb_spec (month a) (month b)), (Z.eqb_spec (month b) (month a)),
    (Z.ltb_spec (day a) (day b)), (Z.ltb_spec (day b) (day a)),
    (Z.eqb_spec (day b) (day a)); cbn; try done; lia.
Qed.

Lemma date_eqb_ordinal (a b : date) :
  date_eqb a b = true → toordinal a = toordinal b.
Proof.
  unfold date_eqb. intros [[Hy Hm]%andb_prop Hd]%andb_prop.
  apply Z.eqb_eq in Hy, Hm, Hd. unfold toordinal. by rewrite Hy, Hm, Hd.
Qed.

(** X23. For dates of the calendar, the due-date classifier is determined
    by the number of days from today to the promised date: an order that is
    not completed is late when that number is negative, due today at 0, due
    tomorrow at 1, on time at 2, and carries the plain date beyond. *)
Theorem eta_meta_by_days (order : ServiceOrder) (today p : date) :
  completed_at order = None → promised_date order = Some p →
  date_valid p → date_valid today →
  let delta := days_between p today in
  _eta_meta order today
  = if delta <? 0 then ("Mešká " +:+ strftime_dmY p, "chip-orange", true)
    else if delta =? 0 then ("Dnes " +:+ strftime_dmY p, "chip-blue", true)
    else if delta =? 1 then ("Zajtra " +:+ strftime_dmY p, "chip-blue", true)
    else if delta =? 2 then ("On time " +:+ strftime_dmY p, "chip-blue", false)
    else (strftime_dmY p, "chip-gray", false).
Proof.
  intros Hc Hp Hvp Hvt. cbv zeta. unfold _eta_meta, days_between. rewrite Hp, Hc.
  rewrite bool_decide_eq_false_2 by (by intros [? ?]).
  destruct (date_ltb p today) eqn:Hlt.
  { pose proof (toordinal_lt _ _ Hvp Hvt Hlt).
    destruct (Z.ltb_spec (toordinal p - toordinal today) 0); [done|lia]. }
  destruct (date_eqb today p) eqn:Heq.
  { pose proof (date_eqb_ordinal _ _ Heq).
    destruct (Z.ltb_spec (toordinal p - toordinal today) 0); [lia|].
    destruct (Z.eqb_spec (toordinal p - toordinal today) 0); [done|lia]. }
  pose proof (toordinal_lt _ _ Hvt Hvp (date_trichotomy _ _ Hlt Heq)).
  destruct (Z.ltb_spec (toordinal p - toordinal today) 0); [lia|].
  destruct (Z.eqb_spec (toordinal p - toordinal today) 0); [lia|].
  destruct (Z.eqb_spec (toordinal p - toordinal today) 1); [done|].
  destruct (Z.leb_spec (toordinal p - toordinal today) 2);
    destruct (Z.eqb_spec (toordinal p - toordinal today) 2); try done; lia.
Qed.

Lemma eta_meta_by_days_witness :
  _eta_meta (EtaFacts.eta_order (Some (mkdate 2025 1 1)) None) (mkdate 2024 12 30)
  = ("On time 01.01.2025", "chip-blue", false).
Proof.
  rewrite (eta_meta_by_days _ (mkdate 2024 12 30) (mkdate 2025 1 1)).
  - reflexivity.
  - reflexivity.
  - reflexivity.
  - vm_compute. repeat split; discriminate.
  - vm_compute. repeat split; discriminate.
Defined.

(** *** Reading back a date written in ISO format *)

(** The text of a number on [w] digits: exactly [w] characters, all digits,
    read back by [int] as the number. *)
Definition padded (w : nat) (text : Z → string) (n : Z) : bool :=
  (String.length (text n) =? w)%nat && all_digits (text n) && (int (text n) =? n).

Lemma padded_spec (w : nat) (text : Z → string) (bound : Z) (n : Z) :
  forallb (padded w text) (map Z.of_nat (seq 0 (Z.to_nat bound))) = true →
  0 ≤ n < bound →
  String.length (text n) = w ∧ all_digits (text n) = true ∧ int (text n) = n.
Proof.
  intros Hall Hn. rewrite forallb_forall in Hall.
  assert (Hin : In n (map Z.of_nat (seq 0 (Z.to_nat bound)))).
  { rewrite <- (Z2Nat.id n) by lia. apply in_map, in_seq. lia. }
  apply Hall in Hin. unfold padded in Hin.
  apply andb_prop in Hin as [[Hl Hd]%andb_prop Hi].
  apply Nat.eqb_eq in Hl. apply Z.eqb_eq in Hi. done.
Qed.

Lemma pad2_spec (n : Z) :
  0 ≤ n < 100 →
  String.length (pad2 n) = 2%nat ∧ all_digits (pad2 n) = true ∧ int (pad2 n) = n.
Proof. apply (padded_spec 2 pad2 100). vm_compute. reflexivity. Qed.

Lemma pad4_spec (n : Z) :
  0 ≤ n < 10000 →
  String.length (pad4 n) = 4%nat ∧ all_digits (pad4 n) = true ∧ int (pad4 n) = n.
Proof. apply (padded_spec 4 pad4 10000). vm_compute. reflexivity. Qed.

Fixpoint no_space (s : string) : bool :=
  match s with
  | EmptyString => true
  | String c s' => negb (is_space c) && no_space s'
  end.

Lemma all_digits_no_space s : all_digits s = true → no_space s = true.
Proof.
  induction s as [|c s IH]; [done|]. cbn. intros [Hc Hs]%andb_prop.
  by rewrite (digit_not_space _ Hc), IH.
Qed.

Lemma no_space_app s t : no_space (s +:+ t) = no_space s && no_space t.
Proof.
  induction s as [|c s IH]; [done|].
  change (String c s +:+ t) with (String c (s +:+ t)). cbn [no_space].
  by rewrite IH, andb_assoc.
Qed.

Lemma strip_no_space s : no_space s = true → strip s = s.
Proof.
  intros Hs. unfold strip.
  assert (Hl : lstrip s = s).
  { destruct s as [|c s]; [done|]. cbn in *. apply andb_prop in Hs as [Hc _].
    by destruct (is_space c). }
  rewrite Hl. induction s as [|c s IH]; [done|]. cbn in *.
  apply andb_prop in Hs as [Hc Hs]. destruct (is_space c); [done|].
  cbn. f_equal. apply IH; [done|].
  destruct s as [|d s]; [done|]. cbn in *. apply andb_prop in Hs as [Hd _].
  by destruct (is_space d).
Qed.

Lemma days_in_month_bound (y m : Z) : days_in_month y m ≤ 31.
Proof.
  unfold days_in_month. destruct ((m =? 2) && is_leap y); [lia|].
  destruct (Z.to_nat (m - 1)) as [|[|[|[|[|[|[|[|[|[|[|[|[|n]]]]]]]]]]]]]; cbn; lia.
Qed.

Lemma length_4 s :
  String.length s = 4%nat →
  ∃ a b c d, s = String a (String b (String c (String d ""))).
Proof.
  destruct s as [|a [|b [|c [|d [|e s]]]]]; try done. eauto.
Qed.

Lemma length_2 s :
  String.length s = 2%nat → ∃ a b, s = String a (String b "").
Proof.
  destruct s as [|a [|b [|c s]]]; try done. eauto.
Qed.

Lemma fromisoformat_isoformat (d : date) :
  date_valid d → date_fromisoformat (isoformat d) = Some d.
Proof.
  intros (Hy & Hm & Hd). pose proof (days_in_month_bound (year d) (month d)).
  destruct (pad4_spec (year d)) as (Hly & Hdy & Hiy); [lia|].
  destruct (pad2_spec (month d)) as (Hlm & Hdm & Him); [lia|].
  destruct (pad2_spec (day d)) as (Hld & Hdd & Hid); [lia|].
  unfold isoformat.
  destruct (length_4 _ Hly) as (y1 & y2 & y3 & y4 & Ey).
  destruct (length_2 _ Hlm) as (m1 & m2 & Em).
  destruct (length_2 _ Hld) as (d1 & d2 & Ed).
  rewrite Ey, Em, Ed in *. unfold date_fromisoformat.
  cbv [String.append String.length substring Nat.eqb String.eqb Ascii.eqb Bool.eqb andb].
  rewrite Hdy, Hdm, Hdd, Hiy, Him, Hid. cbn [andb].
  destruct (Z.leb_spec 1 (year d)); [|lia]. destruct (Z.leb_spec 1 (month d)); [|lia].
  destruct (Z.leb_spec (month d) 12); [|lia]. destruct (Z.leb_spec 1 (day d)); [|lia].
  destruct (Z.leb_spec (day d) (days_in_month (year d) (month d))); [|lia].
  cbn. by destruct d.
Qed.

Lemma isoformat_no_space (d : date) : date_valid d → no_space (isoformat d) = true.
Proof.
  intros (Hy & Hm & Hd). pose proof (days_in_month_bound (year d) (month d)).
  destruct (pad4_spec (year d)) as (_ & Hdy & _); [lia|].
  destruct (pad2_spec (month d)) as (_ & Hdm & _); [lia|].
  destruct (pad2_spec (day d)) as (_ & Hdd & _); [lia|].
  unfold isoformat. rewrite !no_space_app.
  rewrite (all_digits_no_space _ Hdy), (all_digits_no_space _ Hdm),
    (all_digits_no_space _ Hdd). reflexivity.
Qed.

(** X24. A date of the calendar written in ISO format is read back by
    [_parse_date] as the same date, and every date that [_parse_date]
    returns is a date of the calendar (so the 30th of February is not
    accepted); an empty or blank text gives no date. *)
Theorem parse_date_isoformat :
  (∀ d, date_valid d → _parse_date (isoformat d) = Some d)
  ∧ (∀ s d, _parse_date s = Some d →
            1 ≤ year d ∧ 1 ≤ month d ≤ 12
            ∧ 1 ≤ day d ≤ days_in_month (year d) (month d))
  ∧ _parse_date "2023-02-30" = None
  ∧ _parse_date "   " = None.
Proof.
  split; [|split; [|split; reflexivity]].
  - intros d Hv. unfold _parse_date. cbv zeta.
    rewrite (strip_no_space _ (isoformat_no_space d Hv)).
    rewrite (fromisoformat_isoformat d Hv).
    destruct (isoformat d) eqn:E; [|done].
    pose proof (fromisoformat_isoformat d Hv) as Hx. rewrite E in Hx. done.
  - intros s d. unfold _parse_date, date_fromisoformat. cbv zeta.
    destruct (nonempty _); [|done].
    destruct (_ && all_digits _); [|done].
    destruct (Z.leb_spec 1 (int (substring 0 4 (strip s)))); [|done].
    destruct (Z.leb_spec 1 (int (substring 5 2 (strip s)))); [|done].
    destruct (Z.leb_spec (int (substring 5 2 (strip s))) 12); [|done].
    destruct (Z.leb_spec 1 (int (substring 8 2 (strip s)))); [|done].
    destruct (Z.leb_spec (int (substring 8 2 (strip s)))
                (days_in_month (int (substring 0 4 (strip s)))
                   (int (substring 5 2 (strip s))))); [|done].
    cbn [andb]. intros [= <-]. cbn [year month day]. lia.
Qed.

End DateProps.

(** ** Rate limiting *)

Module RateLimitFacts.
Import RateLimit.

Lemma live_Some c now key v e :
  live c now key = Some (v, e) ↔ c !! key = Some (v, e) ∧ timestamp now < e.
Proof.
  unfold live. destruct (c !! key) as [[v' e']|]; [|by split; [|intros [? ?]]].
  destruct (Z.leb_spec e' (timestamp now)).
  - split; [done|]. intros [[= -> ->] ?]. lia.
  - split; [by intros [= -> ->]|]. by intros [[= -> ->] _].
Qed.

Lemma is_rate_limited_first c now scope ident limit window_seconds :
  live c now (_rate_limit_key scope ident) = None →
  is_rate_limited c now scope ident limit window_seconds
  = Some (false,
          <[_rate_limit_key scope ident
            := (1, timestamp now + window_seconds * 1000000)]> c).
Proof.
  intros Hl. unfold is_rate_limited, cache_add. cbv zeta. by rewrite Hl.
Qed.

Lemma is_rate_limited_next c now scope ident limit window_seconds v e :
  live c now (_rate_limit_key scope ident) = Some (v, e) →
  is_rate_limited c now scope ident limit window_seconds
  = Some (limit <? v + 1, <[_rate_limit_key scope ident := (v + 1, e)]> c).
Proof.
  intros Hl. unfold is_rate_limited, cache_add, cache_incr. cbv zeta.
  by rewrite Hl, Hl.
Qed.

(** The results of successive calls for one client, the counters being
    threaded through; [None] stands for a call that raised. *)
Fixpoint attempts (c : Counters) (scope ident : string) (limit window_seconds : Z)
    (times : list datetime) : list (option bool) :=
  match times with
  | [] => []
  | now :: rest =>
      match is_rate_limited c now scope ident limit window_seconds with
      | Some (r, c') => Some r :: attempts c' scope ident limit window_seconds rest
      | None => None :: attempts c scope ident limit window_seconds rest
      end
  end.

Lemma attempts_counted c scope ident limit window_seconds v e times :
  c !! _rate_limit_key scope ident = Some (v, e) →
  Forall (fun t => timestamp t < e) times →
  attempts c scope ident limit window_seconds times
  = map (fun i => Some (limit <? v + Z.of_nat i)) (seq 1 (length times)).
Proof.
  revert c v. induction times as [|t times IH]; intros c v Hc Hts; [done|].
  apply Forall_cons in Hts as [Ht Hts]. cbn [attempts length seq map].
  rewrite (is_rate_limited_next _ _ _ _ _ _ v e) by (by apply live_Some).
  rewrite (IH _ (v + 1)); [|by rewrite lookup_insert_eq|done].
  f_equal.
  rewrite <- (seq_shift (length times) 1), map_map. apply map_ext. intros i.
  do 2 f_equal. lia.
Qed.

(** X25. Within one window the calls of a client are counted, and the
    window does not slide: the first call opens the window and passes, and
    the k-th call made before the window ends is limited exactly when k
    exceeds the limit.  No call raises. *)
Theorem rate_limit_counts
    (c : Counters) (scope ident : string) (limit window_seconds : Z)
    (t0 : datetime) (times : list datetime) :
  live c t0 (_rate_limit_key scope ident) = None →
  Forall (fun t => timestamp t < timestamp t0 + window_seconds * 1000000) times →
  attempts c scope ident limit window_seconds (t0 :: times)
  = Some false
    :: map (fun k => Some (limit <? Z.of_nat k)) (seq 2 (length times)).
Proof.
  intros Hl Hts. cbn [attempts]. rewrite (is_rate_limited_first _ _ _ _ _ _ Hl).
  f_equal.
  rewrite (attempts_counted _ _ _ _ _ 1 (timestamp t0 + window_seconds * 1000000));
    [|by rewrite lookup_insert_eq|done].
  rewrite <- (seq_shift (length times) 1), map_map. apply map_ext. intros i.
  do 2 f_equal. lia.
Qed.

(** X26. A counter is started afresh by [reset_rate_limit] and by the end
    of its window: the next call passes and opens a new window of the full
    length.  A call changes the counter of its own key only. *)
Theorem rate_limit_restarts
    (c : Counters) (now : datetime) (scope ident : string) (limit window_seconds : Z) :
  let key := _rate_limit_key scope ident in
  let fresh := (1, timestamp now + window_seconds * 1000000) in
  is_rate_limited (reset_rate_limit c scope ident) now scope ident limit window_seconds
  = Some (false, <[key := fresh]> c)
  ∧ (∀ v e, c !! key = Some (v, e) → e ≤ timestamp now →
       is_rate_limited c now scope ident limit window_seconds
       = Some (false, <[key := fresh]> c))
  ∧ (∀ r c' key', is_rate_limited c now scope ident limit window_seconds = Some (r, c') →
       key' ≠ key → c' !! key' = c !! key').
Proof.
  cbv zeta. split; [|split].
  - rewrite is_rate_limited_first.
    + unfold reset_rate_limit. by rewrite insert_delete_eq.
    + unfold live, reset_rate_limit. by rewrite lookup_delete_eq.
  - intros v e Hc He. apply is_rate_limited_first. unfold live. rewrite Hc.
    destruct (Z.leb_spec e (timestamp now)); [done|lia].
  - intros r c' key' Hcall Hne.
    destruct (live c now (_rate_limit_key scope ident)) as [[v e]|] eqn:Hl.
    + rewrite (is_rate_limited_next _ _ _ _ _ _ _ _ Hl) in Hcall.
      injection Hcall as _ <-. by rewrite lookup_insert_ne.
    + rewrite (is_rate_limited_first _ _ _ _ _ _ Hl) in Hcall.
      injection Hcall as _ <-. by rewrite lookup_insert_ne.
Qed.

(** The login form (limit 8, window 300 s): eight attempts pass, the ninth
    and the tenth are limited. *)
Lemma rate_limit_counts_witness :
  attempts ∅ "login" "10.0.0.7" 8 300
    (replicate 10 (mkdatetime (mkdate 2024 5 3) 43200000000))
  = (replicate 8 (Some false) ++ [Some true; Some true])%list.
Proof.
  rewrite (rate_limit_counts ∅ "login" "10.0.0.7" 8 300
             (mkdatetime (mkdate 2024 5 3) 43200000000)
             (replicate 9 (mkdatetime (mkdate 2024 5 3) 43200000000))).
  - reflexivity.
  - reflexivity.
  - repeat constructor.
Defined.

End RateLimitFacts.

(** ** The order admin *)

Module AdminFacts.

Section Admin.
Context `{PyFloat}.

(** X27. Saving the change form of the admin with status DONE for an order
    that is stored without completion time and was not DONE before stores
    the order with [now] as completion time; when the customer has an email
    (after stripping), the "service complete" mail is queued to it and an
    EMAIL_DONE entry is appended to the log, otherwise neither happens.  The
    dashboard cache is not touched. *)
Theorem admin_done_transition
    (w : World) (obj prev : ServiceOrder) (now : datetime) (user : Z) :
  pk obj ≠ 0 →
  orders (db w) !! pk obj = Some prev →
  completed_at prev = None →
  status obj = DONE → completed_at obj = None →
  let w' := save_model w obj true now user in
  let mail := default "" (PyStr.strip ∘ email <$> order_customer (db w) obj) in
  let name := default "" (PyStr.strip ∘ full_name <$> order_customer (db w) obj) in
  orders (db w') = <[pk obj := with_status DONE (Some now) obj]> (orders (db w))
  ∧ cache w' = cache w
  ∧ (PyStr.nonempty mail = true →
     outbox w'
     = (outbox w
        ++ [{| mail_subject := "Servis hotový #" +:+ order_code obj;
               mail_body := admin_done_mail_body (with_status DONE (Some now) obj)
                              name mail;
               mail_to := [mail] |}])%list
     ∧ logs (db w')
       = (logs (db w)
          ++ [{| log_order := pk obj; log_kind := EMAIL_DONE;
                 log_body := "Email DONE odoslaný na " +:+ mail;
                 log_created_by := user |}])%list)
  ∧ (PyStr.nonempty mail = false →
     outbox w' = outbox w ∧ logs (db w') = logs (db w)).
Proof.
  intros Hpk Hprev Hcb Hst Hc. cbv zeta. unfold save_model. cbv zeta.
  apply Z.eqb_neq in Hpk. rewrite Hpk, Hprev, Hst, Hc.
  cbn [andb negb Status_eqb is_null fmap option_fmap option_map mbind option_bind
       status completed_at with_status].
  rewrite Hcb. cbn [is_null andb orb].
  set (cust := order_customer _ _).
  assert (Hcust : cust = order_customer (db w) obj) by reflexivity.
  clearbody cust. subst cust.
  destruct (PyStr.nonempty (default "" (PyStr.strip ∘ email <$> order_customer (db w) obj)))
    eqn:Hmail.
  - cbn [admin_send_email_safely set_db db cache outbox flash add_log set_orders
         save_order save_order_fields orders logs pk with_status].
    split.
    { apply map_eq. intros k. rewrite lookup_alter, !lookup_insert.
      case_decide; [|done]. rewrite decide_True by done. cbn. by rewrite Hst. }
    split; [done|]. split; [|done]. intros _. by split.
  - cbn [set_db db cache outbox flash set_orders save_order save_order_fields
         orders logs pk with_status].
    split.
    { apply map_eq. intros k. rewrite lookup_alter, !lookup_insert.
      case_decide; [|done]. rewrite decide_True by done. cbn. by rewrite Hst. }
    split; [done|]. split; [done|]. done.
Qed.

(** X28. The admin never clears a completion time: saving the change form
    with a status other than DONE for an order that has a completion time
    stores the order as the form left it, with the new status and the old
    completion time; no mail is queued, nothing is logged and the dashboard
    cache is not touched.  The stored order then has a completion time
    without being DONE. *)
Theorem admin_save_keeps_completion_time
    (w : World) (obj : ServiceOrder) (c : datetime) (now : datetime) (user : Z) :
  status obj ≠ DONE → completed_at obj = Some c →
  let w' := save_model w obj true now user in
  orders (db w') = <[pk obj := obj]> (orders (db w))
  ∧ outbox w' = outbox w
  ∧ logs (db w') = logs (db w)
  ∧ cache w' = cache w
  ∧ ¬ LifecycleFacts.order_inv obj.
Proof.
  intros Hst Hc. cbv zeta. unfold save_model. cbv zeta.
  assert (Hd : Status_eqb (status obj) DONE = false).
  { destruct (status obj); done. }
  repeat (rewrite Hd; cbn [andb orb]). split; [done|]. split; [done|]. split; [done|].
  split; [done|]. unfold LifecycleFacts.order_inv. rewrite Hc.
  intros [Hx _]. apply Hst, Hx. eauto.
Qed.

End Admin.

Import Instances.

Lemma admin_done_transition_witness :
  let w' := save_model (world_with " customer@example.com " [order_with 1 READY None])
              (order_with 1 DONE None) true noon 7 in
  (completed_at <$> orders (db w') !! 1) = Some (Some noon)
  ∧ mail_to <$> outbox w' = [["customer@example.com"]]
  ∧ log_kind <$> logs (db w') = [EMAIL_DONE]
  ∧ cache w' = empty_cache.
Proof.
  cbv zeta.
  destruct (admin_done_transition
              (world_with " customer@example.com " [order_with 1 READY None])
              (order_with 1 DONE None) (order_with 1 READY None) noon 7)
    as (Ho & Hc & Hmail & _); try reflexivity; [discriminate|].
  destruct Hmail as [Hout Hlog]; [reflexivity|].
  rewrite Ho, Hc, Hout, Hlog. repeat split; reflexivity.
Defined.

Lemma admin_save_keeps_completion_time_witness :
  let w' := save_model (world_with "customer@example.com" [order_with 1 DONE (Some noon)])
              (order_with 1 IN_PROGRESS (Some noon)) true
              (mkdatetime (mkdate 2024 5 4) 0) 7 in
  orders (db w') !! 1 = Some (order_with 1 IN_PROGRESS (Some noon))
  ∧ outbox w' = [].
Proof.
  cbv zeta.
  destruct (admin_save_keeps_completion_time
              (world_with "customer@example.com" [order_with 1 DONE (Some noon)])
              (order_with 1 IN_PROGRESS (Some noon)) noon
              (mkdatetime (mkdate 2024 5 4) 0) 7)
    as (Ho & Hout & _); [discriminate|reflexivity|].
  rewrite Ho, Hout. split; reflexivity.
Defined.

End AdminFacts.

(** ** Tickets *)

Module TicketFacts.

Section Tickets.
Context `{PyFloat}.

(** X29. A customer writes on a ticket only when it belongs to one of
    the customer's own orders, is not closed and the message is not empty.
    Otherwise nothing is written: a ticket of somebody else is not found, a
    closed ticket and an empty message are answered with an error.  A reply
    that is accepted appends the message with the customer role, moves the
    ticket to WAITING_ADMIN, so that the dashboard counts it as waiting, and
    invalidates the dashboard cache. *)
Theorem customer_ticket_reply
    (d : Desk) (profile : CustomerProfile) (ticket_id : Z)
    (POST : gmap string string) (user : Z) :
  let r := customer_ticket_detail_post d profile ticket_id POST user in
  let s := db (desk_world d) in
  (customer_ticket s profile ticket_id = None → r = (NotFound, d))
  ∧ (∀ t, customer_ticket s profile ticket_id = Some t →
       (ticket_status t = CLOSED ∨ post_get POST "message" = "" →
        desk_messages r.2 = desk_messages d
        ∧ db (desk_world r.2) = s
        ∧ cache (desk_world r.2) = cache (desk_world d)
        ∧ ∃ text, flash (desk_world r.2)
                  = (flash (desk_world d) ++ [(ERROR, text)])%list)
       ∧ (ticket_status t ≠ CLOSED → post_get POST "message" ≠ "" →
          desk_messages r.2
          = (desk_messages d
             ++ [{| mr_message := {| tm_ticket := ticket_pk t;
                                     tm_message := post_get POST "message" |};
                    mr_role := CUSTOMER; mr_author := user |}])%list
          ∧ tickets (db (desk_world r.2))
            = alter (with_ticket_status WAITING_ADMIN) (ticket_pk t) (tickets s)
          ∧ orders (db (desk_world r.2)) = orders s
          ∧ ticket_waiting (with_ticket_status WAITING_ADMIN t) = true
          ∧ cache (desk_world r.2)
            = invalidate_dashboard_cache (cache (desk_world d)))).
Proof.
  cbv zeta. unfold customer_ticket_detail_post. cbv zeta. split.
  - by intros ->.
  - intros t ->. split.
    + intros Hbad. destruct (ticket_status t) eqn:Hst;
        cbn [TicketStatus_eqb]; try (by eauto 10).
      all: destruct Hbad as [?|Hempty]; [done|]; rewrite Hempty; cbn; by eauto 10.
    + intros Hopen Htext.
      assert (Hc : TicketStatus_eqb (ticket_status t) CLOSED = false).
      { by destruct (ticket_status t). }
      rewrite Hc. destruct (post_get POST "message") as [|a text] eqn:Hm; [done|].
      cbn. done.
Qed.

(** The status the admin form asks for, when it names one. *)
Definition requested_status (t : Ticket) (POST : gmap string string) : TicketStatus :=
  default (ticket_status t) (TicketStatus_of_string (post_get POST "status")).

(** X30. The outcome of the admin ticket form on a stored ticket.  With
    [close=1] the ticket is closed and no message is written, whatever else
    is posted.  Otherwise the posted status is applied when it is one of the
    choices; a ticket that is then closed takes no message; one that is not
    takes the posted message, if any, with the admin role, and waits for the
    customer.  No order is written. *)
Theorem admin_ticket_outcome
    (d : Desk) (ticket_id : Z) (t : Ticket) (POST : gmap string string) (user : Z) :
  tickets (db (desk_world d)) !! ticket_id = Some t → ticket_pk t = ticket_id →
  let r := admin_ticket_detail_post d ticket_id POST user in
  let replied :=
    bool_decide (POST !! "close" ≠ Some "1")
    && negb (TicketStatus_eqb (requested_status t POST) CLOSED)
    && PyStr.nonempty (post_get POST "message") in
  let final :=
    if bool_decide (POST !! "close" = Some "1") then CLOSED
    else if replied then WAITING_CUSTOMER else requested_status t POST in
  tickets (db (desk_world r.2)) !! ticket_id = Some (with_ticket_status final t)
  ∧ desk_messages r.2
    = (desk_messages d
       ++ if replied
          then [{| mr_message := {| tm_ticket := ticket_id;
                                    tm_message := post_get POST "message" |};
                   mr_role := ADMIN; mr_author := user |}]
          else [])%list
  ∧ orders (db (desk_world r.2)) = orders (db (desk_world d))
  ∧ r.1 = RedirectOrder "admin_ticket_detail" ticket_id.
Proof.
  intros Ht Hpk. cbv zeta. unfold admin_ticket_detail_post, requested_status.
  rewrite Ht. cbv zeta. rewrite Hpk.
  destruct (decide (POST !! "close" = Some "1")) as [Hclose|Hclose].
  { rewrite (bool_decide_eq_true_2 _ Hclose).
    rewrite (bool_decide_eq_false_2 (POST !! "close" ≠ Some "1")) by (by intros ?).
    cbn [andb fst snd on_world desk_world desk_messages set_db set_cache add_message
         db save_ticket_status tickets orders].
    rewrite Hpk, lookup_alter, decide_True, Ht by done.
    rewrite app_nil_r. done. }
  rewrite (bool_decide_eq_false_2 _ Hclose).
  rewrite (bool_decide_eq_true_2 (POST !! "close" ≠ Some "1")) by done.
  destruct (TicketStatus_of_string (post_get POST "status")) as [st|] eqn:Hst;
    cbn [default andb with_ticket_status ticket_status];
    (destruct (TicketStatus_eqb _ CLOSED) eqn:Hc;
     [|destruct (PyStr.nonempty (post_get POST "message"))]);
    cbn [andb negb fst snd on_world desk_world desk_messages set_db set_cache
         add_message add_ticket_message db save_ticket_status tickets orders
         ticket_pk with_ticket_status];
    rewrite ?Hpk, ?lookup_alter, ?decide_True, ?Ht, ?app_nil_r by done;
    cbn; repeat split; try done; by destruct t.
Qed.

End Tickets.

Import Instances.

Definition ticket_desk (st : TicketStatus) : Desk :=
  {| desk_world :=
       {| db := {| customers := {[ 1 := customer_with "customer@example.com" ]};
                   bikes := {[ 1 := {| bike_pk := 1; bike_customer := 1; brand := "Trek";
                                       model := "Domane"; serial_number := "SN-1" |} ]};
                   orders := {[ 1 := order_with 1 NEW None ]};
                   tickets := {[ 5 := {| ticket_pk := 5; ticket_order := 1;
                                         ticket_status := st; subject := "Question";
                                         message := "" |} ]};
                   logs := [] |};
          cache := empty_cache; outbox := []; flash := [] |};
     desk_messages := [] |}.

Lemma admin_ticket_outcome_witness :
  let r := admin_ticket_detail_post (ticket_desk OPEN) 5
             {[ "status" := "CLOSED"; "message" := "Fixed, thanks." ]} 7 in
  (ticket_status <$> tickets (db (desk_world r.2)) !! 5) = Some CLOSED
  ∧ desk_messages r.2 = [].
Proof.
  cbv zeta.
  destruct (admin_ticket_outcome (ticket_desk OPEN) 5
              {| ticket_pk := 5; ticket_order := 1; ticket_status := OPEN;
                 subject := "Question"; message := "" |}
              {[ "status" := "CLOSED"; "message" := "Fixed, thanks." ]} 7)
    as (Ht & Hm & _); [reflexivity|reflexivity|].
  rewrite Ht, Hm. split; reflexivity.
Defined.

End TicketFacts.
